(** * PyTrack: the [Experiment] class of [PyTrack/Experiment.py]

    A shallow embedding of the orchestration code of [Experiment]:
    construction from the JSON configuration, the lazily built indicator
    matrix, the per-indicator dataset assembled by [analyse] and the
    stimulus search of [getMetaData].

    Python values are embedded as the inductive [pyval]; a call that can
    raise returns a [result]; code that prints, mutates a local dataframe
    and catches exceptions runs in the small monad [ST]. The collaborators
    outside this file ([Sensor], [Subject], numpy, pandas, pingouin and
    the GUI) are the fields of the class [Collaborators] or small
    documented models. *)

From Stdlib Require Import ZArith String List Bool Lia.
From stdpp Require Import base option list strings gmap.

Set Warnings "-register-all,-clear-no-such-hyp".
Set Default Proof Using "Type".

(** ** Python values *)

(** A float is only inspected through [np.isnan]; its value is kept as a
    mantissa and a binary exponent. *)
Inductive pyfloat : Type :=
| FNaN
| FNum (m e : Z).

(** The values [json.load] produces (objects keep their key order, as
    Python dicts do), plus tuples. *)
Inductive pyval : Type :=
| PNone
| PBool (b : bool)
| PInt (z : Z)
| PFloat (f : pyfloat)
| PStr (s : string)
| PList (l : list pyval)
| PTuple (l : list pyval)
| PDict (d : list (string * pyval)).

Inductive exn : Type :=
| KeyError
| IndexError
| TypeError
| ValueError
| AttributeError
| UnboundLocalError
| LibraryError.

(** ** Calls that may raise *)

Inductive result (A : Type) : Type :=
| Ok (a : A)
| Raise (e : exn).
Arguments Ok {A} a.
Arguments Raise {A} e.

Definition rbind {A B} (r : result A) (k : A -> result B) : result B :=
  match r with
  | Ok a => k a
  | Raise e => Raise e
  end.

Definition raises {A} (r : result A) : Prop := exists e, r = Raise e.

Declare Scope result_scope.
Delimit Scope result_scope with res.
Notation "x <- r ;; k" := (rbind r (fun x => k))
  (at level 20, r at level 99, k at level 200, only parsing) : result_scope.
Notation "' pat <- r ;; k" := (rbind r (fun x => match x with pat => k end))
  (at level 20, pat pattern, r at level 99, k at level 200, only parsing) : result_scope.

(** [for x in l: acc = f(acc, x)], stopping at the first exception. *)
Fixpoint rfold {A B} (f : B -> A -> result B) (l : list A) (acc : B) : result B :=
  match l with
  | [] => Ok acc
  | x :: l' => rbind (f acc x) (rfold f l')
  end.

Module Py.

(** First binding of a key in a dict kept as an association list. *)
Fixpoint assoc {V} (k : string) (d : list (string * V)) : option V :=
  match d with
  | [] => None
  | (k', v) :: d' => if String.eqb k k' then Some v else assoc k d'
  end.

(** [d[k]] for a dict with string keys. *)
Definition dict_get {V} (d : list (string * V)) (k : string) : result V :=
  match assoc k d with
  | Some v => Ok v
  | None => Raise KeyError
  end.

(** What Python accepts as a sequence index: an int, or a bool. *)
Definition as_index (k : pyval) : option Z :=
  match k with
  | PInt z => Some z
  | PBool b => Some (if b then 1 else 0)%Z
  | _ => None
  end.

(** [l[z]]: negative indices count from the end. *)
Definition seq_get {A} (l : list A) (z : Z) : result A :=
  let n := Z.of_nat (length l) in
  let i := if (z <? 0)%Z then (z + n)%Z else z in
  if ((0 <=? i) && (i <? n))%Z
  then match l !! Z.to_nat i with
       | Some x => Ok x
       | None => Raise IndexError
       end
  else Raise IndexError.

Fixpoint chars (s : string) : list pyval :=
  match s with
  | EmptyString => []
  | String c s' => PStr (String c EmptyString) :: chars s'
  end.

Fixpoint hashable (v : pyval) : bool :=
  match v with
  | PList _ | PDict _ => false
  | PTuple l => forallb hashable l
  | _ => true
  end.

(** [c[k]] *)
Definition getitem (c k : pyval) : result pyval :=
  match c with
  | PDict d =>
      match k with
      | PStr s => dict_get d s
      | _ => if hashable k then Raise KeyError else Raise TypeError
      end
  | PList l | PTuple l =>
      match as_index k with
      | Some z => seq_get l z
      | None => Raise TypeError
      end
  | PStr s =>
      match as_index k with
      | Some z => seq_get (chars s) z
      | None => Raise TypeError
      end
  | _ => Raise TypeError
  end.

(** [c[k1][k2]...] for string keys. *)
Fixpoint getpath (c : pyval) (ks : list string) : result pyval :=
  match ks with
  | [] => Ok c
  | k :: ks' => rbind (getitem c (PStr k)) (fun c' => getpath c' ks')
  end.

(** The items [for x in c] visits. *)
Definition iter (c : pyval) : result (list pyval) :=
  match c with
  | PList l | PTuple l => Ok l
  | PDict d => Ok (map (fun kv => PStr (fst kv)) d)
  | PStr s => Ok (chars s)
  | _ => Raise TypeError
  end.

(** [a + b] where [a] is a [str]. *)
Definition str_add (a : string) (b : pyval) : result string :=
  match b with
  | PStr s => Ok (a +:+ s)
  | _ => Raise TypeError
  end.

(** [a + b] where [b] is a [str]. *)
Definition add_str (a : pyval) (b : string) : result string :=
  match a with
  | PStr s => Ok (s +:+ b)
  | _ => Raise TypeError
  end.

(** Equality of two values usable as the keys met in this program:
    strings, and ints (a bool is the int 0 or 1). *)
Definition key_eqb (a b : pyval) : bool :=
  match a, b with
  | PStr s, PStr t => String.eqb s t
  | PNone, PNone => true
  | _, _ =>
      match as_index a, as_index b with
      | Some x, Some y => (x =? y)%Z
      | _, _ => false
      end
  end.

Fixpoint kassoc {V} (k : pyval) (d : list (pyval * V)) : option V :=
  match d with
  | [] => None
  | (k', v) :: d' => if key_eqb k' k then Some v else kassoc k d'
  end.

Definition kdict_get {V} (d : list (pyval * V)) (k : pyval) : result V :=
  if hashable k
  then match kassoc k d with
       | Some v => Ok v
       | None => Raise KeyError
       end
  else Raise TypeError.

(** [d[k] = v] on an insertion-ordered dict: an existing key keeps its
    place, a new key goes last. *)
Fixpoint kdict_set {V} (d : list (pyval * V)) (k : pyval) (v : V) : list (pyval * V) :=
  match d with
  | [] => [(k, v)]
  | (k', v') :: d' =>
      if key_eqb k' k then (k', v) :: d' else (k', v') :: kdict_set d' k v
  end.

(** [x in c] for a string [x]. *)
Definition contains_str (c : pyval) (x : string) : result bool :=
  match c with
  | PList l | PTuple l =>
      Ok (existsb (fun v => match v with PStr s => String.eqb s x | _ => false end) l)
  | PDict d => Ok (existsb (fun kv => String.eqb (fst kv) x) d)
  | PStr s => Ok (match String.index 0 x s with Some _ => true | None => false end)
  | _ => Raise TypeError
  end.

(** [c.index(x)] for a string [x]: the first position, never a negative
    number; [ValueError] when [x] is absent. *)
Fixpoint list_index (x : string) (l : list pyval) : option nat :=
  match l with
  | [] => None
  | v :: l' =>
      match v with
      | PStr s => if String.eqb s x then Some 0 else option_map S (list_index x l')
      | _ => option_map S (list_index x l')
      end
  end.

Definition index_of (c : pyval) (x : string) : result nat :=
  match c with
  | PList l | PTuple l =>
      match list_index x l with
      | Some i => Ok i
      | None => Raise ValueError
      end
  | PStr s =>
      match String.index 0 x s with
      | Some i => Ok i
      | None => Raise ValueError
      end
  | _ => Raise AttributeError
  end.

End Py.

(** ** State and exceptions

    [ST S A] is a computation over a mutable state [S] that returns an [A]
    or raises; what was mutated before an exception stays mutated. *)

Definition ST (S A : Type) : Type := S -> result A * S.

Definition st_ret {S A} (a : A) : ST S A := fun s => (Ok a, s).

Definition st_bind {S A B} (m : ST S A) (k : A -> ST S B) : ST S B :=
  fun s => match m s with
           | (Ok a, s') => k a s'
           | (Raise e, s') => (Raise e, s')
           end.

Definition st_lift {S A} (r : result A) : ST S A := fun s => (r, s).

Definition st_get {S} : ST S S := fun s => (Ok s, s).

Definition st_modify {S} (f : S -> S) : ST S unit := fun s => (Ok tt, f s).

(** [try: body  except: handler] with a bare [except]. *)
Definition try_except {S A} (body handler : ST S A) : ST S A :=
  fun s => match body s with
           | (Ok a, s') => (Ok a, s')
           | (Raise _, s') => handler s'
           end.

(** [for x in l: body(x)] *)
Fixpoint for_each {S A} (l : list A) (body : A -> ST S unit) : ST S unit :=
  match l with
  | [] => st_ret tt
  | x :: l' => st_bind (body x) (fun _ => for_each l' body)
  end.

(** [for x in l: acc = body(acc, x)] *)
Fixpoint st_fold {S A B} (body : B -> A -> ST S B) (l : list A) (acc : B) : ST S B :=
  match l with
  | [] => st_ret acc
  | x :: l' => st_bind (body acc x) (st_fold body l')
  end.

Declare Scope st_scope.
Delimit Scope st_scope with st.
Notation "x <- m ;; k" := (st_bind m (fun x => k))
  (at level 20, m at level 99, k at level 200, only parsing) : st_scope.
Notation "' pat <- m ;; k" := (st_bind m (fun x => match x with pat => k end))
  (at level 20, pat pattern, m at level 99, k at level 200, only parsing) : st_scope.

(** [enumerate(l)] *)
Fixpoint enumerate_from {A} (i : nat) (l : list A) : list (nat * A) :=
  match l with
  | [] => []
  | x :: l' => (i, x) :: enumerate_from (S i) l'
  end.

Definition enumerate {A} (l : list A) : list (nat * A) := enumerate_from 0 l.

(** ** numpy arrays of [dtype=object] with two axes *)

Module Np.

Record ndarray : Type := mk_ndarray {
  shape0 : nat;
  shape1 : nat;
  cells : list (list pyval)
}.

(** [np.ndarray((r, c), dtype=object)]: every cell starts as [None]. *)
Definition new (r c : nat) : ndarray :=
  {| shape0 := r; shape1 := c; cells := replicate r (replicate c PNone) |}.

Definition in_range (a : ndarray) (i j : nat) : bool :=
  (i <? shape0 a)%nat && (j <? shape1 a)%nat.

(** [a[i, j]] for indices that come from [enumerate]. *)
Definition get (a : ndarray) (i j : nat) : result pyval :=
  if in_range a i j
  then match cells a !! i ≫= (fun row => row !! j) with
       | Some v => Ok v
       | None => Raise IndexError
       end
  else Raise IndexError.

(** [a[i, j] = v] *)
Definition set (a : ndarray) (i j : nat) (v : pyval) : result ndarray :=
  if in_range a i j
  then Ok {| shape0 := shape0 a; shape1 := shape1 a;
             cells := alter (fun row => <[j := v]> row) i (cells a) |}
  else Raise IndexError.

(** Every row is there and has the declared length. *)
Definition well_formed (a : ndarray) : Prop :=
  length (cells a) = shape0 a /\ Forall (fun row => length row = shape1 a) (cells a).

End Np.

(** ** The data model *)

(** What a [Subject] reads its data from. *)
Inductive database : Type :=
| SqlEngine (url : string)
| CsvFiles (directory : string).

Module Subject.

(** The collaborator class [Subject]: the arguments it was constructed
    with and the attributes [Experiment] reads back. [aggregate_meta] maps
    a stimulus type to the indicators extracted for it. *)
Record t : Type := mk {
  path : pyval;
  name : pyval;
  subj_type : pyval;
  stimuli : list (pyval * pyval);
  columns : list pyval;
  json_file : string;
  sensors : list string;
  database : database;
  reading_method : string;
  aoi_coords : pyval;
  aggregate_meta : list (string * list (string * pyval))
}.

End Subject.

Record Experiment : Type := mkExperiment {
  path : pyval;
  name : pyval;
  json_file : string;
  sensors : list string;
  aoi_coords : pyval;
  columns : list pyval;
  stimuli : list (pyval * pyval);
  subjects : list Subject.t;
  meta_matrix_dict : list string * gmap string Np.ndarray
}.

Definition set_subjects (e : Experiment) (l : list Subject.t) : Experiment :=
  {| path := path e; name := name e; json_file := json_file e;
     sensors := sensors e; aoi_coords := aoi_coords e; columns := columns e;
     stimuli := stimuli e; subjects := l;
     meta_matrix_dict := meta_matrix_dict e |}.

Definition set_meta_matrix_dict (e : Experiment)
    (m : list string * gmap string Np.ndarray) : Experiment :=
  {| path := path e; name := name e; json_file := json_file e;
     sensors := sensors e; aoi_coords := aoi_coords e; columns := columns e;
     stimuli := stimuli e; subjects := subjects e;
     meta_matrix_dict := m |}.

(** [pd.DataFrame(columns=...)] filled row by row. *)
Record dataframe : Type := mk_dataframe {
  df_columns : list string;
  df_rows : list (list pyval)
}.

(** What [analyse] prints. *)
Inductive message : Type :=
| NotInParameterList (meta : string)
| BlankLines
| AnalysisFor (meta : string)
| BetweenNotDefined (param : string)
| WithinNotDefined (param : string)
| NullValue (row : list pyval)
| DataInstantiationError
| TestBanner (meta test : string).

(** A call into the statistics library. *)
Record pg_call : Type := mk_pg_call {
  pg_function : string;
  pg_dv : string;
  pg_within : list string;
  pg_between : list string;
  pg_data : dataframe
}.

(** What a run of [analyse] acts on: the local dataframe [data], the text
    printed so far and the library calls made so far. *)
Record world : Type := mk_world {
  data : dataframe;
  stdout : list message;
  pg_calls : list pg_call
}.

(** ** The window of [visualizeData] *)

Module Visualize.

(** The attributes of a [Visualize] object its callbacks read: the subjects,
    the value of the variable [v] of the two radio buttons, and the values
    of the checkbox variables [chk_bt_var], an attribute that exists only
    once [subFrameSetup] has run in group mode. The widgets are not kept. *)
Record t : Type := mk {
  subjects : list Subject.t;
  v : Z;
  chk_bt_var : option (list Z)
}.

End Visualize.

(** A call of [subjectVisualize]: on one subject, or on the first subject of
    a group with the whole group as [sub_list]. *)
Inductive viz_call : Type :=
| SingleVisualize (sub : Subject.t)
| GroupVisualize (sub : Subject.t) (sub_list : list Subject.t).

(** ** The collaborators

    What the code of [Experiment] calls and this file does not hold. *)

Class Collaborators : Type := {
  (** [Sensor.meta_cols]: for each sensor type, the names of the indicators
      extracted for it. *)
  Sensor_meta_cols : list (string * list string);
  (** What [Subject.__init__] leaves in [aggregate_meta]. *)
  initial_aggregate_meta : list (string * list (string * pyval));
  (** [sub.subjectAnalysis(average_flag, standardise_flag)]: it mutates the
      subject and may raise. *)
  subjectAnalysis : bool -> bool -> ST Subject.t unit;
  (** The rectangle the user selects in the window [drawAOI] opens. *)
  gui_selection : result pyval;
  (** The content of a fresh [np.ndarray(n, dtype=str)] cell, and numpy's
      conversion of a value stored into such a cell. *)
  np_uninitialised : nat -> string;
  np_str : pyval -> string;
  (** The statistics library: a call returns or raises. *)
  pg : pg_call -> result unit;
  (** [np.isnan] followed by the truth test of [if], on a value that is a
      sequence: numpy decides. *)
  np_isnan_seq : list pyval -> result bool;
  (** Python's [==] between a subject object of [self.subjects] and the
      argument [sub]. *)
  Subject_eqb : Subject.t -> pyval -> bool;
  (** [s.stimulus[stim_cat][stim_ind].sensors[sensor].metadata] *)
  stimulus_metadata : Subject.t -> pyval -> Z -> string -> result pyval
}.

(** ** Construction of an [Experiment] *)

Section Program.

Context `{Ext : Collaborators}.

(** [columnsArrayInitialisation]; [json_data] is the parsed content of
    [self.json_file]. *)
Definition columnsArrayInitialisation (sensors : list string) (json_data : pyval)
    : result (list pyval) :=
  let column_classes := sensors ++ ["Extra"] in
  rfold (fun column_list col_class =>
           (names <- Py.getpath json_data ["Columns_of_interest"; col_class] ;;
            items <- Py.iter names ;;
            Ok (column_list ++ items))%res)
        column_classes [].

(** [stimuliArrayInitialisation] *)
Definition stimuliArrayInitialisation (json_data : pyval)
    : result (list (pyval * pyval)) :=
  (stimuli_data <- Py.getitem json_data (PStr "Stimuli") ;;
   ks <- Py.iter stimuli_data ;;
   rfold (fun data_dict k =>
            v <- Py.getitem stimuli_data k ;;
            if Py.hashable k then Ok (Py.kdict_set data_dict k v)
            else Raise TypeError)
         ks [])%res.

(** The local variable [database] of [subjectArrayInitialisation]: it is
    bound only under the two known reading methods. *)
Definition select_database (path : pyval) (json_data : pyval)
    (reading_method : string) : result (option database) :=
  (if String.eqb reading_method "SQL" then
     name_of_database <- Py.getitem json_data (PStr "Experiment_name") ;;
     s1 <- Py.str_add "sqlite:///" path ;;
     s2 <- Py.str_add (s1 +:+ "/Data/") name_of_database ;;
     Ok (Some (SqlEngine (s2 +:+ ".db")))
   else if String.eqb reading_method "CSV" then
     s <- Py.add_str path "/Data/csv_files" ;;
     Ok (Some (CsvFiles s))
   else Ok None)%res.

(** [subjectArrayInitialisation]; [self] has its path, stimuli, columns,
    json_file, sensors and aoi_coords by the time it is called. The engine
    [create_engine] opens is kept as its URL; disposing of it at the end
    changes nothing here. *)
Definition subjectArrayInitialisation (path : pyval)
    (stimuli : list (pyval * pyval)) (columns : list pyval)
    (json_file : string) (sensors : list string) (aoi_coords : pyval)
    (json_data : pyval) (reading_method : string) : result (list Subject.t) :=
  (subject_data <- Py.getitem json_data (PStr "Subjects") ;;
   database <- select_database path json_data reading_method ;;
   ks <- Py.iter subject_data ;;
   rfold (fun subject_list k =>
            group <- Py.getitem subject_data k ;;
            names <- Py.iter group ;;
            rfold (fun subject_list subject_name =>
                     match database with
                     | Some db =>
                         Ok (subject_list ++
                               [Subject.mk path subject_name k stimuli columns
                                  json_file sensors db reading_method aoi_coords
                                  initial_aggregate_meta])
                     | None => Raise UnboundLocalError
                     end)
                  names subject_list)
         ks [])%res.

(** [drawAOI]: the display size is read first, the rest is the window. *)
Definition drawAOI (path : pyval) (json_data : pyval) : result pyval :=
  (_ <- Py.getpath json_data ["Analysis_Params"; "EyeTracker"; "Display_width"] ;;
   _ <- Py.getpath json_data ["Analysis_Params"; "EyeTracker"; "Display_height"] ;;
   _ <- Py.add_str path "/Stimuli/" ;;
   gui_selection)%res.

(** The AOI block of [__init__]. *)
Definition aoi_initialisation (path : pyval) (json_data : pyval) (aoi : pyval)
    : result pyval :=
  match aoi with
  | PStr s =>
      if String.eqb s "draw" then drawAOI path json_data
      else
        (w <- Py.getpath json_data ["Analysis_Params"; "EyeTracker"; "Display_width"] ;;
         h <- Py.getpath json_data ["Analysis_Params"; "EyeTracker"; "Display_height"] ;;
         Ok (PTuple [PInt 0; PInt 0; w; h]))%res
  | _ => Ok aoi
  end.

(** [Experiment.__init__]; the file [json_file] holds [json_data] while the
    constructor runs. The directory [<path>/Subjects/] the last lines
    create is outside the model; building its name still needs [path] to
    be a string. *)
Definition Experiment_init (json_file : string) (json_data : pyval)
    (reading_method : string) (sensors : list string) (aoi : pyval)
    : result Experiment :=
  (path <- Py.getitem json_data (PStr "Path") ;;
   name <- Py.getitem json_data (PStr "Experiment_name") ;;
   aoi_coords <- aoi_initialisation path json_data aoi ;;
   columns <- columnsArrayInitialisation sensors json_data ;;
   stimuli <- stimuliArrayInitialisation json_data ;;
   subjects <- subjectArrayInitialisation path stimuli columns json_file sensors
                 aoi_coords json_data reading_method ;;
   _ <- Py.add_str path "/Subjects/" ;;
   Ok {| path := path; name := name; json_file := json_file;
         sensors := sensors; aoi_coords := aoi_coords; columns := columns;
         stimuli := stimuli; subjects := subjects;
         meta_matrix_dict :=
           (map np_uninitialised (seq 0 (length subjects)), ∅) |})%res.

(** ** The indicator matrix *)

(** The first loop of [metaMatrixInitialisation]: one fresh array per
    indicator name. *)
Definition allocate_matrices : ST Experiment unit :=
  for_each (map fst Sensor_meta_cols) (fun sensor_type =>
    (meta_cols <- st_lift (Py.dict_get Sensor_meta_cols sensor_type) ;;
     for_each meta_cols (fun meta_col =>
       st_modify (fun e =>
         set_meta_matrix_dict e
           (fst (meta_matrix_dict e),
            <[meta_col := Np.new (length (subjects e)) (length (stimuli e))]>
              (snd (meta_matrix_dict e))))))%st).

(** [self.meta_matrix_dict[0][sub_index] = v] *)
Definition set_subject_type (sub_index : nat) (v : pyval) : ST Experiment unit :=
  fun e =>
    let types := fst (meta_matrix_dict e) in
    if (sub_index <? length types)%nat
    then (Ok tt, set_meta_matrix_dict e
                   (<[sub_index := np_str v]> types, snd (meta_matrix_dict e)))
    else (Raise IndexError, e).

(** [self.meta_matrix_dict[1][meta][sub_index, stim_index] = v] *)
Definition set_cell (meta : string) (sub_index stim_index : nat) (v : pyval)
    : ST Experiment unit :=
  fun e =>
    match snd (meta_matrix_dict e) !! meta with
    | None => (Raise KeyError, e)
    | Some a =>
        match Np.set a sub_index stim_index v with
        | Raise x => (Raise x, e)
        | Ok a' =>
            (Ok tt, set_meta_matrix_dict e
                      (fst (meta_matrix_dict e),
                       <[meta := a']> (snd (meta_matrix_dict e))))
        end
    end.

(** Run a method of the subject at [sub_index]; the list holds the object,
    so the mutation is seen through [self.subjects]. *)
Definition on_subject {A} (sub_index : nat) (m : ST Subject.t A) : ST Experiment A :=
  fun e =>
    match subjects e !! sub_index with
    | None => (Raise IndexError, e)
    | Some sub =>
        let '(r, sub') := m sub in
        (r, set_subjects e (<[sub_index := sub']> (subjects e)))
    end.

(** The body of the loop over subjects in [metaMatrixInitialisation]. *)
Definition fill_subject (standardise_flag average_flag : bool) (sub_index : nat)
    : ST Experiment unit :=
  (_ <- on_subject sub_index (subjectAnalysis average_flag standardise_flag) ;;
   sub <- on_subject sub_index st_get ;;
   _ <- set_subject_type sub_index (Subject.subj_type sub) ;;
   for_each (enumerate (map fst (Subject.aggregate_meta sub)))
     (fun '(stim_index, stimuli_type) =>
        metas <- st_lift (Py.dict_get (Subject.aggregate_meta sub) stimuli_type) ;;
        for_each (map fst metas) (fun meta =>
          v <- st_lift (Py.dict_get metas meta) ;;
          set_cell meta sub_index stim_index v)))%st.

Definition metaMatrixInitialisation (standardise_flag average_flag : bool)
    : ST Experiment unit :=
  (_ <- allocate_matrices ;;
   e <- st_get ;;
   for_each (seq 0 (length (subjects e)))
     (fill_subject standardise_flag average_flag))%st.

(** ** The dataset assembled by [analyse] *)

Definition print (m : message) : ST world unit :=
  st_modify (fun w => {| data := data w; stdout := stdout w ++ [m];
                         pg_calls := pg_calls w |}).

Definition set_data (d : dataframe) : ST world unit :=
  st_modify (fun w => {| data := d; stdout := stdout w; pg_calls := pg_calls w |}).

Definition call_pg (f dv : string) (within between : list string) : ST world unit :=
  fun w =>
    let c := mk_pg_call f dv within between (data w) in
    (pg c, {| data := data w; stdout := stdout w; pg_calls := pg_calls w ++ [c] |}).

(** [if (np.isnan(value))]: the ufunc is defined on numbers only, and an
    int must fit a machine word. *)
Definition np_isnan (value : pyval) : result bool :=
  match value with
  | PFloat FNaN => Ok true
  | PFloat (FNum _ _) => Ok false
  | PBool _ => Ok false
  | PInt z =>
      if ((- 2 ^ 63 <=? z) && (z <? 2 ^ 64))%Z then Ok false else Raise TypeError
  | PList l | PTuple l => np_isnan_seq l
  | _ => Raise TypeError
  end.

(** [data.loc[len(data)] = row]: pandas refuses a row whose length is not
    the number of columns; the labels in use are [0 .. len(data) - 1], so
    the row is always a new one. *)
Definition loc_append (row : list pyval) : ST world unit :=
  fun w =>
    if (length row =? length (df_columns (data w)))%nat
    then (Ok tt, {| data := {| df_columns := df_columns (data w);
                               df_rows := df_rows (data w) ++ [row] |};
                    stdout := stdout w; pg_calls := pg_calls w |})
    else (Raise ValueError, w).

(** [json_data["Subjects"][sub.subj_type][sub.name][param]] *)
Definition between_value (json_data : pyval) (sub : Subject.t) (param : string)
    : result pyval :=
  (d1 <- Py.getitem json_data (PStr "Subjects") ;;
   d2 <- Py.getitem d1 (Subject.subj_type sub) ;;
   d3 <- Py.getitem d2 (Subject.name sub) ;;
   Py.getitem d3 (PStr param))%res.

(** The two statements in the [try] of the within-group loop. *)
Definition within_value (e : Experiment) (json_data : pyval)
    (stimuli_index : nat) (stimuli_type param : string) : result pyval :=
  (names <- Py.kdict_get (stimuli e) (PStr stimuli_type) ;;
   stimulus_name <- Py.getitem names (PInt (Z.of_nat stimuli_index)) ;;
   d1 <- Py.getitem json_data (PStr "Stimuli") ;;
   d2 <- Py.getitem d1 (PStr stimuli_type) ;;
   d3 <- Py.getitem d2 stimulus_name ;;
   Py.getitem d3 (PStr param))%res.

(** One turn of [for param in between_factor_list]. *)
Definition between_step (json_data : pyval) (sub : Subject.t)
    (row : list pyval) (param : string) : ST world (list pyval) :=
  if String.eqb param "Subject_type" then st_ret row
  else try_except
         (v <- st_lift (between_value json_data sub param) ;;
          st_ret (row ++ [v]))%st
         (_ <- print (BetweenNotDefined param) ;; st_ret row)%st.

(** One turn of [for param in within_factor_list]. *)
Definition within_step (e : Experiment) (json_data : pyval)
    (stimuli_index : nat) (stimuli_type : string)
    (row : list pyval) (param : string) : ST world (list pyval) :=
  if String.eqb param "Stimuli_type" then st_ret row
  else try_except
         (v <- st_lift (within_value e json_data stimuli_index stimuli_type param) ;;
          st_ret (row ++ [v]))%st
         (_ <- print (WithinNotDefined param) ;; st_ret row)%st.

(** The body of [for value in value_array]. *)
Definition store_value (e : Experiment) (json_data : pyval)
    (between_factor_list within_factor_list : list string)
    (sub : Subject.t) (stimuli_index : nat) (stimuli_type : string)
    (value : pyval) : ST world unit :=
  (let row := [value; Subject.subj_type sub] in
   row <- st_fold (between_step json_data sub) between_factor_list row ;;
   let row := row ++ [PStr stimuli_type] in
   row <- st_fold (within_step e json_data stimuli_index stimuli_type)
            within_factor_list row ;;
   let row := row ++ [Subject.name sub] in
   isnan <- st_lift (np_isnan value) ;;
   _ <- (if isnan : bool then print (NullValue row) else st_ret tt) ;;
   loc_append row)%st.

(** [self.meta_matrix_dict[1][meta][sub_index, stimuli_index]] *)
Definition matrix_cell (e : Experiment) (meta : string)
    (sub_index stimuli_index : nat) : result pyval :=
  match snd (meta_matrix_dict e) !! meta with
  | None => Raise KeyError
  | Some a => Np.get a sub_index stimuli_index
  end.

(** The body of the loop over the stimulus types of one subject. *)
Definition store_cell (e : Experiment) (json_data : pyval) (meta : string)
    (between_factor_list within_factor_list : list string)
    (sub_index : nat) (sub : Subject.t) (stimuli_index : nat)
    (stimuli_type : string) : ST world unit :=
  (value_array <- st_lift (matrix_cell e meta sub_index stimuli_index) ;;
   try_except
     (values <- st_lift (Py.iter value_array) ;;
      for_each values
        (store_value e json_data between_factor_list within_factor_list
           sub stimuli_index stimuli_type))
     (print DataInstantiationError))%st.

(** Lines 377 to 436: the dataframe of one indicator. *)
Definition assemble (e : Experiment) (json_data : pyval) (meta : string)
    (between_factor_list within_factor_list : list string) : ST world unit :=
  (let column_list :=
     [meta] ++ between_factor_list ++ within_factor_list ++ ["subject"] in
   _ <- set_data {| df_columns := column_list; df_rows := [] |} ;;
   for_each (enumerate (subjects e)) (fun '(sub_index, sub) =>
     for_each (enumerate (map fst (Subject.aggregate_meta sub)))
       (fun '(stimuli_index, stimuli_type) =>
          store_cell e json_data meta between_factor_list within_factor_list
            sub_index sub stimuli_index stimuli_type)))%st.

(** [l[0]] *)
Definition first_of (l : list string) : result string :=
  match l with
  | x :: _ => Ok x
  | [] => Raise IndexError
  end.

(** Lines 440 to 462: the statistical test run on [data]. *)
Definition run_test (meta : string)
    (between_factor_list within_factor_list : list string)
    (statistical_test : string) : ST world unit :=
  (if String.eqb statistical_test "Mixed_anova" then
     _ <- print (TestBanner meta "Mixed anova") ;;
     w0 <- st_lift (first_of within_factor_list) ;;
     b0 <- st_lift (first_of between_factor_list) ;;
     _ <- call_pg "mixed_anova" meta [w0] [b0] ;;
     call_pg "pairwise_ttests" meta [w0] [b0]
   else if String.eqb statistical_test "RM_anova" then
     _ <- print (TestBanner meta "RM Anova") ;;
     call_pg "rm_anova" meta within_factor_list []
   else if String.eqb statistical_test "ttest" then
     _ <- print (TestBanner meta "t test") ;;
     call_pg "pairwise_ttests" meta within_factor_list between_factor_list
   else if String.eqb statistical_test "anova" then
     _ <- print (TestBanner meta "ANOVA") ;;
     call_pg "anova" meta [] between_factor_list
   else st_ret tt)%st.

Definition str_in (x : string) (l : list string) : bool :=
  existsb (String.eqb x) l.

(** [analyse]; [json_data] is the content of [self.json_file] at the call. *)
Definition analyse (e : Experiment) (json_data : pyval)
    (parameter_list between_factor_list within_factor_list : list string)
    (statistical_test : string) : ST world unit :=
  (eye_columns <- st_lift (Py.getpath json_data ["Columns_of_interest"; "EyeTracker"]) ;;
   has_aoi <- st_lift (Py.contains_str eye_columns "GazeAOI") ;;
   let meta_not_to_be_considered :=
     ["pupil_size"; "pupil_size_downsample"] ++
     (if has_aoi : bool then [] else ["no_revisits"; "first_pass"; "second_pass"]) in
   for_each (sensors e) (fun sen =>
     metas <- st_lift (Py.dict_get Sensor_meta_cols sen) ;;
     for_each metas (fun meta =>
       if str_in meta meta_not_to_be_considered then st_ret tt
       else if negb (str_in "all" parameter_list) && negb (str_in meta parameter_list)
       then print (NotInParameterList meta)
       else
         _ <- print BlankLines ;;
         _ <- print (AnalysisFor meta) ;;
         _ <- assemble e json_data meta between_factor_list within_factor_list ;;
         run_test meta between_factor_list within_factor_list statistical_test)))%st.

(** ** [getMetaData] *)

(** [self.subjects.index(sub)] *)
Fixpoint subjects_index (l : list Subject.t) (sub : pyval) : result nat :=
  match l with
  | [] => Raise ValueError
  | s :: l' =>
      if Subject_eqb s sub then Ok 0%nat
      else (i <- subjects_index l' sub ;; Ok (S i))%res
  end.

(** The loop [for cat in self.stimuli] with its two locals; [cats] is what
    is left to visit. *)
Fixpoint search_category (stimuli : list (pyval * pyval)) (cats : list pyval)
    (stim : string) (stim_cat : pyval) (stim_ind : Z) : result (pyval * Z) :=
  match cats with
  | [] => Ok (stim_cat, stim_ind)
  | cat :: cats' =>
      (names <- Py.kdict_get stimuli cat ;;
       i <- Py.index_of names stim ;;
       let stim_ind := Z.of_nat i in
       if negb (stim_ind =? -1)%Z then Ok (cat, stim_ind)
       else search_category stimuli cats' stim stim_cat stim_ind)%res
  end.

Definition aggregate_meta_value (m : list (string * list (string * pyval))) : pyval :=
  PDict (map (fun kv => (fst kv, PDict (snd kv))) m).

Definition nth_subject (e : Experiment) (i : nat) : result Subject.t :=
  match subjects e !! i with
  | Some s => Ok s
  | None => Raise IndexError
  end.

Definition getMetaData (e : Experiment) (sub : pyval) (stim : option string)
    (sensor : string) : result pyval :=
  match stim with
  | None =>
      (sub_ind <- subjects_index (subjects e) sub ;;
       s <- nth_subject e sub_ind ;;
       Ok (aggregate_meta_value (Subject.aggregate_meta s)))%res
  | Some stim =>
      (sub_ind <- subjects_index (subjects e) sub ;;
       ' (stim_cat, stim_ind) <-
          search_category (stimuli e) (map fst (stimuli e)) stim (PStr "") (-1) ;;
       s <- nth_subject e sub_ind ;;
       stimulus_metadata s stim_cat stim_ind sensor)%res
  end.

(** ** The callbacks of [Visualize] *)

(** [subFrameSetup], as far as the attributes go: in group mode every
    subject gets a fresh variable, and a fresh [tk.IntVar()] holds 0. *)
Definition subFrameSetup (self : Visualize.t) : Visualize.t :=
  if (Visualize.v self =? 1)%Z
  then {| Visualize.subjects := Visualize.subjects self;
          Visualize.v := Visualize.v self;
          Visualize.chk_bt_var :=
            Some (map (fun _ => 0%Z) (seq 0 (length (Visualize.subjects self)))) |}
  else self.

(** [button_click]: the result is the call of [subjectVisualize] it ends
    with. [sub] is [None] when the button is the one labelled Visualize. *)
Definition button_click (self : Visualize.t) (sub : option Subject.t)
    : result viz_call :=
  match sub with
  | None =>
      match Visualize.chk_bt_var self with
      | None => Raise AttributeError
      | Some vars =>
          (sub_list <-
             rfold (fun sub_list '(ind, i) =>
                      if (i =? 1)%Z
                      then match Visualize.subjects self !! ind with
                           | Some s => Ok (sub_list ++ [s])
                           | None => Raise IndexError
                           end
                      else Ok sub_list)
                   (enumerate vars) [] ;;
           match sub_list with
           | first :: _ => Ok (GroupVisualize first sub_list)
           | [] => Raise IndexError
           end)%res
      end
  | Some s => Ok (SingleVisualize s)
  end.

(** ** Notions the properties are stated with *)

(** The subject built at line 220. *)
Definition new_subject (path : pyval) (stimuli : list (pyval * pyval))
    (columns : list pyval) (json_file : string) (sensors : list string)
    (aoi_coords : pyval) (reading_method : string) (db : database)
    (k subject_name : pyval) : Subject.t :=
  Subject.mk path subject_name k stimuli columns json_file sensors db
    reading_method aoi_coords initial_aggregate_meta.

(** [preserves I m]: whatever [m] returns or raises, it keeps [I]. *)
Definition preserves {S A} (I : S -> Prop) (m : ST S A) : Prop :=
  forall s, I s -> I (snd (m s)).

(** The invariant of the indicator matrix: every array it holds has one
    row per subject and one column per stimulus category. *)
Definition matrix_shaped (e : Experiment) : Prop :=
  forall indicator a,
    snd (meta_matrix_dict e) !! indicator = Some a ->
    Np.shape0 a = length (subjects e) /\
    Np.shape1 a = length (stimuli e) /\
    Np.well_formed a.

(** What no step of [metaMatrixInitialisation] changes. *)
Definition same_frame (e0 e : Experiment) : Prop :=
  length (subjects e) = length (subjects e0) /\ stimuli e = stimuli e0.

Definition shaped_in_frame (e0 e : Experiment) : Prop :=
  same_frame e0 e /\ matrix_shaped e.

(** The experiments on which [metaMatrixInitialisation] has been run, once
    or more, starting from [e0]; a run that raises still counts, the object
    keeps what the run did to it. *)
Inductive has_run (e0 : Experiment) : Experiment -> Prop :=
| run_first s a : has_run e0 (snd (metaMatrixInitialisation s a e0))
| run_again s a e : has_run e0 e -> has_run e0 (snd (metaMatrixInitialisation s a e)).

(** The indicator names of [Sensor.meta_cols]. *)
Definition listed_indicator (indicator : string) : Prop :=
  exists sensor_type meta_cols,
    Py.dict_get Sensor_meta_cols sensor_type = Ok meta_cols /\ In indicator meta_cols.

Definition has_indicator (indicator : string) (e : Experiment) : Prop :=
  is_Some (snd (meta_matrix_dict e) !! indicator).

Definition only_listed (e : Experiment) : Prop :=
  forall indicator, has_indicator indicator e -> listed_indicator indicator.

(** Everything the row loop does to the world: it appends rows to [data]
    and text to the output. *)
Definition extend (w : world) (rows : list (list pyval)) (msgs : list message) : world :=
  {| data := {| df_columns := df_columns (data w);
                df_rows := df_rows (data w) ++ rows |};
     stdout := stdout w ++ msgs;
     pg_calls := pg_calls w |}.

Section Rows.

Variable e : Experiment.
Variable json_data : pyval.
Variables between_factor_list within_factor_list : list string.

(** The value of an extra between-group factor for a subject, when the
    configuration defines it. *)
Definition between_cells (sub : Subject.t) (param : string) : list pyval :=
  if String.eqb param "Subject_type" then []
  else match between_value json_data sub param with
       | Ok v => [v]
       | Raise _ => []
       end.

Definition between_messages (sub : Subject.t) (param : string) : list message :=
  if String.eqb param "Subject_type" then []
  else match between_value json_data sub param with
       | Ok _ => []
       | Raise _ => [BetweenNotDefined param]
       end.

(** The same for an extra within-group factor of a stimulus type. *)
Definition within_cells (stimuli_index : nat) (stimuli_type param : string)
    : list pyval :=
  if String.eqb param "Stimuli_type" then []
  else match within_value e json_data stimuli_index stimuli_type param with
       | Ok v => [v]
       | Raise _ => []
       end.

Definition within_messages (stimuli_index : nat) (stimuli_type param : string)
    : list message :=
  if String.eqb param "Stimuli_type" then []
  else match within_value e json_data stimuli_index stimuli_type param with
       | Ok _ => []
       | Raise _ => [WithinNotDefined param]
       end.

(** The row of one value as [store_value] builds it: the value, the
    subject's type, what the lookups of the extra between-group factors
    found, the stimulus type, what the lookups of the extra within-group
    factors found, the subject's name. *)
Definition row_of (sub : Subject.t) (stimuli_index : nat) (stimuli_type : string)
    (value : pyval) : list pyval :=
  [value; Subject.subj_type sub]
  ++ flat_map (between_cells sub) between_factor_list
  ++ [PStr stimuli_type]
  ++ flat_map (within_cells stimuli_index stimuli_type) within_factor_list
  ++ [Subject.name sub].

Definition factor_messages (sub : Subject.t) (stimuli_index : nat)
    (stimuli_type : string) : list message :=
  flat_map (between_messages sub) between_factor_list
  ++ flat_map (within_messages stimuli_index stimuli_type) within_factor_list.

(** A value is stored when [np.isnan] accepts it and its row has as many
    entries as the dataframe has columns. *)
Definition stored (ncols : nat) (sub : Subject.t) (stimuli_index : nat)
    (stimuli_type : string) (value : pyval) : bool :=
  match np_isnan value with
  | Ok _ => (length (row_of sub stimuli_index stimuli_type value) =? ncols)%nat
  | Raise _ => false
  end.

Definition value_messages (sub : Subject.t) (stimuli_index : nat)
    (stimuli_type : string) (value : pyval) : list message :=
  factor_messages sub stimuli_index stimuli_type
  ++ match np_isnan value with
     | Ok true => [NullValue (row_of sub stimuli_index stimuli_type value)]
     | _ => []
     end.

(** The rows a value array contributes: those of its values up to the
    first one that is not stored. *)
Fixpoint stored_rows (ncols : nat) (sub : Subject.t) (stimuli_index : nat)
    (stimuli_type : string) (values : list pyval) : list (list pyval) :=
  match values with
  | [] => []
  | v :: vs =>
      if stored ncols sub stimuli_index stimuli_type v
      then row_of sub stimuli_index stimuli_type v
           :: stored_rows ncols sub stimuli_index stimuli_type vs
      else []
  end.

Fixpoint values_messages (ncols : nat) (sub : Subject.t) (stimuli_index : nat)
    (stimuli_type : string) (values : list pyval) : list message :=
  match values with
  | [] => []
  | v :: vs =>
      value_messages sub stimuli_index stimuli_type v
      ++ (if stored ncols sub stimuli_index stimuli_type v
          then values_messages ncols sub stimuli_index stimuli_type vs
          else [])
  end.

(** What one cell of the indicator matrix contributes. *)
Definition cell_rows (meta : string) (ncols : nat) (sub_index : nat)
    (sub : Subject.t) (stimuli_index : nat) (stimuli_type : string)
    : list (list pyval) :=
  match rbind (matrix_cell e meta sub_index stimuli_index) Py.iter with
  | Ok values => stored_rows ncols sub stimuli_index stimuli_type values
  | Raise _ => []
  end.

(** A cell fails when it cannot be iterated or one of its values is not
    stored. *)
Definition cell_fails (meta : string) (ncols : nat) (sub_index : nat)
    (sub : Subject.t) (stimuli_index : nat) (stimuli_type : string) : bool :=
  match rbind (matrix_cell e meta sub_index stimuli_index) Py.iter with
  | Ok values => negb (forallb (stored ncols sub stimuli_index stimuli_type) values)
  | Raise _ => true
  end.

Definition cell_messages (meta : string) (ncols : nat) (sub_index : nat)
    (sub : Subject.t) (stimuli_index : nat) (stimuli_type : string)
    : list message :=
  match rbind (matrix_cell e meta sub_index stimuli_index) Py.iter with
  | Ok values => values_messages ncols sub stimuli_index stimuli_type values
  | Raise _ => []
  end
  ++ (if cell_fails meta ncols sub_index sub stimuli_index stimuli_type
      then [DataInstantiationError] else []).

(** The exception a value that is not stored leaves the loop with. *)
Definition store_error (value : pyval) : exn :=
  match np_isnan value with
  | Raise x => x
  | Ok _ => ValueError
  end.

End Rows.

Definition only_extends {A} (m : ST world A) : Prop :=
  forall w, exists rows msgs, snd (m w) = extend w rows msgs.

Section Dataset.

Variable e : Experiment.
Variable json_data : pyval.
Variable meta : string.
Variables between_factor_list within_factor_list : list string.

Definition column_list : list string :=
  [meta] ++ between_factor_list ++ within_factor_list ++ ["subject"].

(** The cells [analyse] visits: every subject, and for each subject every
    stimulus type of its [aggregate_meta], with their positions. *)
Definition visited_cells : list (nat * Subject.t * nat * string) :=
  flat_map (fun '(sub_index, sub) =>
              map (fun '(stimuli_index, stimuli_type) =>
                     (sub_index, sub, stimuli_index, stimuli_type))
                  (enumerate (map fst (Subject.aggregate_meta sub))))
           (enumerate (subjects e)).

Definition rows_of_cell (c : nat * Subject.t * nat * string) : list (list pyval) :=
  let '(sub_index, sub, stimuli_index, stimuli_type) := c in
  cell_rows e json_data between_factor_list within_factor_list meta
    (length column_list) sub_index sub stimuli_index stimuli_type.

Definition messages_of_cell (c : nat * Subject.t * nat * string) : list message :=
  let '(sub_index, sub, stimuli_index, stimuli_type) := c in
  cell_messages e json_data between_factor_list within_factor_list meta
    (length column_list) sub_index sub stimuli_index stimuli_type.

(** The matrix has a cell for every subject and stimulus type visited. *)
Definition cells_present : Prop :=
  forall sub_index sub stimuli_index stimuli_type,
    In (sub_index, sub, stimuli_index, stimuli_type) visited_cells ->
    exists cell, matrix_cell e meta sub_index stimuli_index = Ok cell.

(** [data] as line 383 leaves it. *)
Definition fresh_data (w : world) : world :=
  {| data := {| df_columns := column_list; df_rows := [] |};
     stdout := stdout w; pg_calls := pg_calls w |}.

End Dataset.

(** Every call made so far was handed a dataframe with the columns of its
    indicator. *)
Definition calls_have_columns (between_factor_list within_factor_list : list string)
    (w : world) : Prop :=
  Forall (fun c => df_columns (pg_data c) =
                   [pg_dv c] ++ between_factor_list ++ within_factor_list ++ ["subject"])
         (pg_calls w).

(** The between-group factors other than the subject's type. *)
Definition extra_factors (between_factor_list : list string) : list string :=
  List.filter (fun param => negb (String.eqb param "Subject_type")) between_factor_list.

(** How often a factor list names [x]. *)
Definition occurrences (x : string) (l : list string) : nat :=
  length (List.filter (fun param => String.eqb param x) l).

(** What the configuration defines for a between-group factor of a
    subject: the entry under Subjects, the subject's type, the subject's
    name and the factor, when there is one. *)
Definition configured_factor (json_data : pyval) (sub : Subject.t) (param : string)
    : option pyval :=
  match Subject.subj_type sub, Subject.name sub with
  | PStr subj_type, PStr name =>
      match Py.getpath json_data ["Subjects"; subj_type; name; param] with
      | Ok v => Some v
      | Raise _ => None
      end
  | _, _ => None
  end.

(** The row of a value as the specification words it, read off the
    subject and the configuration: the value, the subject's type, the
    values the configuration defines for the extra between-group factors,
    the stimulus type, the subject's name. *)
Definition claimed_row (json_data : pyval) (between_factor_list : list string)
    (sub : Subject.t) (stimuli_type : string) (value : pyval) : list pyval :=
  [value; Subject.subj_type sub]
  ++ flat_map (fun param => option_list (configured_factor json_data sub param))
       (extra_factors between_factor_list)
  ++ [PStr stimuli_type; Subject.name sub].

(** The dataset as the specification describes it: for every subject and
    every stimulus type of the subject, one row per value of the value
    array in the cell of the matrix. *)
Definition rows_as_claimed (e : Experiment) (json_data : pyval) (meta : string)
    (between_factor_list : list string) : list (list pyval) :=
  flat_map (fun '(sub_index, sub, stimuli_index, stimuli_type) =>
              match rbind (matrix_cell e meta sub_index stimuli_index) Py.iter with
              | Ok values =>
                  map (claimed_row json_data between_factor_list sub stimuli_type)
                      values
              | Raise _ => []
              end)
           (visited_cells e).

Definition is_ok {A} (r : result A) : bool :=
  match r with
  | Ok _ => true
  | Raise _ => false
  end.

Definition cells_presentb (e : Experiment) (meta : string) : bool :=
  forallb (fun '(sub_index, _, stimuli_index, _) =>
             is_ok (matrix_cell e meta sub_index stimuli_index))
          (visited_cells e).

(** [hoare P m Q]: a run of [m] from a state in [P] that returns ends in a
    state in [Q]. *)
Definition hoare {S A} (P : S -> Prop) (m : ST S A) (Q : A -> S -> Prop) : Prop :=
  forall s a s', P s -> m s = (Ok a, s') -> Q a s'.

(** What [metaMatrixInitialisation] is to store for a subject: under
    column [stimuli_index] of indicator [meta], the value its
    [aggregate_meta] has for that indicator and the stimulus type at that
    position. *)
Definition expected_cell (sub : Subject.t) (stimuli_index : nat) (meta : string)
    (v : pyval) : Prop :=
  exists stimuli_type metas,
    In (stimuli_index, stimuli_type) (enumerate (map fst (Subject.aggregate_meta sub))) /\
    Py.dict_get (Subject.aggregate_meta sub) stimuli_type = Ok metas /\
    Py.dict_get metas meta = Ok v.

(** Row [sub_index] of the matrix holds what subject [sub] expects. *)
Definition subject_filled (sub_index : nat) (sub : Subject.t) (e : Experiment) : Prop :=
  forall stimuli_index meta v,
    expected_cell sub stimuli_index meta v ->
    matrix_cell e meta sub_index stimuli_index = Ok v.

(** What the loop over subjects maintains: the matrix keeps its shape, and
    the rows of the subjects already visited hold what these expect. *)
Definition rows_filled (e0 : Experiment) (visited : list nat) (e : Experiment) : Prop :=
  shaped_in_frame e0 e /\
  forall i sub, In i visited -> subjects e !! i = Some sub -> subject_filled i sub e.

(** Row [sub_index] is right in the cells [claimed] so far, and the rows of
    the subjects visited before are filled. *)
Definition row_correct (e0 : Experiment) (visited : list nat) (sub_index : nat)
    (sub : Subject.t) (claimed : nat -> string -> Prop) (e : Experiment) : Prop :=
  rows_filled e0 visited e /\
  subjects e !! sub_index = Some sub /\
  forall stimuli_index meta v,
    claimed stimuli_index meta ->
    expected_cell sub stimuli_index meta v ->
    matrix_cell e meta sub_index stimuli_index = Ok v.


(** *** Notions for the further properties *)

(** The subject-type vector holds, for each subject visited, numpy's
    conversion of the subject's type. *)
Definition types_recorded (visited : list nat) (e : Experiment) : Prop :=
  forall i sub,
    In i visited -> subjects e !! i = Some sub ->
    fst (meta_matrix_dict e) !! i = Some (np_str (Subject.subj_type sub)).

(** A cell of the matrix holds [None] unless it belongs to a subject
    visited, and then what the subject expects there. *)
Definition only_expected (visited : list nat) (e : Experiment) : Prop :=
  forall meta i j v,
    matrix_cell e meta i j = Ok v ->
    v = PNone \/
    (In i visited /\
     exists sub, subjects e !! i = Some sub /\ expected_cell sub j meta v).

(** What the loop over subjects of [metaMatrixInitialisation] has done once
    the subjects [visited] are behind it. *)
Definition recorded (e0 : Experiment) (visited : list nat) (e : Experiment) : Prop :=
  shaped_in_frame e0 e /\ types_recorded visited e /\ only_expected visited e.


(** The array of an indicator is as [np.ndarray] has just made it. *)
Definition freshly_allocated (indicator : string) (e : Experiment) : Prop :=
  snd (meta_matrix_dict e) !! indicator =
  Some (Np.new (length (subjects e)) (length (stimuli e))).


(** The values a subject has for an indicator under a stimulus type:
    [sub.aggregate_meta[stimuli_type][meta]], iterated. *)
Definition subject_values (sub : Subject.t) (stimuli_type meta : string)
    : result (list pyval) :=
  (metas <- Py.dict_get (Subject.aggregate_meta sub) stimuli_type ;;
   value_array <- Py.dict_get metas meta ;;
   Py.iter value_array)%res.

(** The dataset of an indicator under the default factor lists, read off
    the subjects: for each subject and each of its stimulus types, a row
    per value. *)
Definition rows_of_subjects (e : Experiment) (meta : string) : list (list pyval) :=
  flat_map (fun sub =>
              flat_map (fun stimuli_type =>
                          match subject_values sub stimuli_type meta with
                          | Ok values =>
                              map (fun value =>
                                     [value; Subject.subj_type sub;
                                      PStr stimuli_type; Subject.name sub])
                                  values
                          | Raise _ => []
                          end)
                       (map fst (Subject.aggregate_meta sub)))
           (subjects e).

Definition no_stimulus_type (sub : Subject.t) : bool :=
  match Subject.aggregate_meta sub with
  | [] => true
  | _ :: _ => false
  end.


(** The indicators [analyse] goes on to analyse: those [Sensor.meta_cols]
    lists for a sensor of the experiment, asked for by [parameter_list], and
    not among the ones left aside. *)
Definition analysed (e : Experiment) (json_data : pyval)
    (parameter_list : list string) (meta : string) : Prop :=
  (exists sen metas,
     In sen (sensors e) /\ Py.dict_get Sensor_meta_cols sen = Ok metas /\
     In meta metas) /\
  (In "all" parameter_list \/ In meta parameter_list) /\
  meta <> "pupil_size" /\ meta <> "pupil_size_downsample" /\
  (rbind (Py.getpath json_data ["Columns_of_interest"; "EyeTracker"])
         (fun eye_columns => Py.contains_str eye_columns "GazeAOI") = Ok false ->
   meta <> "no_revisits" /\ meta <> "first_pass" /\ meta <> "second_pass").


(** The subjects whose checkbox variable holds 1, in the order of the
    list. *)
Definition checked_subjects (vars : list Z) (subjects : list Subject.t)
    : list Subject.t :=
  map snd (List.filter (fun p => (fst p =? 1)%Z) (zip vars subjects)).

(** A stimulus category whose entries are not numbers: an object keyed by
    stimulus name, a list of stimulus names, or anything that is not a
    sequence. *)
Definition names_of_stimuli (names : pyval) : Prop :=
  match names with
  | PList l | PTuple l => Forall (fun v => exists s, v = PStr s) l
  | _ => True
  end.

End Program.


(** * A worked experiment: two subjects of one type, two stimulus
    categories, one eye-tracker
    indicator analysed; the collaborators are given simple stand-ins. *)

Definition demo_config : pyval :=
  PDict
    [("Path", PStr "/exp");
     ("Experiment_name", PStr "demo");
     ("Subjects", PDict [("T", PList [PStr "s1"; PStr "s2"])]);
     ("Stimuli", PDict [("A", PList [PStr "img1"]); ("B", PList [PStr "img2"])]);
     ("Columns_of_interest",
       PDict [("EyeTracker", PList [PStr "GazeAOI"; PStr "Pupil"]);
              ("Extra", PList [PStr "EventSource"])]);
     ("Analysis_Params",
       PDict [("EyeTracker",
                PDict [("Display_width", PInt 1920);
                       ("Display_height", PInt 1080)])])].

Definition demo_meta_cols : list (string * list string) :=
  [("EyeTracker", ["blink_rate"; "pupil_size"])].

Definition demo_stimuli : list (pyval * pyval) :=
  [(PStr "A", PList [PStr "img1"]); (PStr "B", PList [PStr "img2"])].

Definition demo_columns : list pyval :=
  [PStr "GazeAOI"; PStr "Pupil"; PStr "EventSource"].

Definition demo_display : pyval :=
  PTuple [PInt 0; PInt 0; PInt 1920; PInt 1080].

Definition demo_subject (name : string) : Subject.t :=
  Subject.mk (PStr "/exp") (PStr name) (PStr "T") demo_stimuli demo_columns
    "exp.json" ["EyeTracker"] (SqlEngine "sqlite:////exp/Data/demo.db") "SQL"
    demo_display [].

Definition demo_experiment : Experiment :=
  {| path := PStr "/exp"; name := PStr "demo"; json_file := "exp.json";
     sensors := ["EyeTracker"]; aoi_coords := demo_display;
     columns := demo_columns; stimuli := demo_stimuli;
     subjects := [demo_subject "s1"; demo_subject "s2"];
     meta_matrix_dict := ([""; ""], ∅) |}.

Definition one : pyval := PFloat (FNum 1 0).
Definition two : pyval := PFloat (FNum 1 1).
Definition three : pyval := PFloat (FNum 3 0).

Definition with_aggregate_meta (sub : Subject.t)
    (m : list (string * list (string * pyval))) : Subject.t :=
  Subject.mk (Subject.path sub) (Subject.name sub) (Subject.subj_type sub)
    (Subject.stimuli sub) (Subject.columns sub) (Subject.json_file sub)
    (Subject.sensors sub) (Subject.database sub) (Subject.reading_method sub)
    (Subject.aoi_coords sub) m.

(** A subject analysis that finds two blink rates under category A and one
    under category B. *)
Definition demo_analysis : bool -> bool -> ST Subject.t unit :=
  fun _ _ sub =>
    (Ok tt, with_aggregate_meta sub
              [("A", [("blink_rate", PList [one; two])]);
               ("B", [("blink_rate", PList [three])])]).

(** A subject analysis that leaves a hole in the values of subject s1. *)
Definition holed_analysis : bool -> bool -> ST Subject.t unit :=
  fun _ _ sub =>
    (Ok tt, with_aggregate_meta sub
              (if Py.key_eqb (Subject.name sub) (PStr "s1")
               then [("A", [("blink_rate", PList [one; PNone; two])])]
               else [("A", [("blink_rate", PList [three])])])).

Definition demo_np_str (v : pyval) : string :=
  match v with
  | PStr (String c _) => String c EmptyString
  | _ => ""
  end.

Definition demo_isnan_seq : list pyval -> result bool := fun _ => Raise TypeError.

Definition demo_pg : pg_call -> result unit := fun _ => Ok tt.

(** Subjects are told apart by name here. *)
Definition demo_subject_eqb (s : Subject.t) (sub : pyval) : bool :=
  Py.key_eqb (Subject.name s) sub.

Definition demo_stimulus_metadata (s : Subject.t) (stim_cat : pyval) (stim_ind : Z)
    (sensor : string) : result pyval := Ok (PDict []).

(** The stand-ins, for a given subject analysis. *)
Definition demo_collaborators (analysis : bool -> bool -> ST Subject.t unit)
    : Collaborators :=
  {| Sensor_meta_cols := demo_meta_cols;
     initial_aggregate_meta := [];
     subjectAnalysis := analysis;
     gui_selection := Raise LibraryError;
     np_uninitialised := fun _ => "";
     np_str := demo_np_str;
     pg := demo_pg;
     np_isnan_seq := demo_isnan_seq;
     Subject_eqb := demo_subject_eqb;
     stimulus_metadata := demo_stimulus_metadata |}.

Definition demo : Collaborators := demo_collaborators demo_analysis.

Definition holed : Collaborators := demo_collaborators holed_analysis.

Definition demo_init (reading_method : string) (aoi : pyval) : result Experiment :=
  Experiment_init (Ext := demo) "exp.json" demo_config reading_method ["EyeTracker"] aoi.

Definition demo_run : Experiment :=
  snd (metaMatrixInitialisation (Ext := demo) false false demo_experiment).

Definition holed_run : Experiment :=
  snd (metaMatrixInitialisation (Ext := holed) false false demo_experiment).

(** The subjects analysed one by one, [metaMatrixInitialisation] never
    called: the matrix is still empty. *)
Definition analysed_only : Experiment :=
  set_subjects demo_experiment
    (map (fun sub => snd (demo_analysis false false sub)) (subjects demo_experiment)).

Definition initial_world : world :=
  {| data := {| df_columns := []; df_rows := [] |}; stdout := []; pg_calls := [] |}.

Definition demo_assemble (e : Experiment) (between_factor_list : list string)
    : result unit * world :=
  assemble (Ext := demo) e demo_config "blink_rate" between_factor_list
    ["Stimuli_type"] initial_world.

(** The subjects of the worked experiment once analysed. *)
Definition analysed_subject (name : string) : Subject.t :=
  with_aggregate_meta (demo_subject name)
    [("A", [("blink_rate", PList [one; two])]);
     ("B", [("blink_rate", PList [three])])].

(** A configuration that lists no subject. *)
Definition no_subject_config : pyval :=
  PDict [("Path", PStr "/exp"); ("Subjects", PDict [("T", PList [])])].

(** A configuration without the display size. *)
Definition no_display_config : pyval :=
  PDict [("Path", PStr "/exp"); ("Experiment_name", PStr "demo")].

(** A configuration that gives a group as an object keyed by subject name,
    with a between-group factor. *)
Definition keyed_config : pyval :=
  PDict [("Subjects",
           PDict [("T", PDict [("s1", PDict [("Gender", PStr "F")])])])].

(** The window in group mode, the box of the second subject checked. *)
Definition demo_window : Visualize.t :=
  {| Visualize.subjects := [demo_subject "s1"; demo_subject "s2"];
     Visualize.v := 1;
     Visualize.chk_bt_var := Some [0; 1]%Z |}.

(** A not-a-number value. *)
Definition nan : pyval := PFloat FNaN.

(** The worked experiment with its stimulus categories removed. *)
Definition no_stimuli_experiment : Experiment :=
  {| path := PStr "/exp"; name := PStr "demo"; json_file := "exp.json";
     sensors := ["EyeTracker"]; aoi_coords := demo_display;
     columns := demo_columns; stimuli := [];
     subjects := [demo_subject "s1"; demo_subject "s2"];
     meta_matrix_dict := ([""; ""], ∅) |}.

(** The configuration of the worked experiment with its group given as an
    object keyed by subject name, each subject with a between-group
    factor. *)
Definition gender_config : pyval :=
  PDict
    [("Path", PStr "/exp");
     ("Experiment_name", PStr "demo");
     ("Subjects",
       PDict [("T", PDict [("s1", PDict [("Gender", PStr "F")]);
                           ("s2", PDict [("Gender", PStr "M")])])]);
     ("Stimuli", PDict [("A", PList [PStr "img1"]); ("B", PList [PStr "img2"])]);
     ("Columns_of_interest",
       PDict [("EyeTracker", PList [PStr "GazeAOI"; PStr "Pupil"]);
              ("Extra", PList [PStr "EventSource"])]);
     ("Analysis_Params",
       PDict [("EyeTracker",
                PDict [("Display_width", PInt 1920);
                       ("Display_height", PInt 1080)])])].

(** The configuration of the worked experiment with its stimulus
    categories given as objects keyed by stimulus name, each stimulus with
    a within-group factor. *)
Definition difficulty_config : pyval :=
  PDict
    [("Path", PStr "/exp");
     ("Experiment_name", PStr "demo");
     ("Subjects", PDict [("T", PList [PStr "s1"; PStr "s2"])]);
     ("Stimuli",
       PDict [("A", PDict [("img1", PDict [("Difficulty", PStr "hard")])]);
              ("B", PDict [("img2", PDict [("Difficulty", PStr "easy")])])]);
     ("Columns_of_interest",
       PDict [("EyeTracker", PList [PStr "GazeAOI"; PStr "Pupil"]);
              ("Extra", PList [PStr "EventSource"])]);
     ("Analysis_Params",
       PDict [("EyeTracker",
                PDict [("Display_width", PInt 1920);
                       ("Display_height", PInt 1080)])])].

(** The calls a user makes, one after the other, on a configuration: the
    constructor, [metaMatrixInitialisation], then the assembly of the
    dataset of the blink rate inside [analyse]; the result is how the
    assembly ended and the rows of the dataset. *)
Definition demo_pipeline (config : pyval)
    (between_factor_list within_factor_list : list string)
    : result (result unit * list (list pyval)) :=
  (e0 <- Experiment_init (Ext := demo) "exp.json" config "SQL" ["EyeTracker"]
           (PStr "NA") ;;
   let '(r, e) := metaMatrixInitialisation (Ext := demo) false false e0 in
   _ <- r ;;
   let '(r', w) := assemble (Ext := demo) e config "blink_rate" between_factor_list
                     within_factor_list initial_world in
   Ok (r', df_rows (data w)))%res.

(** * Properties *)

Section Properties.

Context `{Ext : Collaborators}.

(** Drops the collaborators a goal does not mention, so that automation
    does not pick them up. *)
Ltac without_collaborators := try clear Ext.

(** ** Calls that may raise *)

Lemma rbind_ok {A B} (r : result A) (k : A -> result B) (b : B) :
  rbind r k = Ok b <-> exists a, r = Ok a /\ k a = Ok b.
Proof.
  destruct r as [a | x]; simpl; split.
  - intros H. exists a. auto.
  - intros (a' & Ha & Hk). injection Ha as ->. exact Hk.
  - discriminate.
  - intros (a' & Ha & _). discriminate.
Qed.

Lemma rbind_raises {A B} (r : result A) (k : A -> result B) :
  raises r -> raises (rbind r k).
Proof. intros [x ->]. exists x. reflexivity. Qed.

Lemma not_raises_ok {A} (r : result A) : ~ raises r -> exists a, r = Ok a.
Proof.
  destruct r as [a | x]; intros H.
  - exists a. reflexivity.
  - exfalso. apply H. exists x. reflexivity.
Qed.

Lemma rbind_assoc {A B C} (r : result A) (f : A -> result B) (g : B -> result C) :
  rbind (rbind r f) g = rbind r (fun a => rbind (f a) g).
Proof. by destruct r. Qed.

Lemma rfold_ext {A B} (f g : B -> A -> result B) (l : list A) (acc : B) :
  (forall b a, f b a = g b a) -> rfold f l acc = rfold g l acc.
Proof.
  intros Hfg. revert acc. induction l as [| x l IH]; intros acc; simpl; [done |].
  rewrite Hfg. destruct (g acc x); simpl; [apply IH | done].
Qed.

(** A loop that only appends what each turn yields returns the
    concatenation of the yields, and returns at all only if every turn
    does. *)
Lemma rfold_append {A B} (f : A -> result (list B)) (l : list A) (acc r : list B) :
  rfold (fun acc x => rbind (f x) (fun g => Ok (acc ++ g))) l acc = Ok r <->
  exists groups, Forall2 (fun x g => f x = Ok g) l groups /\ r = acc ++ concat groups.
Proof.
  revert acc. induction l as [| x l IH]; intros acc; simpl.
  - split.
    + intros [= <-]. exists []. split; [constructor | simpl; by rewrite app_nil_r].
    + intros (groups & HF & ->). inversion HF; subst. simpl. by rewrite app_nil_r.
  - split.
    + intros H. apply rbind_ok in H as (acc' & Hx & Hrest).
      apply rbind_ok in Hx as (g & Hg & [= <-]).
      apply IH in Hrest as (groups & HF & ->).
      exists (g :: groups). split; [by constructor | simpl; by rewrite app_assoc].
    + intros (groups & HF & ->). inversion HF as [| ? g ? groups' Hg HF']; subst.
      rewrite Hg. simpl. apply IH. exists groups'. split; [done |].
      simpl. by rewrite app_assoc.
Qed.

Lemma assoc_In {V} (k : string) (v : V) (d : list (string * V)) :
  Py.assoc k d = Some v -> In (k, v) d.
Proof.
  induction d as [| [k' v'] d IH]; simpl; [discriminate |].
  destruct (String.eqb_spec k k') as [-> | Hne].
  - intros [= ->]. by left.
  - intros H. right. by apply IH.
Qed.

Lemma assoc_NoDup {V} (k : string) (v : V) (d : list (string * V)) :
  NoDup (map fst d) -> In (k, v) d -> Py.assoc k d = Some v.
Proof.
  induction d as [| [k' v'] d IH]; simpl; [done |].
  intros Hnd [Heq | Hin].
  - injection Heq as -> ->. by rewrite String.eqb_refl.
  - apply NoDup_cons in Hnd as [Hk' Hnd].
    destruct (String.eqb_spec k k') as [-> | Hne].
    + exfalso. apply Hk'. apply list_elem_of_In. apply in_map_iff. by exists (k', v).
    + by apply IH.
Qed.

Lemma assoc_first {V} (k : string) (v : V) (d : list (string * V)) :
  Py.assoc k ((k, v) :: d) = Some v.
Proof. simpl. by rewrite String.eqb_refl. Qed.

Lemma assoc_key_is_Some {V} (k : string) (d : list (string * V)) :
  In k (map fst d) -> exists v, Py.assoc k d = Some v.
Proof.
  induction d as [| [k' v'] d IH]; simpl; [done |].
  intros H. destruct (String.eqb_spec k k') as [-> | Hne]; [by eexists |].
  destruct H as [H | H]; [congruence | by apply IH].
Qed.

(** ** Construction *)

Lemma Experiment_init_ok json_file json_data reading_method sensors aoi e :
  Experiment_init json_file json_data reading_method sensors aoi = Ok e ->
  Py.getitem json_data (PStr "Path") = Ok (path e) /\
  Py.getitem json_data (PStr "Experiment_name") = Ok (name e) /\
  aoi_initialisation (path e) json_data aoi = Ok (aoi_coords e) /\
  columnsArrayInitialisation sensors json_data = Ok (columns e) /\
  stimuliArrayInitialisation json_data = Ok (stimuli e) /\
  subjectArrayInitialisation (path e) (stimuli e) (columns e) json_file sensors
    (aoi_coords e) json_data reading_method = Ok (subjects e) /\
  snd (meta_matrix_dict e) = ∅.
Proof.
  unfold Experiment_init. intros H.
  apply rbind_ok in H as (p & Hp & H).
  apply rbind_ok in H as (n & Hn & H).
  apply rbind_ok in H as (a & Ha & H).
  apply rbind_ok in H as (c & Hc & H).
  apply rbind_ok in H as (st & Hst & H).
  apply rbind_ok in H as (su & Hsu & H).
  apply rbind_ok in H as (d & Hd & H).
  injection H as <-. simpl. done.
Qed.

(** C10: a string [aoi] other than "draw" gives the full display rectangle
    of the configuration, whatever the string; an [aoi] that is a tuple is
    kept as it is. *)
Theorem aoi_coords_from_argument json_file json_data reading_method sensors aoi e :
  Experiment_init json_file json_data reading_method sensors aoi = Ok e ->
  (forall s, aoi = PStr s -> s <> "draw" ->
     exists w h,
       Py.getpath json_data ["Analysis_Params"; "EyeTracker"; "Display_width"] = Ok w /\
       Py.getpath json_data ["Analysis_Params"; "EyeTracker"; "Display_height"] = Ok h /\
       aoi_coords e = PTuple [PInt 0; PInt 0; w; h]) /\
  (forall t, aoi = PTuple t -> aoi_coords e = PTuple t).
Proof.
  intros H. apply Experiment_init_ok in H as (_ & _ & Ha & _).
  split.
  - intros s -> Hs. unfold aoi_initialisation in Ha.
    destruct (String.eqb_spec s "draw") as [Heq | _]; [done |].
    apply rbind_ok in Ha as (w & Hw & Ha).
    apply rbind_ok in Ha as (h & Hh & Ha).
    injection Ha as <-. by exists w, h.
  - intros t ->. simpl in Ha. by injection Ha as <-.
Qed.

(** C7: the columns of interest are, for each sensor of the experiment in
    order and then for the class "Extra", the names listed for that class
    under Columns_of_interest, in their listed order; the call returns
    exactly when every one of these classes is listed. *)
Theorem columnsArrayInitialisation_concat sensors json_data column_list :
  columnsArrayInitialisation sensors json_data = Ok column_list <->
  exists groups,
    Forall2 (fun col_class names =>
               rbind (Py.getpath json_data ["Columns_of_interest"; col_class]) Py.iter
               = Ok names)
            (sensors ++ ["Extra"]) groups /\
    column_list = concat groups.
Proof.
  unfold columnsArrayInitialisation.
  rewrite (rfold_ext _
    (fun acc x =>
       rbind (rbind (Py.getpath json_data ["Columns_of_interest"; x]) Py.iter)
         (fun g => Ok (acc ++ g)))).
  - apply (rfold_append
      (fun x => rbind (Py.getpath json_data ["Columns_of_interest"; x]) Py.iter)
      (sensors ++ ["Extra"]) [] column_list).
  - intros acc col_class. by rewrite rbind_assoc.
Qed.

(** *** The subject list *)

Lemma subject_loop_bound path stimuli columns json_file sensors aoi_coords
    reading_method db k names subject_list :
  rfold (fun subject_list subject_name =>
           Ok (subject_list ++
                 [Subject.mk path subject_name k stimuli columns json_file
                    sensors db reading_method aoi_coords initial_aggregate_meta]))
        names subject_list
  = Ok (subject_list ++
          map (new_subject path stimuli columns json_file sensors aoi_coords
                 reading_method db k) names).
Proof.
  revert subject_list. induction names as [| n names IH]; intros sl; simpl.
  - by rewrite app_nil_r.
  - rewrite IH. by rewrite <- app_assoc.
Qed.

Lemma subject_loop_unbound {A B} (names : list A) (subject_list : B) :
  rfold (fun _ _ => Raise UnboundLocalError) names subject_list
  = match names with
    | [] => Ok subject_list
    | _ :: _ => Raise UnboundLocalError
    end.
Proof. by destruct names. Qed.

Lemma subjectArrayInitialisation_ok path stimuli columns json_file sensors
    aoi_coords json_data reading_method subject_list :
  subjectArrayInitialisation path stimuli columns json_file sensors aoi_coords
    json_data reading_method = Ok subject_list ->
  exists subject_data database ks,
    Py.getitem json_data (PStr "Subjects") = Ok subject_data /\
    select_database path json_data reading_method = Ok database /\
    Py.iter subject_data = Ok ks /\
    match database with
    | Some db =>
        exists groups,
          Forall2 (fun k names => rbind (Py.getitem subject_data k) Py.iter = Ok names)
                  ks groups /\
          subject_list =
            concat (zip_with (fun k names =>
                                map (new_subject path stimuli columns json_file
                                       sensors aoi_coords reading_method db k) names)
                             ks groups)
    | None =>
        subject_list = [] /\
        Forall (fun k => rbind (Py.getitem subject_data k) Py.iter = Ok []) ks
    end.
Proof.
  unfold subjectArrayInitialisation. intros H.
  apply rbind_ok in H as (subject_data & Hsd & H).
  apply rbind_ok in H as (database & Hdb & H).
  apply rbind_ok in H as (ks & Hks & H).
  exists subject_data, database, ks. do 3 (split; [done |]).
  destruct database as [db |].
  - assert (Hgen : forall ks0 acc r,
      rfold (fun subject_list k =>
               rbind (Py.getitem subject_data k) (fun group =>
               rbind (Py.iter group) (fun names =>
               rfold (fun subject_list subject_name =>
                        Ok (subject_list ++
                              [Subject.mk path subject_name k stimuli columns
                                 json_file sensors db reading_method aoi_coords
                                 initial_aggregate_meta]))
                     names subject_list))) ks0 acc = Ok r ->
      exists groups,
        Forall2 (fun k names => rbind (Py.getitem subject_data k) Py.iter = Ok names)
                ks0 groups /\
        r = acc ++ concat (zip_with (fun k names =>
                                map (new_subject path stimuli columns json_file
                                       sensors aoi_coords reading_method db k) names)
                             ks0 groups)).
    { intros ks0. induction ks0 as [| k ks0 IH]; intros acc r; simpl.
      - intros [= <-]. exists []. split; [constructor | by rewrite app_nil_r].
      - intros Hr. apply rbind_ok in Hr as (acc' & Hk & Hrest).
        apply rbind_ok in Hk as (group & Hg & Hk).
        apply rbind_ok in Hk as (names & Hn & Hk).
        rewrite subject_loop_bound in Hk. injection Hk as <-.
        apply IH in Hrest as (groups & HF & ->).
        exists (names :: groups). split.
        + constructor; [| done]. rewrite Hg. simpl. exact Hn.
        + simpl. by rewrite app_assoc. }
    apply Hgen in H as (groups & HF & ->). by exists groups.
  - assert (Hgen : forall ks0 acc r,
      rfold (fun subject_list k =>
               rbind (Py.getitem subject_data k) (fun group =>
               rbind (Py.iter group) (fun names =>
               rfold (fun (_ : list Subject.t) (_ : pyval) =>
                        Raise UnboundLocalError)
                     names subject_list))) ks0 acc = Ok r ->
      r = acc /\
      Forall (fun k => rbind (Py.getitem subject_data k) Py.iter = Ok []) ks0).
    { intros ks0. induction ks0 as [| k ks0 IH]; intros acc r; simpl.
      - intros [= <-]. by split.
      - intros Hr. apply rbind_ok in Hr as (acc' & Hk & Hrest).
        apply rbind_ok in Hk as (group & Hg & Hk).
        apply rbind_ok in Hk as (names & Hn & Hk).
        rewrite subject_loop_unbound in Hk. destruct names; [| done].
        injection Hk as <-. apply IH in Hrest as [-> HF].
        split; [done |]. constructor; [| done]. rewrite Hg. simpl. exact Hn. }
    by apply Hgen in H.
Qed.

Lemma select_database_sql path json_data database :
  select_database path json_data "SQL" = Ok database ->
  exists p n,
    path = PStr p /\
    Py.getitem json_data (PStr "Experiment_name") = Ok (PStr n) /\
    database = Some (SqlEngine (((("sqlite:///" +:+ p) +:+ "/Data/") +:+ n) +:+ ".db")).
Proof.
  unfold select_database. simpl. intros H.
  apply rbind_ok in H as (nd & Hnd & H).
  apply rbind_ok in H as (s1 & Hs1 & H).
  apply rbind_ok in H as (s2 & Hs2 & H).
  injection H as <-.
  destruct path as [| | | | p | | |]; simpl in Hs1; try done. injection Hs1 as <-.
  destruct nd as [| | | | n | | |]; simpl in Hs2; try done. injection Hs2 as <-.
  by exists p, n.
Qed.

Lemma select_database_csv path json_data database :
  select_database path json_data "CSV" = Ok database ->
  exists p, path = PStr p /\ database = Some (CsvFiles (p +:+ "/Data/csv_files")).
Proof.
  unfold select_database. simpl. intros H.
  apply rbind_ok in H as (s & Hs & H). injection H as <-.
  destruct path as [| | | | p | | |]; simpl in Hs; try done. injection Hs as <-.
  by exists p.
Qed.

Lemma select_database_other path json_data reading_method :
  reading_method <> "SQL" -> reading_method <> "CSV" ->
  select_database path json_data reading_method = Ok None.
Proof.
  intros Hsql Hcsv. unfold select_database.
  destruct (String.eqb_spec reading_method "SQL"); [done |].
  by destruct (String.eqb_spec reading_method "CSV").
Qed.

Lemma Forall_concat_zip_with {A B C} (P : C -> Prop) (f : A -> B -> list C)
    (l : list A) (k : list B) :
  (forall a b, Forall P (f a b)) -> Forall P (concat (zip_with f l k)).
Proof.
  intros Hf. revert k. induction l as [| a l IH]; intros [| b k]; simpl;
    try constructor.
  apply Forall_app. split; [apply Hf | apply IH].
Qed.

(** C5: the reading method selects the data source. Under "SQL" every
    subject is built on the one engine opened on
    sqlite:///<path>/Data/<Experiment_name>.db; under "CSV" every subject is
    built on the directory <path>/Data/csv_files; and the list holds one
    subject per listed name, type after type in the order of the
    configuration, names in their listed order. *)
Theorem subjectArrayInitialisation_sources path stimuli columns json_file
    sensors aoi_coords json_data reading_method subject_list :
  subjectArrayInitialisation path stimuli columns json_file sensors aoi_coords
    json_data reading_method = Ok subject_list ->
  (reading_method = "SQL" ->
     exists p n,
       path = PStr p /\
       Py.getitem json_data (PStr "Experiment_name") = Ok (PStr n) /\
       Forall (fun s => Subject.database s =
                 SqlEngine (((("sqlite:///" +:+ p) +:+ "/Data/") +:+ n) +:+ ".db"))
              subject_list) /\
  (reading_method = "CSV" ->
     exists p,
       path = PStr p /\
       Forall (fun s => Subject.database s = CsvFiles (p +:+ "/Data/csv_files"))
              subject_list) /\
  (exists subject_data ks groups,
     Py.getitem json_data (PStr "Subjects") = Ok subject_data /\
     Py.iter subject_data = Ok ks /\
     Forall2 (fun k names => rbind (Py.getitem subject_data k) Py.iter = Ok names)
             ks groups /\
     map (fun s => (Subject.subj_type s, Subject.name s)) subject_list =
       concat (zip_with (fun k names => map (pair k) names) ks groups)).
Proof.
  intros H. apply subjectArrayInitialisation_ok in H
    as (subject_data & database & ks & Hsd & Hdb & Hks & H).
  split; [| split].
  - intros ->. apply select_database_sql in Hdb as (p & n & -> & Hn & ->).
    destruct H as (groups & _ & ->). exists p, n. do 2 (split; [done |]).
    apply Forall_concat_zip_with. intros k names. by apply Forall_map, Forall_true.
  - intros ->. apply select_database_csv in Hdb as (p & -> & ->).
    destruct H as (groups & _ & ->). exists p. split; [done |].
    apply Forall_concat_zip_with. intros k names. by apply Forall_map, Forall_true.
  - exists subject_data, ks. destruct database as [db |].
    + destruct H as (groups & HF & ->). exists groups. do 3 (split; [done |]).
      clear. revert groups. induction ks as [| k ks IH]; intros [| g groups]; simpl;
        try done.
      rewrite map_app, IH. f_equal. rewrite map_map. by apply map_ext.
    + destruct H as [-> HF]. exists (map (fun _ => []) ks).
      do 2 (split; [done |]). split.
      * clear -HF. induction HF; simpl; by constructor.
      * clear. induction ks; simpl; done.
Qed.

(** C8: under any reading method other than "SQL" and "CSV" the local
    [database] stays unbound, so with at least one subject listed the call
    raises instead of falling back to a default source; the exception is
    [UnboundLocalError] unless a group of the configuration cannot itself
    be read. *)
Theorem subjectArrayInitialisation_unknown_method path stimuli columns json_file
    sensors aoi_coords json_data reading_method subject_data ks k name names :
  reading_method <> "SQL" -> reading_method <> "CSV" ->
  Py.getitem json_data (PStr "Subjects") = Ok subject_data ->
  Py.iter subject_data = Ok ks ->
  In k ks ->
  rbind (Py.getitem subject_data k) Py.iter = Ok (name :: names) ->
  exists x,
    subjectArrayInitialisation path stimuli columns json_file sensors aoi_coords
      json_data reading_method = Raise x /\
    (x = UnboundLocalError \/
     exists k', In k' ks /\ rbind (Py.getitem subject_data k') Py.iter = Raise x).
Proof.
  intros Hsql Hcsv Hsd Hks Hin Hk.
  destruct (subjectArrayInitialisation path stimuli columns json_file sensors
              aoi_coords json_data reading_method) as [l | x] eqn:Hrun.
  - apply subjectArrayInitialisation_ok in Hrun
      as (sd' & database & ks' & Hsd' & Hdb & Hks' & H).
    rewrite Hsd in Hsd'. injection Hsd' as <-.
    rewrite Hks in Hks'. injection Hks' as <-.
    rewrite (select_database_other _ _ _ Hsql Hcsv) in Hdb. injection Hdb as <-.
    destruct H as [_ HF]. rewrite Forall_forall in HF.
    apply list_elem_of_In in Hin. specialize (HF k Hin). congruence.
  - exists x. split; [done |].
    unfold subjectArrayInitialisation in Hrun.
    rewrite Hsd in Hrun. cbn [rbind] in Hrun.
    rewrite (select_database_other _ _ _ Hsql Hcsv) in Hrun. cbn [rbind] in Hrun.
    rewrite Hks in Hrun. cbn [rbind] in Hrun.
    clear -Hrun. revert Hrun. generalize (@nil Subject.t).
    induction ks as [| k ks IH]; intros acc; simpl; [done |].
    destruct (Py.getitem subject_data k) as [group | y] eqn:Hg; simpl.
    + destruct (Py.iter group) as [ns | y] eqn:Hns; simpl.
      * rewrite subject_loop_unbound. destruct ns; simpl.
        -- intros H. apply IH in H as [-> | (k' & Hin & Hk')]; [by left |].
           right. exists k'. split; [by right | done].
        -- intros [= <-]. by left.
      * intros [= <-]. right. exists k. split; [by left |]. by rewrite Hg.
    + intros [= <-]. right. exists k. split; [by left |]. by rewrite Hg.
Qed.

(** ** Reasoning about [ST] *)

Lemma preserves_ret {S A} (I : S -> Prop) (a : A) : preserves I (st_ret a).
Proof. by intros s. Qed.

Lemma preserves_lift {S A} (I : S -> Prop) (r : result A) : preserves I (st_lift r).
Proof. by intros s. Qed.

Lemma preserves_get {S} (I : S -> Prop) : preserves I st_get.
Proof. by intros s. Qed.

Lemma preserves_modify {S} (I : S -> Prop) (f : S -> S) :
  (forall s, I s -> I (f s)) -> preserves I (st_modify f).
Proof. intros Hf s Hs. by apply Hf. Qed.

Lemma preserves_bind {S A B} (I : S -> Prop) (m : ST S A) (k : A -> ST S B) :
  preserves I m -> (forall a, preserves I (k a)) -> preserves I (st_bind m k).
Proof.
  intros Hm Hk s Hs. unfold st_bind. specialize (Hm s Hs).
  destruct (m s) as [[a | x] s']; simpl in *; [by apply Hk | done].
Qed.

Lemma preserves_try {S A} (I : S -> Prop) (body handler : ST S A) :
  preserves I body -> preserves I handler -> preserves I (try_except body handler).
Proof.
  intros Hb Hh s Hs. unfold try_except. specialize (Hb s Hs).
  destruct (body s) as [[a | x] s']; simpl in *; [done | by apply Hh].
Qed.

Lemma preserves_for_each {S A} (I : S -> Prop) (l : list A) (body : A -> ST S unit) :
  (forall x, preserves I (body x)) -> preserves I (for_each l body).
Proof.
  intros Hb. induction l as [| x l IH]; simpl.
  - apply preserves_ret.
  - apply preserves_bind; [apply Hb | done].
Qed.

Lemma preserves_fold {S A B} (I : S -> Prop) (l : list A) (body : B -> A -> ST S B)
    (acc : B) :
  (forall b x, preserves I (body b x)) -> preserves I (st_fold body l acc).
Proof.
  intros Hb. revert acc. induction l as [| x l IH]; intros acc; simpl.
  - apply preserves_ret.
  - apply preserves_bind; [apply Hb | done].
Qed.

(** A loop whose turns all return is the fold of their effects. *)
Lemma for_each_total {S A} (l : list A) (body : A -> ST S unit) (f : S -> A -> S) :
  (forall x s, In x l -> body x s = (Ok tt, f s x)) ->
  forall s, for_each l body s = (Ok tt, foldl f s l).
Proof.
  induction l as [| x l IH]; intros Hb s; simpl; [done |].
  unfold st_bind. rewrite Hb by (by left). apply IH.
  intros y s' Hy. apply Hb. by right.
Qed.

(** ** The indicator matrix *)

Lemma Np_new_well_formed r c : Np.well_formed (Np.new r c).
Proof.
  split; simpl.
  - apply length_replicate.
  - apply Forall_replicate, length_replicate.
Qed.

Lemma Np_set_shape a i j v a' :
  Np.set a i j v = Ok a' ->
  Np.shape0 a' = Np.shape0 a /\ Np.shape1 a' = Np.shape1 a /\
  (Np.well_formed a -> Np.well_formed a').
Proof.
  unfold Np.set. destruct (Np.in_range a i j); [| done].
  intros [= <-]. simpl. do 2 (split; [done |]).
  intros [Hlen Hrows]. split; simpl.
  - by rewrite length_alter.
  - apply Forall_alter; [done |]. intros row _ Hrow. by rewrite length_insert.
Qed.

Lemma allocate_preserves e0 : preserves (shaped_in_frame e0) allocate_matrices.
Proof.
  unfold allocate_matrices. apply preserves_for_each. intros sensor_type.
  apply preserves_bind; [apply preserves_lift |]. intros meta_cols.
  apply preserves_for_each. intros meta_col. apply preserves_modify.
  intros e [Hframe Hshape]. split; [done |].
  intros indicator a. simpl. rewrite lookup_insert.
  case_decide as Heq.
  - intros [= <-]. simpl. do 2 (split; [done |]). apply Np_new_well_formed.
  - apply (Hshape indicator).
Qed.

Lemma on_subject_preserves {A} e0 i (m : ST Subject.t A) :
  preserves (shaped_in_frame e0) (on_subject i m).
Proof.
  intros e [[Hlen Hstim] Hshape]. unfold on_subject.
  destruct (subjects e !! i) as [sub |]; [| done].
  destruct (m sub) as [r sub']. simpl. split.
  - split; simpl; [by rewrite length_insert | done].
  - intros indicator a Ha. simpl in *. rewrite length_insert. by apply (Hshape indicator).
Qed.

Lemma set_subject_type_preserves e0 i v :
  preserves (shaped_in_frame e0) (set_subject_type i v).
Proof.
  intros e [Hframe Hshape]. unfold set_subject_type.
  destruct (i <? length (fst (meta_matrix_dict e)))%nat; [| done].
  simpl. split; [done |]. intros indicator a Ha. by apply (Hshape indicator).
Qed.

Lemma set_cell_preserves e0 meta i j v :
  preserves (shaped_in_frame e0) (set_cell meta i j v).
Proof.
  intros e [Hframe Hshape]. unfold set_cell.
  destruct (snd (meta_matrix_dict e) !! meta) as [a |] eqn:Hmeta; [| done].
  destruct (Np.set a i j v) as [a' | x] eqn:Hset; [| done].
  simpl. split; [done |]. intros indicator b. simpl. rewrite lookup_insert.
  case_decide as Heq; [| apply (Hshape indicator)].
  intros [= <-]. apply Np_set_shape in Hset as (-> & -> & Hwf).
  destruct (Hshape meta a Hmeta) as (H0 & H1 & H2). auto.
Qed.

Lemma fill_subject_preserves e0 s a i :
  preserves (shaped_in_frame e0) (fill_subject s a i).
Proof.
  unfold fill_subject.
  apply preserves_bind; [apply on_subject_preserves |]. intros _.
  apply preserves_bind; [apply on_subject_preserves |]. intros sub.
  apply preserves_bind; [apply set_subject_type_preserves |]. intros _.
  apply preserves_for_each. intros [stim_index stimuli_type].
  apply preserves_bind; [apply preserves_lift |]. intros metas.
  apply preserves_for_each. intros meta.
  apply preserves_bind; [apply preserves_lift |]. intros v.
  apply set_cell_preserves.
Qed.

Lemma metaMatrixInitialisation_preserves e0 s a :
  preserves (shaped_in_frame e0) (metaMatrixInitialisation s a).
Proof.
  unfold metaMatrixInitialisation.
  apply preserves_bind; [apply allocate_preserves |]. intros _.
  apply preserves_bind; [apply preserves_get |]. intros e.
  apply preserves_for_each. intros i. apply fill_subject_preserves.
Qed.

(** *** The stimulus dictionary *)

Lemma kdict_set_keys {V} (d : list (pyval * V)) (ss : list string) (k : string) (v : V) :
  map fst d = map PStr ss ->
  map fst (Py.kdict_set d (PStr k) v) =
  map PStr (if decide (k ∈ ss) then ss else ss ++ [k]).
Proof.
  revert ss. induction d as [| [k' v'] d IH]; intros [| s ss]; simpl;
    try (intros Hd; discriminate Hd).
  - done.
  - intros [= -> Hd]. simpl. destruct (String.eqb_spec s k) as [-> | Hne].
    + simpl. rewrite Hd. case_decide as Hin; [done |].
      exfalso. apply Hin. by left.
    + simpl. rewrite (IH ss Hd). case_decide as Hin.
      * rewrite decide_True by (by right). done.
      * rewrite decide_False; [done |].
        intros [Heq | Hin']%elem_of_cons; [congruence | done].
Qed.

Lemma stimuli_loop (sd : list (string * pyval)) (ks : list string)
    (acc r : list (pyval * pyval)) (ss : list string) :
  (forall k, In k ks -> In k (map fst sd)) ->
  map fst acc = map PStr ss -> NoDup ss ->
  rfold (fun data_dict k =>
           rbind (Py.getitem (PDict sd) k) (fun v =>
             if Py.hashable k then Ok (Py.kdict_set data_dict k v)
             else Raise TypeError))
        (map PStr ks) acc = Ok r ->
  exists ss', map fst r = map PStr ss' /\ NoDup ss' /\
              (list_to_set ss' : gset string) = list_to_set ss ∪ list_to_set ks.
Proof.
  without_collaborators. revert acc ss.
  induction ks as [| k ks IH]; intros acc ss Hks Hacc Hnd; simpl.
  - intros [= <-]. exists ss. do 2 (split; [done |]). set_solver.
  - intros H. apply rbind_ok in H as (acc' & Hk & Hrest).
    apply rbind_ok in Hk as (v & Hv & [= <-]).
    pose proof (kdict_set_keys acc ss k v Hacc) as Hkeys.
    apply (IH _ _ (fun k' Hk' => Hks k' (or_intror Hk')) Hkeys) in Hrest
      as (ss' & Hr & Hnd' & Hset).
    + exists ss'. do 2 (split; [done |]). rewrite Hset.
      case_decide as Hin; [set_solver |].
      rewrite list_to_set_app_L. set_solver.
    + case_decide as Hin; [done |]. apply NoDup_app. split; [done |].
      split; [| apply NoDup_singleton].
      intros x Hx Hx'. apply list_elem_of_singleton in Hx' as ->. done.
Qed.

(** The stimulus dictionary has one entry per distinct category of the
    configuration. *)
Lemma stimuliArrayInitialisation_length json_data sd stimuli :
  Py.getitem json_data (PStr "Stimuli") = Ok (PDict sd) ->
  stimuliArrayInitialisation json_data = Ok stimuli ->
  length stimuli = size (list_to_set (map fst sd) : gset string).
Proof.
  without_collaborators.
  intros Hsd. unfold stimuliArrayInitialisation. rewrite Hsd. cbn [rbind Py.iter].
  rewrite <- (map_map fst PStr). intros H.
  apply (stimuli_loop sd (map fst sd) [] stimuli []) in H
    as (ss' & Hkeys & Hnd & Hset); [| done | done | constructor].
  rewrite <- (length_map fst stimuli), Hkeys, length_map.
  rewrite <- (size_list_to_set (C := gset string)) by done.
  rewrite Hset. f_equal. set_solver.
Qed.

(** C1: once [metaMatrixInitialisation] has been run on a constructed
    experiment, every array of the indicator matrix has as many rows as
    there are subjects and as many columns as the configuration's Stimuli
    mapping has distinct categories (and every row is there in full). *)
Theorem indicator_matrix_shape json_file json_data reading_method sensors aoi
    sd e0 e indicator a :
  Experiment_init json_file json_data reading_method sensors aoi = Ok e0 ->
  Py.getitem json_data (PStr "Stimuli") = Ok (PDict sd) ->
  has_run e0 e ->
  snd (meta_matrix_dict e) !! indicator = Some a ->
  Np.shape0 a = length (subjects e) /\
  Np.shape1 a = size (list_to_set (map fst sd) : gset string) /\
  Np.well_formed a.
Proof.
  intros Hinit Hsd Hrun Ha.
  apply Experiment_init_ok in Hinit as (_ & _ & _ & _ & Hstim & _ & Hempty).
  assert (Hinv : shaped_in_frame e0 e).
  { assert (H0 : shaped_in_frame e0 e0).
    { split; [done |]. intros i b. rewrite Hempty. by rewrite lookup_empty. }
    clear Ha. induction Hrun as [s f | s f e Hrun IH].
    - by apply metaMatrixInitialisation_preserves.
    - by apply metaMatrixInitialisation_preserves. }
  destruct Hinv as [[_ Hstimuli] Hshape].
  destruct (Hshape indicator a Ha) as (H0 & H1 & Hwf).
  split; [done |]. split; [| done].
  rewrite H1, Hstimuli. by apply (stimuliArrayInitialisation_length json_data).
Qed.

(** *** Laziness *)

Lemma preserves_bind_lift {S A B} (I : S -> Prop) (r : result A) (k : A -> ST S B) :
  (forall a, r = Ok a -> preserves I (k a)) -> preserves I (st_bind (st_lift r) k).
Proof.
  intros Hk s Hs. unfold st_bind, st_lift.
  destruct r as [a | x]; simpl; [by apply Hk | done].
Qed.

Lemma preserves_for_each_in {S A} (I : S -> Prop) (l : list A) (body : A -> ST S unit) :
  (forall x, In x l -> preserves I (body x)) -> preserves I (for_each l body).
Proof.
  induction l as [| x l IH]; intros Hb; simpl.
  - apply preserves_ret.
  - apply preserves_bind; [apply Hb; by left |].
    intros _. apply IH. intros y Hy. apply Hb. by right.
Qed.

(** A loop whose turns all return, each establishing its own [Q x] and
    keeping those of the others, ends with every [Q x] established. *)
Lemma for_each_establishes {S A} (Q : A -> S -> Prop) (l : list A)
    (body : A -> ST S unit) :
  (forall x s, In x l -> fst (body x s) = Ok tt /\ Q x (snd (body x s))) ->
  (forall x y s, Q x s -> Q x (snd (body y s))) ->
  forall s, fst (for_each l body s) = Ok tt /\
            forall x, In x l -> Q x (snd (for_each l body s)).
Proof.
  intros Hest Hkeep. induction l as [| y l IH]; intros s; simpl; [by split |].
  unfold st_bind. destruct (Hest y s (or_introl eq_refl)) as [Hok Hy].
  destruct (body y s) as [r s'] eqn:Hbody. simpl in *. subst r.
  destruct IH with (s := s') as [Hok' Hall].
  { intros x s0 Hx. apply Hest. by right. }
  split; [done |]. intros x [<- | Hx]; [| by apply Hall].
  clear Hall Hok'.
  assert (Hgen : forall l' s0, Q y s0 -> Q y (snd (for_each l' body s0))).
  { induction l' as [| z l' IH']; intros s0 H0; simpl; [done |].
    unfold st_bind. specialize (Hkeep y z s0 H0).
    destruct (body z s0) as [[[] | x] s1]; simpl in *; [by apply IH' | done]. }
  by apply Hgen.
Qed.

Lemma allocate_only_listed : preserves only_listed allocate_matrices.
Proof.
  unfold allocate_matrices. apply preserves_for_each. intros sensor_type.
  apply preserves_bind_lift. intros meta_cols Hcols.
  apply preserves_for_each_in. intros meta_col Hin. apply preserves_modify.
  intros e He indicator. unfold has_indicator. simpl.
  rewrite lookup_insert_is_Some'. intros [<- | Hold]; [| by apply He].
  by exists sensor_type, meta_cols.
Qed.

Lemma fill_subject_keeps_keys (I : gmap string Np.ndarray -> Prop) s a i :
  (forall d meta b, is_Some (d !! meta) -> I d -> I (<[meta := b]> d)) ->
  preserves (fun e => I (snd (meta_matrix_dict e))) (fill_subject s a i).
Proof.
  intros HI. unfold fill_subject.
  assert (Hsub : forall A (m : ST Subject.t A),
            preserves (fun e => I (snd (meta_matrix_dict e))) (on_subject i m)).
  { intros A m e He. unfold on_subject.
    destruct (subjects e !! i) as [sub |]; [| done]. by destruct (m sub). }
  apply preserves_bind; [apply Hsub |]. intros _.
  apply preserves_bind; [apply Hsub |]. intros sub.
  apply preserves_bind.
  { intros e He. unfold set_subject_type.
    by destruct (i <? length (fst (meta_matrix_dict e)))%nat. }
  intros _. apply preserves_for_each. intros [stim_index stimuli_type].
  apply preserves_bind; [apply preserves_lift |]. intros metas.
  apply preserves_for_each. intros meta.
  apply preserves_bind; [apply preserves_lift |]. intros v.
  intros e He. unfold set_cell.
  destruct (snd (meta_matrix_dict e) !! meta) as [b |] eqn:Hmeta; [| done].
  destruct (Np.set b i stim_index v); [| done]. simpl.
  apply HI; [by rewrite Hmeta | done].
Qed.

Lemma allocate_all_listed e :
  fst (allocate_matrices e) = Ok tt /\
  forall indicator, listed_indicator indicator ->
    has_indicator indicator (snd (allocate_matrices e)).
Proof.
  unfold allocate_matrices.
  pose (Q := fun (sensor_type : string) (e : Experiment) =>
               forall meta_cols indicator,
                 Py.dict_get Sensor_meta_cols sensor_type = Ok meta_cols ->
                 In indicator meta_cols -> has_indicator indicator e).
  assert (Hinner : forall meta_cols e,
    let body := fun meta_col : string =>
      st_modify (fun e =>
         set_meta_matrix_dict e
           (fst (meta_matrix_dict e),
            <[meta_col := Np.new (length (subjects e)) (length (stimuli e))]>
              (snd (meta_matrix_dict e)))) in
    fst (for_each meta_cols body e) = Ok tt /\
    (forall indicator, In indicator meta_cols ->
       has_indicator indicator (snd (for_each meta_cols body e))) /\
    (forall indicator, has_indicator indicator e ->
       has_indicator indicator (snd (for_each meta_cols body e)))).
  { intros meta_cols e0 body.
    destruct (for_each_establishes has_indicator meta_cols body) with (s := e0)
      as [Hok Hall].
    - intros x s _. split; [done |]. unfold has_indicator. simpl.
      rewrite lookup_insert_is_Some'. by left.
    - intros x y s Hx. unfold has_indicator. simpl.
      rewrite lookup_insert_is_Some'. by right.
    - do 2 (split; [done |]). intros indicator Hi.
      apply (preserves_for_each (has_indicator indicator)); [| done].
      intros x s Hs. unfold has_indicator. simpl.
      rewrite lookup_insert_is_Some'. by right. }
  match goal with
  | |- context [for_each ?l ?b] =>
      destruct (for_each_establishes Q l b) with (s := e) as [Hok Hall]
  end.
  - intros sensor_type s Hin. unfold st_bind, st_lift.
    destruct (assoc_key_is_Some sensor_type Sensor_meta_cols Hin) as [cols Hcols].
    unfold Py.dict_get at 1 2. rewrite Hcols. simpl.
    destruct (Hinner cols s) as (Hok & Hnew & _). split; [done |].
    intros meta_cols indicator Hget Hi. unfold Py.dict_get in Hget.
    rewrite Hcols in Hget. injection Hget as <-. by apply Hnew.
  - intros x y s Hx meta_cols indicator Hget Hi. specialize (Hx _ _ Hget Hi).
    unfold st_bind, st_lift.
    destruct (Py.dict_get Sensor_meta_cols y) as [cols |]; simpl; [| done].
    by apply Hinner.
  - split; [done |]. intros indicator (sensor_type & meta_cols & Hget & Hi).
    refine (Hall sensor_type _ meta_cols indicator Hget Hi).
    unfold Py.dict_get in Hget.
    destruct (Py.assoc sensor_type Sensor_meta_cols) as [c |] eqn:Hc; [| done].
    apply assoc_In in Hc. apply in_map_iff. by exists (sensor_type, c).
Qed.

(** *** Filling *)

Lemma hoare_bind {S A B} (P : S -> Prop) (m : ST S A) (Q : A -> S -> Prop)
    (k : A -> ST S B) (R : B -> S -> Prop) :
  hoare P m Q -> (forall a, hoare (Q a) (k a) R) -> hoare P (st_bind m k) R.
Proof.
  intros Hm Hk s b s' HP Hrun. unfold st_bind in Hrun.
  destruct (m s) as [[a | x] s1] eqn:Hms; [| discriminate].
  eapply Hk; [| exact Hrun]. by eapply Hm.
Qed.

Lemma hoare_lift {S A} (P : S -> Prop) (r : result A) (Q : A -> S -> Prop) :
  (forall a s, r = Ok a -> P s -> Q a s) -> hoare P (st_lift r) Q.
Proof. intros H s a s' HP [= -> <-]. by apply H. Qed.

Lemma hoare_consequence {S A} (P P' : S -> Prop) (m : ST S A) (Q Q' : A -> S -> Prop) :
  hoare P' m Q' -> (forall s, P s -> P' s) -> (forall a s, Q' a s -> Q a s) ->
  hoare P m Q.
Proof. intros Hm HP HQ s a s' Hs Hrun. apply HQ. eapply Hm; [by apply HP | done]. Qed.

(** A loop that returns has taken every turn: an invariant indexed by the
    items already visited holds of all of them at the end. *)
Lemma for_each_prefix {S A} (Inv : list A -> S -> Prop) (l : list A)
    (body : A -> ST S unit) :
  (forall visited x rest, l = visited ++ x :: rest ->
     hoare (Inv visited) (body x) (fun _ => Inv (visited ++ [x]))) ->
  hoare (Inv []) (for_each l body) (fun _ => Inv l).
Proof.
  intros Hbody.
  assert (Hgen : forall rest visited, l = visited ++ rest ->
            hoare (Inv visited) (for_each rest body) (fun _ => Inv l)).
  { induction rest as [| x rest IH]; intros visited Hl; simpl.
    - intros s0 a0 s1 Hs [= _ <-]. by rewrite Hl, app_nil_r.
    - eapply hoare_bind; [by apply (Hbody visited x rest) |].
      intros u. apply IH. by rewrite <- app_assoc. }
  by apply (Hgen l []).
Qed.

Lemma enumerate_from_lookup {A} (l : list A) (n i : nat) (x : A) :
  In (i, x) (enumerate_from n l) <-> n <= i /\ l !! (i - n) = Some x.
Proof.
  revert n. induction l as [| y l IH]; intros n; simpl.
  - split; [done | by intros [_ ?]].
  - rewrite IH. split.
    + intros [[= <- <-] | [Hle Hx]].
      * split; [lia |]. by rewrite Nat.sub_diag.
      * split; [lia |]. by replace (i - n) with (S (i - S n)) by lia.
    + intros [Hle Hx]. destruct (decide (i = n)) as [-> | Hne].
      * left. rewrite Nat.sub_diag in Hx. simpl in Hx. by injection Hx as ->.
      * right. split; [lia |].
        by replace (i - n) with (S (i - S n)) in Hx by lia.
Qed.

Lemma enumerate_functional {A} (l : list A) (i : nat) (x y : A) :
  In (i, x) (enumerate l) -> In (i, y) (enumerate l) -> x = y.
Proof.
  unfold enumerate. rewrite !enumerate_from_lookup. intros [_ Hx] [_ Hy]. congruence.
Qed.

Lemma expected_cell_functional sub stimuli_index meta v v' :
  expected_cell sub stimuli_index meta v -> expected_cell sub stimuli_index meta v' ->
  v = v'.
Proof.
  intros (st & metas & Hin & Hm & Hv) (st' & metas' & Hin' & Hm' & Hv').
  pose proof (enumerate_functional _ _ _ _ Hin Hin') as <-. congruence.
Qed.

Lemma Np_get_set a i j v a' i' j' :
  Np.well_formed a -> Np.set a i j v = Ok a' ->
  Np.get a' i' j' = if decide (i = i' /\ j = j') then Ok v else Np.get a i' j'.
Proof.
  intros [Hlen Hrows]. unfold Np.set, Np.get.
  destruct (Np.in_range a i j) eqn:Hrange; [| done]. intros [= <-].
  unfold Np.in_range in *. simpl.
  apply andb_true_iff in Hrange as [Hi%Nat.ltb_lt Hj%Nat.ltb_lt].
  destruct ((i' <? Np.shape0 a)%nat && (j' <? Np.shape1 a)%nat) eqn:Hrange'.
  - rewrite list_lookup_alter. destruct (decide (i = i')) as [<- | Hne].
    + destruct (lookup_lt_is_Some_2 (Np.cells a) i) as [row Hrow]; [lia |].
      rewrite Hrow. simpl.
      pose proof (Forall_lookup_1 _ _ _ _ Hrows Hrow) as Hrowlen.
      simpl in Hrowlen. destruct (decide (j = j')) as [<- | Hnej].
      * rewrite decide_True by done. rewrite list_lookup_insert_eq by lia. done.
      * rewrite decide_False by tauto. by rewrite list_lookup_insert_ne.
    + by rewrite decide_False by tauto.
  - case_decide as Heq; [| done]. destruct Heq as [<- <-].
    apply andb_false_iff in Hrange' as [H%Nat.ltb_ge | H%Nat.ltb_ge]; lia.
Qed.

(** A cell write that returns changes the one cell it names. *)
Lemma set_cell_cell e meta i j v e' meta' i' j' :
  matrix_shaped e -> set_cell meta i j v e = (Ok tt, e') ->
  subjects e' = subjects e /\
  matrix_cell e' meta' i' j' =
    if decide (meta = meta' /\ i = i' /\ j = j') then Ok v
    else matrix_cell e meta' i' j'.
Proof.
  intros Hshape. unfold set_cell, matrix_cell.
  destruct (snd (meta_matrix_dict e) !! meta) as [a |] eqn:Hmeta; [| done].
  destruct (Np.set a i j v) as [a' | x] eqn:Hset; [| done].
  intros [= <-]. simpl. split; [done |].
  destruct (Hshape meta a Hmeta) as (_ & _ & Hwf).
  destruct (decide (meta = meta')) as [<- | Hne].
  - rewrite lookup_insert_eq, Hmeta. rewrite (Np_get_set a i j v a') by done.
    repeat case_decide; tauto || done.
  - rewrite lookup_insert_ne by done. by rewrite decide_False by tauto.
Qed.

Lemma on_subject_ok {A} i (m : ST Subject.t A) e a e' :
  on_subject i m e = (Ok a, e') ->
  exists sub sub',
    subjects e !! i = Some sub /\ m sub = (Ok a, sub') /\
    e' = set_subjects e (<[i := sub']> (subjects e)).
Proof.
  unfold on_subject. destruct (subjects e !! i) as [sub |]; [| done].
  destruct (m sub) as [r sub'] eqn:Hm. intros [= -> <-]. by exists sub, sub'.
Qed.


Lemma preserves_hoare {S A} (I : S -> Prop) (m : ST S A) :
  preserves I m -> hoare I m (fun _ => I).
Proof. intros Hm s a s' Hs Hrun. specialize (Hm s Hs). by rewrite Hrun in Hm. Qed.

Lemma row_correct_claims e0 visited i sub (claimed claimed' : nat -> string -> Prop) e :
  (forall j meta v, claimed' j meta -> expected_cell sub j meta v -> claimed j meta) ->
  row_correct e0 visited i sub claimed e -> row_correct e0 visited i sub claimed' e.
Proof.
  intros Himp (Hrows & Hsub & Hcells). do 2 (split; [done |]).
  intros j meta v Hc Hexp. apply Hcells; [| done]. by apply (Himp j meta v).
Qed.

(** One cell write of the filling loop. *)
Lemma set_cell_fills e0 visited i sub j meta v (claimed : nat -> string -> Prop) :
  ~ In i visited -> expected_cell sub j meta v ->
  hoare (row_correct e0 visited i sub claimed)
        (set_cell meta i j v)
        (fun _ => row_correct e0 visited i sub
                    (fun j' meta' => claimed j' meta' \/ (j' = j /\ meta' = meta))).
Proof.
  intros Hi Hexp e [] e' ([Hshaped Hvisited] & Hsub & Hcells) Hrun.
  pose proof (set_cell_preserves e0 meta i j v e Hshaped) as Hshaped'.
  rewrite Hrun in Hshaped'. simpl in Hshaped'.
  assert (Hcell : forall meta' i' j',
            subjects e' = subjects e /\
            matrix_cell e' meta' i' j' =
              if decide (meta = meta' /\ i = i' /\ j = j') then Ok v
              else matrix_cell e meta' i' j').
  { intros. apply set_cell_cell; [apply Hshaped | done]. }
  split; [split; [done |] | split].
  - intros i' sub' Hin Hsub' j' meta' v' Hexp'.
    destruct (Hcell meta' i' j') as [Hsubs ->].
    rewrite decide_False by (intros (_ & <- & _); done).
    rewrite Hsubs in Hsub'. by apply (Hvisited i' sub').
  - destruct (Hcell meta i j) as [-> _]. done.
  - intros j' meta' v' Hclaim Hexp'. destruct (Hcell meta' i j') as [_ ->].
    case_decide as Hsame.
    + destruct Hsame as (<- & _ & <-). f_equal.
      by apply (expected_cell_functional sub j meta).
    + destruct Hclaim as [Hclaim | [-> ->]]; [by apply Hcells | tauto].
Qed.

Lemma dict_get_key {V} (d : list (string * V)) (k : string) (v : V) :
  Py.dict_get d k = Ok v -> In k (map fst d).
Proof.
  unfold Py.dict_get. destruct (Py.assoc k d) as [v' |] eqn:Hk; [| done].
  intros _. apply assoc_In in Hk. apply in_map_iff. by exists (k, v').
Qed.

(** The two inner loops of the filling of one subject. *)
Lemma fill_cells_fills e0 visited i sub :
  ~ In i visited ->
  hoare (row_correct e0 visited i sub (fun _ _ => False))
        (for_each (enumerate (map fst (Subject.aggregate_meta sub)))
           (fun '(stim_index, stimuli_type) =>
              st_bind (st_lift (Py.dict_get (Subject.aggregate_meta sub) stimuli_type))
                (fun metas =>
                   for_each (map fst metas) (fun meta =>
                     st_bind (st_lift (Py.dict_get metas meta))
                       (fun v => set_cell meta i stim_index v)))))
        (fun _ e => rows_filled e0 visited e /\ subjects e !! i = Some sub /\
                    subject_filled i sub e).
Proof.
  intros Hi.
  eapply hoare_consequence.
  - apply (for_each_prefix
             (fun visited2 => row_correct e0 visited i sub
                (fun j _ => exists st, In (j, st) visited2))).
    intros visited2 [j st] rest2 Henum.
    eapply hoare_bind; [apply hoare_lift; intros metas e Hmetas He;
                        exact (conj Hmetas He) |].
    intros metas. cbv beta.
    eapply hoare_consequence.
    + apply (for_each_prefix
               (fun visited3 e =>
                  Py.dict_get (Subject.aggregate_meta sub) st = Ok metas /\
                  row_correct e0 visited i sub
                    (fun j' meta' => (exists st', In (j', st') visited2) \/
                                     (j' = j /\ In meta' visited3)) e)).
      intros visited3 meta rest3 Hkeys.
      eapply hoare_bind with
        (Q := fun v e =>
                Py.dict_get metas meta = Ok v /\
                Py.dict_get (Subject.aggregate_meta sub) st = Ok metas /\
                row_correct e0 visited i sub
                  (fun j' meta' => (exists st', In (j', st') visited2) \/
                                   (j' = j /\ In meta' visited3)) e).
      { apply hoare_lift. intros v e Hv [Hm He]. done. }
      intros v e u e' (Hv & Hmetas & He) Hrun. split; [done |].
      assert (Hexp : expected_cell sub j meta v).
      { exists st, metas. split; [| done].
        rewrite Henum. apply in_or_app. right. by left. }
      pose proof (set_cell_fills e0 visited i sub j meta v _ Hi Hexp e u e' He Hrun)
        as He'.
      revert He'. apply row_correct_claims.
      intros j' meta' v' [Hold | [-> Hin]] _; [by left; left |].
      apply in_app_or in Hin as [Hin | [<- | []]]; [left; right | right]; done.
    + intros e [Hmetas He]. split; [done |].
      revert He. apply row_correct_claims. by intros j' meta' v' [H | [_ []]] _.
    + intros u e [Hmetas He]. revert He. apply row_correct_claims.
      intros j' meta' v' [st' Hin] Hexp.
      apply in_app_or in Hin as [Hin | [[= <- <-] | []]]; [left; by exists st' |].
      right. split; [done |].
      destruct Hexp as (st'' & metas'' & Hin'' & Hmetas'' & Hv').
      assert (Hst : st'' = st).
      { apply (enumerate_functional (map fst (Subject.aggregate_meta sub)) j);
          [done |].
        rewrite Henum. apply in_or_app. right. by left. }
      subst st''. rewrite Hmetas in Hmetas''. injection Hmetas'' as <-.
      by apply dict_get_key in Hv'.
  - intros e He. revert He. apply row_correct_claims. by intros j meta v [st []].
  - intros u e (Hrows & Hsub & Hcells). do 2 (split; [done |]).
    intros j meta v Hexp. apply (Hcells j meta v); [| done].
    destruct Hexp as (st & _ & Hin & _). by exists st.
Qed.

Lemma matrix_cell_set_subjects e l meta i j :
  matrix_cell (set_subjects e l) meta i j = matrix_cell e meta i j.
Proof. done. Qed.

Lemma on_subject_rows {A} e0 visited i (m : ST Subject.t A) :
  ~ In i visited ->
  hoare (rows_filled e0 visited) (on_subject i m) (fun _ => rows_filled e0 visited).
Proof.
  intros Hi e a e' [Hshaped Hvisited] Hrun.
  pose proof (on_subject_preserves e0 i m e Hshaped) as Hshaped'.
  rewrite Hrun in Hshaped'. simpl in Hshaped'. split; [done |].
  apply on_subject_ok in Hrun as (sub0 & sub1 & Hsub0 & _ & ->).
  intros i' sub' Hin Hsub' j meta v Hexp. rewrite matrix_cell_set_subjects.
  simpl in Hsub'. rewrite list_lookup_insert_ne in Hsub' by (intros <-; done).
  by apply (Hvisited i' sub').
Qed.

(** The filling of one subject. *)
Lemma fill_subject_fills e0 s a i visited :
  ~ In i visited ->
  hoare (rows_filled e0 visited) (fill_subject s a i)
        (fun _ => rows_filled e0 (visited ++ [i])).
Proof.
  intros Hi. unfold fill_subject.
  eapply hoare_bind; [by apply on_subject_rows |]. intros u1. cbv beta.
  eapply hoare_bind with
    (Q := fun sub e => rows_filled e0 visited e /\ subjects e !! i = Some sub).
  { intros e sub e' He Hrun.
    split; [by apply (on_subject_rows e0 visited i st_get Hi e sub e') |].
    apply on_subject_ok in Hrun as (sub0 & sub1 & Hsub0 & [= <- <-] & ->).
    simpl. apply list_lookup_insert_eq. by apply lookup_lt_Some in Hsub0. }
  intros sub.
  eapply hoare_bind with
    (Q := fun _ e => rows_filled e0 visited e /\ subjects e !! i = Some sub).
  { intros e u e' [[Hshaped Hvisited] Hsub] Hrun.
    pose proof (set_subject_type_preserves e0 i (Subject.subj_type sub) e Hshaped)
      as Hshaped'.
    rewrite Hrun in Hshaped'. simpl in Hshaped'.
    unfold set_subject_type in Hrun.
    destruct (i <? length (fst (meta_matrix_dict e)))%nat; [| done].
    injection Hrun as He'. subst e'. split; [split; [exact Hshaped' |] | exact Hsub].
    intros i' sub' Hin Hsub'. by apply (Hvisited i' sub'). }
  intros u2.
  eapply hoare_consequence; [by apply (fill_cells_fills e0 visited i sub) | |].
  - intros e [Hrows Hsub]. do 2 (split; [done |]). by intros j meta v [].
  - intros u3 e ([Hshaped Hvisited] & Hsub & Hfilled). split; [done |].
    intros i' sub' [Hin | [<- | []]]%in_app_or Hsub'; [by apply Hvisited |].
    rewrite Hsub in Hsub'. by injection Hsub' as <-.
Qed.

(** A run of [metaMatrixInitialisation] that returns, on an experiment
    whose matrix has the right shape, leaves in row [i] of the matrix what
    subject [i] expects after its analysis. *)
Lemma metaMatrixInitialisation_fills e0 s a e i sub :
  matrix_shaped e0 ->
  metaMatrixInitialisation s a e0 = (Ok tt, e) ->
  subjects e !! i = Some sub ->
  subject_filled i sub e.
Proof.
  intros Hshaped Hrun Hsub.
  assert (Hall : exists n, rows_filled e0 (seq 0 n) e /\
                           n = length (subjects e)).
  { revert Hrun. unfold metaMatrixInitialisation, st_bind.
    pose proof (allocate_preserves e0 e0 (conj (conj eq_refl eq_refl) Hshaped))
      as Halloc.
    destruct (allocate_matrices e0) as [[[] | x] e1]; [| done].
    simpl in Halloc. unfold st_get. intros Hloop.
    exists (length (subjects e1)).
    assert (Hrows : rows_filled e0 (seq 0 (length (subjects e1))) e).
    { apply (for_each_prefix (rows_filled e0) (seq 0 (length (subjects e1)))
               (fill_subject s a)) with (s := e1) (a := tt); [| | done].
      - intros visited i0 rest Hseq. apply fill_subject_fills.
        pose proof (NoDup_seq 0 (length (subjects e1))) as Hnd.
        rewrite Hseq in Hnd. apply NoDup_app in Hnd as (_ & Hdisj & _).
        intros Hin%list_elem_of_In. apply (Hdisj _ Hin). by left.
      - split; [done |]. by intros i0 sub0 []. }
    split; [done |].
    destruct Hrows as [[[Hlen _] _] _]. destruct Halloc as [[Hlen1 _] _]. congruence. }
  destruct Hall as (n & [_ Hrows] & ->).
  apply (Hrows i sub); [| done].
  apply in_seq. apply lookup_lt_Some in Hsub. lia.
Qed.

(** C6: the indicator matrix is built lazily. A constructed experiment has
    no indicator entry at all; a run of [metaMatrixInitialisation] on it
    creates the entries, one for each indicator name of [Sensor.meta_cols]
    and no other; and a run that returns has filled them: row [i] holds,
    for every stimulus type and indicator of subject [i]'s analysis, the
    value the subject has for them. *)
Theorem indicator_matrix_lazily_built json_file json_data reading_method sensors
    aoi e :
  Experiment_init json_file json_data reading_method sensors aoi = Ok e ->
  snd (meta_matrix_dict e) = ∅ /\
  (forall standardise_flag average_flag indicator,
     is_Some (snd (meta_matrix_dict
                     (snd (metaMatrixInitialisation standardise_flag average_flag e)))
              !! indicator)
     <-> listed_indicator indicator) /\
  (forall standardise_flag average_flag e' sub_index sub,
     metaMatrixInitialisation standardise_flag average_flag e = (Ok tt, e') ->
     subjects e' !! sub_index = Some sub ->
     subject_filled sub_index sub e').
Proof.
  intros Hinit. apply Experiment_init_ok in Hinit as (_ & _ & _ & _ & _ & _ & Hempty).
  split; [done |]. split.
  2: { intros s a e' i sub Hrun Hsub.
       apply (metaMatrixInitialisation_fills e s a e' i sub); [| done | done].
       intros indicator b. by rewrite Hempty, lookup_empty. }
  intros s a indicator. split.
  - revert indicator.
    change (only_listed (snd (metaMatrixInitialisation s a e))).
    assert (Hpres : preserves only_listed (metaMatrixInitialisation s a)).
    { unfold metaMatrixInitialisation.
      apply preserves_bind; [apply allocate_only_listed |]. intros _.
      apply preserves_bind; [apply preserves_get |]. intros e1.
      apply preserves_for_each. intros i.
      apply (fill_subject_keeps_keys
               (fun d => forall indicator, is_Some (d !! indicator) ->
                                           listed_indicator indicator)).
      intros d meta b Hmeta Hd indicator. rewrite lookup_insert_is_Some'.
      intros [<- | Hold]; by apply Hd. }
    apply Hpres. intros indicator. unfold has_indicator. rewrite Hempty.
    rewrite lookup_empty. by intros [? ?].
  - intros Hlisted. unfold metaMatrixInitialisation, st_bind.
    destruct (allocate_all_listed e) as [Hok Hall].
    destruct (allocate_matrices e) as [r e1]. simpl in Hok, Hall. subst r.
    unfold st_get.
    apply (preserves_for_each (fun e => has_indicator indicator e)); [| by apply Hall].
    intros i.
    apply (fill_subject_keeps_keys (fun d => is_Some (d !! indicator))).
    intros d meta b _ Hd. rewrite lookup_insert_is_Some'. by right.
Qed.

(** ** [getMetaData] *)

Lemma list_index_absent stim l :
  ~ In (PStr stim) l -> Py.list_index stim l = None.
Proof.
  without_collaborators.
  induction l as [| v l IH]; simpl; [done |].
  intros Hnot.
  assert (Hl : Py.list_index stim l = None) by (apply IH; tauto).
  destruct v; rewrite ?Hl; try done.
  destruct (String.eqb_spec s stim) as [-> | _]; [| done].
  exfalso. apply Hnot. by left.
Qed.

Lemma key_eqb_irrefl_absent {V} (cat : pyval) (d : list (pyval * V)) :
  Py.key_eqb cat cat = false -> Py.kassoc cat d = None.
Proof.
  intros Hcat. induction d as [| [k v] d IH]; simpl; [done |].
  assert (Hk : Py.key_eqb k cat = false).
  { destruct cat; simpl in Hcat;
      rewrite ?Z.eqb_refl, ?String.eqb_refl in Hcat; try done;
      by destruct k as [| [] | | | | | |]. }
  by rewrite Hk.
Qed.

(** The search stops at the first category it examines. *)
Lemma search_category_first stimuli cat cats stim stim_cat stim_ind :
  search_category stimuli (cat :: cats) stim stim_cat stim_ind =
  rbind (Py.kdict_get stimuli cat) (fun names =>
    rbind (Py.index_of names stim) (fun i => Ok (cat, Z.of_nat i))).
Proof.
  simpl. destruct (Py.kdict_get stimuli cat) as [names |]; simpl; [| done].
  destruct (Py.index_of names stim) as [i |]; simpl; [| done].
  destruct (Z.eqb_spec (Z.of_nat i) (-1)) as [Hneg | _]; [lia | done].
Qed.

(** C9: with a stimulus name given, the category search never goes past
    the first category it examines: [index] returns a position or raises,
    so the test [stim_ind != -1] always passes; and when the first category
    does not hold the stimulus ([index] raises on it, as it does on a list
    without the name), the call raises, whatever the categories after it
    hold. *)
Theorem getMetaData_first_category_only e sub stim sensor :
  (forall cat cats stim_cat stim_ind,
     search_category (stimuli e) (cat :: cats) stim stim_cat stim_ind =
     rbind (Py.kdict_get (stimuli e) cat) (fun names =>
       rbind (Py.index_of names stim) (fun i => Ok (cat, Z.of_nat i)))) /\
  (forall l, ~ In (PStr stim) l -> Py.index_of (PList l) stim = Raise ValueError) /\
  (forall cat names rest,
     stimuli e = (cat, names) :: rest ->
     raises (Py.index_of names stim) ->
     raises (getMetaData e sub (Some stim) sensor)).
Proof.
  split; [intros; apply search_category_first |].
  split; [intros l Habsent; simpl; by rewrite (list_index_absent _ _ Habsent) |].
  intros cat names rest Hstim Habsent. unfold getMetaData.
  destruct (subjects_index (subjects e) sub) as [sub_ind | x]; simpl;
    [| by exists x].
  apply rbind_raises. rewrite Hstim. cbn [map fst].
  rewrite search_category_first. unfold Py.kdict_get.
  destruct (Py.hashable cat); [| by exists TypeError].
  cbn [Py.kassoc]. destruct (Py.key_eqb cat cat) eqn:Hcat.
  - cbn [rbind]. by apply rbind_raises.
  - rewrite (key_eqb_irrefl_absent cat rest Hcat). by exists KeyError.
Qed.

(** ** The dataset of one indicator *)

Lemma extend_nil w : extend w [] [] = w.
Proof.
  destruct w as [[cols rows] out calls]. unfold extend. simpl.
  by rewrite !app_nil_r.
Qed.

Lemma extend_extend w r1 m1 r2 m2 :
  extend (extend w r1 m1) r2 m2 = extend w (r1 ++ r2) (m1 ++ m2).
Proof. unfold extend. simpl. by rewrite <- !app_assoc. Qed.

Lemma extend_columns w rows msgs :
  df_columns (data (extend w rows msgs)) = df_columns (data w).
Proof. done. Qed.

Lemma print_extend m w : print m w = (Ok tt, extend w [] [m]).
Proof.
  destruct w as [[cols rows] out calls]. unfold print, st_modify, extend. simpl.
  by rewrite app_nil_r.
Qed.

Lemma loc_append_extend row w :
  loc_append row w =
  if (length row =? length (df_columns (data w)))%nat
  then (Ok tt, extend w [row] [])
  else (Raise ValueError, w).
Proof.
  destruct w as [[cols rows] out calls]. unfold loc_append, extend. simpl.
  destruct (length row =? length cols)%nat; [| done].
  by rewrite app_nil_r.
Qed.

Section RowsFacts.

Variable e : Experiment.
Variable json_data : pyval.
Variables between_factor_list within_factor_list : list string.

Local Abbreviation Row :=
  (row_of e json_data between_factor_list within_factor_list).
Local Abbreviation Stored :=
  (stored e json_data between_factor_list within_factor_list).
Local Abbreviation Messages :=
  (value_messages e json_data between_factor_list within_factor_list).
Local Abbreviation StoredRows :=
  (stored_rows e json_data between_factor_list within_factor_list).
Local Abbreviation ValuesMessages :=
  (values_messages e json_data between_factor_list within_factor_list).
Local Abbreviation CellRows :=
  (cell_rows e json_data between_factor_list within_factor_list).
Local Abbreviation CellMessages :=
  (cell_messages e json_data between_factor_list within_factor_list).

Lemma between_step_spec sub row param w :
  between_step json_data sub row param w =
  (Ok (row ++ between_cells json_data sub param),
   extend w [] (between_messages json_data sub param)).
Proof.
  unfold between_step, between_cells, between_messages.
  destruct (String.eqb param "Subject_type").
  - unfold st_ret. by rewrite app_nil_r, extend_nil.
  - unfold try_except, st_bind, st_lift.
    destruct (between_value json_data sub param) as [v | x].
    + unfold st_ret. by rewrite extend_nil.
    + rewrite print_extend. unfold st_ret. by rewrite app_nil_r.
Qed.

Lemma within_step_spec stimuli_index stimuli_type row param w :
  within_step e json_data stimuli_index stimuli_type row param w =
  (Ok (row ++ within_cells e json_data stimuli_index stimuli_type param),
   extend w [] (within_messages e json_data stimuli_index stimuli_type param)).
Proof.
  unfold within_step, within_cells, within_messages.
  destruct (String.eqb param "Stimuli_type").
  - unfold st_ret. by rewrite app_nil_r, extend_nil.
  - unfold try_except, st_bind, st_lift.
    destruct (within_value e json_data stimuli_index stimuli_type param) as [v | x].
    + unfold st_ret. by rewrite extend_nil.
    + rewrite print_extend. unfold st_ret. by rewrite app_nil_r.
Qed.

(** A loop that only grows the row and the output. *)
Lemma st_fold_row (body : list pyval -> string -> ST world (list pyval))
    (cells : string -> list pyval) (msgs : string -> list message)
    (l : list string) (row : list pyval) (w : world) :
  (forall row param w,
     body row param w = (Ok (row ++ cells param), extend w [] (msgs param))) ->
  st_fold body l row w =
  (Ok (row ++ flat_map cells l), extend w [] (flat_map msgs l)).
Proof.
  intros Hbody. revert row w. induction l as [| param l IH]; intros row w; simpl.
  - unfold st_ret. by rewrite app_nil_r, extend_nil.
  - unfold st_bind. rewrite Hbody, IH, extend_extend. by rewrite <- app_assoc.
Qed.

Lemma st_fold_between sub row w :
  st_fold (between_step json_data sub) between_factor_list row w =
  (Ok (row ++ flat_map (between_cells json_data sub) between_factor_list),
   extend w [] (flat_map (between_messages json_data sub) between_factor_list)).
Proof. apply st_fold_row. intros. apply between_step_spec. Qed.

Lemma st_fold_within stimuli_index stimuli_type row w :
  st_fold (within_step e json_data stimuli_index stimuli_type)
    within_factor_list row w =
  (Ok (row ++ flat_map (within_cells e json_data stimuli_index stimuli_type)
                within_factor_list),
   extend w [] (flat_map (within_messages e json_data stimuli_index stimuli_type)
                  within_factor_list)).
Proof. apply st_fold_row. intros. apply within_step_spec. Qed.

(** One turn of the value loop. *)
Lemma store_value_spec sub stimuli_index stimuli_type value w :
  store_value e json_data between_factor_list within_factor_list
    sub stimuli_index stimuli_type value w =
  (if Stored (length (df_columns (data w))) sub stimuli_index stimuli_type value
   then Ok tt else Raise (store_error value),
   extend w
     (if Stored (length (df_columns (data w))) sub stimuli_index stimuli_type value
      then [Row sub stimuli_index stimuli_type value] else [])
     (Messages sub stimuli_index stimuli_type value)).
Proof.
  unfold store_value.
  unfold st_bind at 1. rewrite st_fold_between.
  unfold st_bind at 1. rewrite st_fold_within. rewrite extend_extend.
  replace (((([value; Subject.subj_type sub]
       ++ flat_map (between_cells json_data sub) between_factor_list)
      ++ [PStr stimuli_type])
     ++ flat_map (within_cells e json_data stimuli_index stimuli_type) within_factor_list)
    ++ [Subject.name sub]) with (Row sub stimuli_index stimuli_type value)
    by (unfold row_of; by rewrite <- !app_assoc).
  unfold stored, store_error, value_messages, factor_messages.
  unfold st_bind, st_lift.
  destruct (np_isnan value) as [[|] | x].
  - rewrite print_extend, loc_append_extend, !extend_columns, !extend_extend.
    destruct (length (Row sub stimuli_index stimuli_type value)
              =? length (df_columns (data w)))%nat; simpl;
      by rewrite ?extend_extend, ?app_nil_r.
  - unfold st_ret. rewrite loc_append_extend, !extend_columns.
    destruct (length (Row sub stimuli_index stimuli_type value)
              =? length (df_columns (data w)))%nat; simpl;
      by rewrite ?extend_extend, ?app_nil_r.
  - simpl. by rewrite app_nil_r.
Qed.

(** The value loop: rows are stored up to the first value that is not. *)
Lemma value_loop_spec sub stimuli_index stimuli_type values w :
  let ncols := length (df_columns (data w)) in
  let r := for_each values
             (store_value e json_data between_factor_list within_factor_list
                sub stimuli_index stimuli_type) w in
  (forallb (Stored ncols sub stimuli_index stimuli_type) values = true ->
     fst r = Ok tt) /\
  (forallb (Stored ncols sub stimuli_index stimuli_type) values = false ->
     raises (fst r)) /\
  snd r = extend w (StoredRows ncols sub stimuli_index stimuli_type values)
            (ValuesMessages ncols sub stimuli_index stimuli_type values).
Proof.
  revert w. induction values as [| v vs IH]; intros w; simpl.
  - split; [done |]. split; [done |]. by rewrite extend_nil.
  - unfold st_bind. rewrite store_value_spec.
    destruct (Stored (length (df_columns (data w))) sub stimuli_index stimuli_type v).
    + specialize (IH (extend w [Row sub stimuli_index stimuli_type v]
                        (Messages sub stimuli_index stimuli_type v))).
      rewrite extend_columns in IH. simpl in IH. destruct IH as (H1 & H2 & H3).
      simpl. split; [done |]. split; [done |].
      rewrite H3, extend_extend. done.
    + simpl. split; [done |]. split; [by eexists |]. by rewrite app_nil_r.
Qed.

(** One cell of the matrix, when the matrix has it. *)
Lemma store_cell_spec meta sub_index sub stimuli_index stimuli_type cell w :
  matrix_cell e meta sub_index stimuli_index = Ok cell ->
  store_cell e json_data meta between_factor_list within_factor_list
    sub_index sub stimuli_index stimuli_type w =
  (Ok tt,
   extend w
     (CellRows meta (length (df_columns (data w))) sub_index sub
        stimuli_index stimuli_type)
     (CellMessages meta (length (df_columns (data w))) sub_index sub
        stimuli_index stimuli_type)).
Proof.
  intros Hcell. unfold store_cell, cell_rows, cell_messages, cell_fails.
  unfold st_bind at 1. unfold st_lift at 1. rewrite Hcell. cbn [rbind].
  unfold try_except, st_bind at 1. unfold st_lift at 1.
  destruct (Py.iter cell) as [values | x].
  - destruct (value_loop_spec sub stimuli_index stimuli_type values w)
      as (Hok & Hraise & Hsnd).
    destruct (for_each values _ w) as [r w'] eqn:Hloop. simpl in Hok, Hraise, Hsnd.
    subst w'.
    destruct (forallb (Stored (length (df_columns (data w))) sub stimuli_index
                         stimuli_type) values).
    + rewrite Hok by done. simpl. by rewrite app_nil_r.
    + destruct Hraise as [x ->]; [done |]. rewrite print_extend, extend_extend.
      simpl. by rewrite app_nil_r.
  - by rewrite print_extend.
Qed.

(** Whatever the matrix holds, the row loop only appends rows and output. *)
Lemma store_cell_extends meta sub_index sub stimuli_index stimuli_type w :
  exists rows msgs,
    snd (store_cell e json_data meta between_factor_list within_factor_list
           sub_index sub stimuli_index stimuli_type w) = extend w rows msgs.
Proof.
  destruct (matrix_cell e meta sub_index stimuli_index) as [cell | x] eqn:Hcell.
  - rewrite (store_cell_spec _ _ _ _ _ cell) by done. by eexists _, _.
  - unfold store_cell, st_bind, st_lift. rewrite Hcell. exists [], [].
    by rewrite extend_nil.
Qed.

End RowsFacts.

Lemma only_extends_for_each {A} (l : list A) (body : A -> ST world unit) :
  (forall x, only_extends (body x)) -> only_extends (for_each l body).
Proof.
  intros Hbody. induction l as [| x l IH]; intros w; simpl.
  - exists [], []. by rewrite extend_nil.
  - unfold st_bind. destruct (Hbody x w) as (r1 & m1 & H1).
    destruct (body x w) as [[[] | y] w1]; simpl in H1; subst w1.
    + destruct (IH (extend w r1 m1)) as (r2 & m2 & H2).
      rewrite H2, extend_extend. by eexists _, _.
    + by eexists _, _.
Qed.

(** A loop whose turns all return and only append. *)
Lemma for_each_extend {A} (l : list A) (body : A -> ST world unit)
    (R : A -> list (list pyval)) (M : A -> list message) (n : nat) :
  (forall x w, In x l -> length (df_columns (data w)) = n ->
               body x w = (Ok tt, extend w (R x) (M x))) ->
  forall w, length (df_columns (data w)) = n ->
    for_each l body w = (Ok tt, extend w (flat_map R l) (flat_map M l)).
Proof.
  induction l as [| x l IH]; intros Hbody w Hw; simpl.
  - unfold st_ret. by rewrite extend_nil.
  - unfold st_bind. rewrite Hbody by (done || by left).
    rewrite IH; [by rewrite extend_extend | | done].
    intros y w' Hy. apply Hbody. by right.
Qed.

Section DatasetFacts.

Variable e : Experiment.
Variable json_data : pyval.
Variable meta : string.
Variables between_factor_list within_factor_list : list string.

Local Abbreviation RowsOfCell :=
  (rows_of_cell e json_data meta between_factor_list within_factor_list).
Local Abbreviation MessagesOfCell :=
  (messages_of_cell e json_data meta between_factor_list within_factor_list).
Local Abbreviation Fresh :=
  (fresh_data meta between_factor_list within_factor_list).
Local Abbreviation Columns :=
  (column_list meta between_factor_list within_factor_list).

Lemma flat_map_flat_map {A B C} (f : A -> list B) (g : B -> list C) (l : list A) :
  flat_map g (flat_map f l) = flat_map (fun x => flat_map g (f x)) l.
Proof.
  induction l as [| x l IH]; simpl; [done |].
  by rewrite flat_map_app, IH.
Qed.

Lemma flat_map_map {A B C} (f : A -> B) (g : B -> list C) (l : list A) :
  flat_map g (map f l) = flat_map (fun x => g (f x)) l.
Proof. induction l as [| x l IH]; simpl; [done | by rewrite IH]. Qed.

(** The dataset of an indicator is the concatenation, cell after cell, of
    what each cell contributes on its own. *)
Lemma assemble_spec w :
  cells_present e meta ->
  assemble e json_data meta between_factor_list within_factor_list w =
  (Ok tt, extend (Fresh w) (flat_map (RowsOfCell) (visited_cells e))
            (flat_map (MessagesOfCell) (visited_cells e))).
Proof.
  intros Hcells. unfold assemble. unfold st_bind at 1.
  change (set_data _ w) with (Ok tt, Fresh w). cbv iota beta.
  unfold visited_cells. rewrite !flat_map_flat_map.
  apply (for_each_extend _ _ _ _ (length (Columns))); [| done].
  intros [sub_index sub] w1 Hsub Hw1. rewrite !flat_map_map.
  apply (for_each_extend _ _ _ _ (length (Columns))); [| done].
  intros [stimuli_index stimuli_type] w2 Hstim Hw2.
  destruct (Hcells sub_index sub stimuli_index stimuli_type) as [cell Hcell].
  { unfold visited_cells. apply in_flat_map. exists (sub_index, sub).
    split; [done |]. apply in_map_iff. by exists (stimuli_index, stimuli_type). }
  rewrite (store_cell_spec _ _ _ _ _ _ _ _ _ cell) by done.
  by rewrite Hw2.
Qed.

Lemma assemble_extends w :
  exists rows msgs,
    snd (assemble e json_data meta between_factor_list within_factor_list w) =
    extend (Fresh w) rows msgs.
Proof.
  unfold assemble. unfold st_bind at 1.
  change (set_data _ w) with (Ok tt, Fresh w). cbv iota beta.
  apply only_extends_for_each. intros [sub_index sub].
  apply only_extends_for_each. intros [stimuli_index stimuli_type] w'.
  apply store_cell_extends.
Qed.

End DatasetFacts.

(** *** The columns *)

Lemma assemble_columns e json_data meta between_factor_list within_factor_list w :
  df_columns (data (snd (assemble e json_data meta between_factor_list
                           within_factor_list w))) =
  [meta] ++ between_factor_list ++ within_factor_list ++ ["subject"] /\
  pg_calls (snd (assemble e json_data meta between_factor_list
                   within_factor_list w)) = pg_calls w.
Proof.
  destruct (assemble_extends e json_data meta between_factor_list
              within_factor_list w) as (rows & msgs & ->).
  done.
Qed.

Lemma print_keeps (I : world -> Prop) m :
  (forall w rows msgs, I w -> I (extend w rows msgs)) -> preserves I (print m).
Proof. intros HI w Hw. rewrite print_extend. by apply HI. Qed.

Lemma run_test_columns meta between_factor_list within_factor_list
    statistical_test w :
  calls_have_columns between_factor_list within_factor_list w ->
  df_columns (data w) =
    [meta] ++ between_factor_list ++ within_factor_list ++ ["subject"] ->
  calls_have_columns between_factor_list within_factor_list
    (snd (run_test meta between_factor_list within_factor_list statistical_test w)).
Proof.
  intros Hcalls Hcols.
  pose (I := fun w => calls_have_columns between_factor_list within_factor_list w /\
                      df_columns (data w) =
                      [meta] ++ between_factor_list ++ within_factor_list ++ ["subject"]).
  assert (Hprint : forall m, preserves I (print m)).
  { intros m. apply print_keeps. by intros w0 rows msgs [H1 H2]. }
  assert (Hcall : forall f within between, preserves I (call_pg f meta within between)).
  { intros f within between w0 [H1 H2]. unfold call_pg. simpl. split; [| done].
    apply Forall_app. split; [done |]. by constructor. }
  assert (HI : preserves I (run_test meta between_factor_list within_factor_list
                              statistical_test)).
  { unfold run_test.
    repeat match goal with
           | |- preserves _ (if ?b then _ else _) => destruct b
           | |- preserves _ (st_bind _ _) => apply preserves_bind; [| intros ?]
           | |- preserves _ (print _) => apply Hprint
           | |- preserves _ (call_pg _ _ _ _) => apply Hcall
           | |- preserves _ (st_lift _) => apply preserves_lift
           | |- preserves _ (st_ret _) => apply preserves_ret
           end. }
  by apply HI.
Qed.

Lemma analyse_calls e json_data parameter_list between_factor_list
    within_factor_list statistical_test :
  preserves (calls_have_columns between_factor_list within_factor_list)
    (analyse e json_data parameter_list between_factor_list within_factor_list
       statistical_test).
Proof.
  unfold analyse.
  apply preserves_bind; [apply preserves_lift |]. intros eye_columns.
  apply preserves_bind; [apply preserves_lift |]. intros has_aoi.
  apply preserves_for_each. intros sen.
  apply preserves_bind; [apply preserves_lift |]. intros metas.
  apply preserves_for_each. intros meta.
  destruct (str_in meta _); [apply preserves_ret |].
  destruct (_ && _); [by apply print_keeps |].
  apply preserves_bind; [by apply print_keeps |]. intros _.
  apply preserves_bind; [by apply print_keeps |]. intros _.
  intros w Hw. unfold st_bind.
  destruct (assemble_columns e json_data meta between_factor_list
              within_factor_list w) as [Hcols Hcalls].
  destruct (assemble e json_data meta between_factor_list within_factor_list w)
    as [[[] | x] w1]; simpl in *.
  - apply run_test_columns; [| done]. unfold calls_have_columns. by rewrite Hcalls.
  - unfold calls_have_columns. by rewrite Hcalls.
Qed.

(** C3: the dataframe assembled for an indicator has exactly the columns
    indicator name, then the between-group factors, then the within-group
    factors, then "subject"; and this is the frame every call of the
    statistics library made by [analyse] receives for its indicator. *)
Theorem analyse_dataframe_columns e json_data between_factor_list
    within_factor_list :
  (forall meta w,
     df_columns (data (snd (assemble e json_data meta between_factor_list
                              within_factor_list w))) =
     [meta] ++ between_factor_list ++ within_factor_list ++ ["subject"]) /\
  (forall parameter_list statistical_test w c,
     pg_calls w = [] ->
     In c (pg_calls (snd (analyse e json_data parameter_list between_factor_list
                            within_factor_list statistical_test w))) ->
     df_columns (pg_data c) =
     [pg_dv c] ++ between_factor_list ++ within_factor_list ++ ["subject"]).
Proof.
  split.
  - intros meta w. apply assemble_columns.
  - intros parameter_list statistical_test w c Hw Hc.
    assert (H : calls_have_columns between_factor_list within_factor_list
                  (snd (analyse e json_data parameter_list between_factor_list
                          within_factor_list statistical_test w))).
    { apply analyse_calls. unfold calls_have_columns. rewrite Hw. constructor. }
    unfold calls_have_columns in H. rewrite Forall_forall in H.
    apply H. by apply list_elem_of_In.
Qed.

(** *** The rows *)

Lemma stored_rows_all e json_data between_factor_list within_factor_list ncols
    sub stimuli_index stimuli_type values :
  forallb (stored e json_data between_factor_list within_factor_list ncols sub
             stimuli_index stimuli_type) values = true ->
  stored_rows e json_data between_factor_list within_factor_list ncols sub
    stimuli_index stimuli_type values =
  map (row_of e json_data between_factor_list within_factor_list sub
         stimuli_index stimuli_type) values.
Proof.
  induction values as [| v vs IH]; simpl; [done |].
  intros [Hv Hvs]%andb_true_iff. rewrite Hv. f_equal. by apply IH.
Qed.

(** The rows kept from a value array are those of a prefix of it: the
    values before the first one that is not stored. *)
Lemma stored_rows_prefix e json_data between_factor_list within_factor_list ncols
    sub stimuli_index stimuli_type values :
  exists kept skipped,
    values = kept ++ skipped /\
    stored_rows e json_data between_factor_list within_factor_list ncols sub
      stimuli_index stimuli_type values =
    map (row_of e json_data between_factor_list within_factor_list sub
           stimuli_index stimuli_type) kept /\
    Forall (fun v => stored e json_data between_factor_list within_factor_list
                       ncols sub stimuli_index stimuli_type v = true) kept /\
    match skipped with
    | [] => True
    | v :: _ => stored e json_data between_factor_list within_factor_list
                  ncols sub stimuli_index stimuli_type v = false
    end.
Proof.
  induction values as [| v vs IH]; simpl.
  - exists [], []. by repeat split.
  - destruct (stored _ _ _ _ _ _ _ _ v) eqn:Hv.
    + destruct IH as (kept & skipped & -> & Hrows & Hkept & Hskip).
      exists (v :: kept), skipped. simpl. rewrite Hrows.
      repeat split; [by constructor | done].
    + exists [], (v :: vs). by repeat split.
Qed.

(** With the factor lists [analyse] has by default, every row has the four
    entries the four columns ask for: a value is stored as soon as
    [np.isnan] accepts it. *)
Lemma stored_default e json_data meta sub stimuli_index stimuli_type value :
  stored e json_data ["Subject_type"] ["Stimuli_type"]
    (length (column_list meta ["Subject_type"] ["Stimuli_type"]))
    sub stimuli_index stimuli_type value =
  match np_isnan value with Ok _ => true | Raise _ => false end.
Proof. unfold stored. by destruct (np_isnan value). Qed.

Lemma between_value_configured json_data sub param v :
  configured_factor json_data sub param = Some v ->
  between_value json_data sub param = Ok v.
Proof.
  without_collaborators.
  unfold configured_factor, between_value.
  destruct (Subject.subj_type sub) as [| | | | subj_type | | |]; try done.
  destruct (Subject.name sub) as [| | | | name | | |]; try done.
  cbn [Py.getpath].
  destruct (Py.getitem json_data (PStr "Subjects")) as [d1 |]; cbn [rbind]; [| done].
  destruct (Py.getitem d1 (PStr subj_type)) as [d2 |]; cbn [rbind]; [| done].
  destruct (Py.getitem d2 (PStr name)) as [d3 |]; cbn [rbind]; [| done].
  destruct (Py.getitem d3 (PStr param)) as [v' |]; cbn [rbind]; [| done].
  by intros [= ->].
Qed.

Lemma between_cells_configured json_data sub between_factor_list :
  (forall param, In param (extra_factors between_factor_list) ->
                 is_Some (configured_factor json_data sub param)) ->
  flat_map (between_cells json_data sub) between_factor_list =
  flat_map (fun param => option_list (configured_factor json_data sub param))
           (extra_factors between_factor_list) /\
  length (flat_map (fun param => option_list (configured_factor json_data sub param))
                   (extra_factors between_factor_list)) =
  length (extra_factors between_factor_list).
Proof.
  without_collaborators.
  unfold extra_factors.
  induction between_factor_list as [| param l IH]; intros Hdefined; [done |].
  simpl in *. unfold between_cells at 1.
  destruct (String.eqb param "Subject_type"); simpl in *.
  - by apply IH.
  - destruct (Hdefined param (or_introl eq_refl)) as [v Hv].
    rewrite (between_value_configured _ _ _ _ Hv), Hv. simpl.
    destruct IH as [-> ->]; [| done].
    intros p Hp. apply Hdefined. by right.
Qed.

Lemma factors_partition between_factor_list :
  length between_factor_list =
  occurrences "Subject_type" between_factor_list
  + length (extra_factors between_factor_list).
Proof.
  without_collaborators.
  unfold occurrences, extra_factors.
  induction between_factor_list as [| param l IH]; [done |].
  simpl. destruct (String.eqb param "Subject_type"); simpl; lia.
Qed.

Lemma flat_map_ext_In {A B} (f g : A -> list B) (l : list A) :
  (forall x, In x l -> f x = g x) -> flat_map f l = flat_map g l.
Proof.
  without_collaborators.
  induction l as [| x l IH]; intros Hfg; simpl; [done |].
  rewrite (Hfg x) by (by left). f_equal. apply IH. intros y Hy. apply Hfg. by right.
Qed.



(** *** Checking the side conditions by computation *)

Lemma cells_present_check e meta :
  cells_presentb e meta = true -> cells_present e meta.
Proof.
  unfold cells_presentb. rewrite forallb_forall.
  intros H sub_index sub stimuli_index stimuli_type Hin.
  specialize (H _ Hin). simpl in H.
  destruct (matrix_cell e meta sub_index stimuli_index) as [cell |]; [| done].
  by exists cell.
Qed.



(** * Further properties *)

(** ** Construction *)

Lemma kdict_set_new {V} (d : list (string * V)) (k : string) (v : V) :
  ~ In k (map fst d) ->
  Py.kdict_set (map (fun kv => (PStr (fst kv), snd kv)) d) (PStr k) v =
  map (fun kv => (PStr (fst kv), snd kv)) (d ++ [(k, v)]).
Proof.
  without_collaborators.
  induction d as [| [k' v'] d IH]; intros Hk; simpl; [done |].
  simpl in Hk. destruct (String.eqb_spec k' k) as [-> | Hne]; [tauto |].
  rewrite IH; [done | tauto].
Qed.

Lemma stimuli_copy_loop (sd done todo : list (string * pyval)) :
  sd = done ++ todo -> NoDup (map fst sd) ->
  rfold (fun data_dict k =>
           rbind (Py.getitem (PDict sd) k) (fun v =>
             if Py.hashable k then Ok (Py.kdict_set data_dict k v)
             else Raise TypeError))
        (map (fun kv => PStr (fst kv)) todo)
        (map (fun kv => (PStr (fst kv), snd kv)) done)
  = Ok (map (fun kv => (PStr (fst kv), snd kv)) sd).
Proof.
  without_collaborators.
  revert done. induction todo as [| [k v] todo IH]; intros done Hsd Hnd.
  - rewrite app_nil_r in Hsd. by subst.
  - simpl. unfold Py.dict_get.
    rewrite (assoc_NoDup k v sd Hnd).
    2:{ subst sd. apply in_app_iff. right. by left. }
    simpl. rewrite kdict_set_new.
    + apply IH; [| done]. by rewrite <- app_assoc.
    + subst sd. rewrite map_app in Hnd. apply NoDup_app in Hnd as (_ & Hdis & _).
      intros Hin. apply (Hdis k); [by apply list_elem_of_In |]. simpl. by left.
Qed.

(** X1. [stimuliArrayInitialisation] copies the [Stimuli] object of the
    configuration: the same categories in the same order, each with the
    value the configuration gives it. *)
Theorem stimuliArrayInitialisation_copy json_data sd :
  Py.getitem json_data (PStr "Stimuli") = Ok (PDict sd) ->
  NoDup (map fst sd) ->
  stimuliArrayInitialisation json_data =
  Ok (map (fun kv => (PStr (fst kv), snd kv)) sd).
Proof.
  intros Hget Hnd. unfold stimuliArrayInitialisation. rewrite Hget. simpl.
  by apply (stimuli_copy_loop sd [] sd).
Qed.

Lemma Experiment_init_types_length json_file json_data reading_method sensors aoi e :
  Experiment_init json_file json_data reading_method sensors aoi = Ok e ->
  length (fst (meta_matrix_dict e)) = length (subjects e).
Proof.
  intros Hinit. unfold Experiment_init in Hinit.
  repeat (apply rbind_ok in Hinit as (? & _ & Hinit)).
  injection Hinit as <-. simpl. by rewrite length_map, length_seq.
Qed.

(** X2. The constructor hands every subject it builds the experiment's own
    path, stimuli, columns, configuration file, sensors, reading method and
    area of interest, and sizes the subject-type vector by the number of
    subjects. *)
Theorem Experiment_init_subjects json_file json_data reading_method sensors aoi e :
  Experiment_init json_file json_data reading_method sensors aoi = Ok e ->
  length (fst (meta_matrix_dict e)) = length (subjects e) /\
  Forall (fun s =>
            Subject.path s = path e /\
            Subject.stimuli s = stimuli e /\
            Subject.columns s = columns e /\
            Subject.json_file s = json_file /\
            Subject.sensors s = sensors /\
            Subject.reading_method s = reading_method /\
            Subject.aoi_coords s = aoi_coords e /\
            Subject.aggregate_meta s = initial_aggregate_meta)
         (subjects e).
Proof.
  intros Hinit. split; [by apply Experiment_init_types_length in Hinit |].
  destruct (Experiment_init_ok _ _ _ _ _ _ Hinit) as (_ & _ & _ & _ & _ & Hsubs & _).
  apply subjectArrayInitialisation_ok in Hsubs
    as (subject_data & database & ks & _ & _ & _ & Hdb).
  destruct database as [db |].
  - destruct Hdb as (groups & _ & ->). apply Forall_concat_zip_with.
    intros k names. apply Forall_forall. intros s Hs.
    apply list_elem_of_In, in_map_iff in Hs as (n & <- & _). by repeat split.
  - destruct Hdb as [-> _]. constructor.
Qed.

(** X3. Under a reading method that is neither SQL nor CSV,
    [subjectArrayInitialisation] returns exactly when the configuration
    lists no subject at all, and then returns the empty list. *)
Theorem subjectArrayInitialisation_no_subject path stimuli columns json_file
    sensors aoi_coords json_data reading_method subject_list :
  reading_method <> "SQL" -> reading_method <> "CSV" ->
  subjectArrayInitialisation path stimuli columns json_file sensors aoi_coords
    json_data reading_method = Ok subject_list
  <->
  subject_list = [] /\
  exists subject_data ks,
    Py.getitem json_data (PStr "Subjects") = Ok subject_data /\
    Py.iter subject_data = Ok ks /\
    Forall (fun k => rbind (Py.getitem subject_data k) Py.iter = Ok []) ks.
Proof.
  intros Hsql Hcsv. split.
  - intros Hok. apply subjectArrayInitialisation_ok in Hok
      as (subject_data & database & ks & Hdata & Hdb & Hks & Hrest).
    rewrite select_database_other in Hdb by done. injection Hdb as <-.
    destruct Hrest as [-> Hall]. split; [done |]. by exists subject_data, ks.
  - intros (-> & subject_data & ks & Hdata & Hks & Hall).
    unfold subjectArrayInitialisation. rewrite Hdata. simpl.
    rewrite select_database_other by done. simpl. rewrite Hks. simpl.
    clear Hks. induction Hall as [| k ks Hk Hall IH]; simpl; [done |].
    apply rbind_ok in Hk as (group & Hgroup & Hiter).
    rewrite Hgroup. simpl. rewrite Hiter. simpl. apply IH.
Qed.


(** ** The indicator matrix *)

Lemma metaMatrixInitialisation_only_listed s a :
  preserves only_listed (metaMatrixInitialisation s a).
Proof.
  unfold metaMatrixInitialisation.
  apply preserves_bind; [apply allocate_only_listed |]. intros _.
  apply preserves_bind; [apply preserves_get |]. intros e1.
  apply preserves_for_each. intros i.
  apply (fill_subject_keeps_keys
           (fun d => forall indicator, is_Some (d !! indicator) ->
                                       listed_indicator indicator)).
  intros d meta b Hmeta Hd indicator. rewrite lookup_insert_is_Some'.
  intros [<- | Hold]; by apply Hd.
Qed.

Lemma Experiment_init_matrix json_file json_data reading_method sensors aoi e :
  Experiment_init json_file json_data reading_method sensors aoi = Ok e ->
  matrix_shaped e /\ only_listed e.
Proof.
  intros Hinit. apply Experiment_init_ok in Hinit as (_ & _ & _ & _ & _ & _ & Hempty).
  split.
  - intros indicator b. by rewrite Hempty, lookup_empty.
  - intros indicator [b Hb]. by rewrite Hempty, lookup_empty in Hb.
Qed.

Lemma matrix_cell_in_range e meta i j v :
  matrix_shaped e -> matrix_cell e meta i j = Ok v ->
  has_indicator meta e /\ i < length (subjects e) /\ j < length (stimuli e).
Proof.
  without_collaborators.
  intros Hshape. unfold matrix_cell, has_indicator.
  destruct (snd (meta_matrix_dict e) !! meta) as [b |] eqn:Hmeta; [| done].
  destruct (Hshape meta b Hmeta) as (H0 & H1 & _).
  unfold Np.get, Np.in_range.
  destruct (i <? Np.shape0 b)%nat eqn:Hi; [| done].
  destruct (j <? Np.shape1 b)%nat eqn:Hj; [| done].
  intros _. apply Nat.ltb_lt in Hi, Hj. split; [by eexists |]. lia.
Qed.

(** X4. A run of [metaMatrixInitialisation] on a constructed experiment
    returns only if every subject's analysis stays within the matrix: each
    indicator it reports is one of [Sensor.meta_cols], and the stimulus
    type it is reported under has a position below the number of stimulus
    categories of the configuration. *)
Theorem metaMatrixInitialisation_returns_only_within json_file json_data
    reading_method sensors aoi e0 standardise_flag average_flag e sub_index sub
    stimuli_index meta v :
  Experiment_init json_file json_data reading_method sensors aoi = Ok e0 ->
  metaMatrixInitialisation standardise_flag average_flag e0 = (Ok tt, e) ->
  subjects e !! sub_index = Some sub ->
  expected_cell sub stimuli_index meta v ->
  listed_indicator meta /\ stimuli_index < length (stimuli e0).
Proof.
  intros Hinit Hrun Hsub Hexp.
  destruct (Experiment_init_matrix _ _ _ _ _ _ Hinit) as [Hshape Hlisted].
  pose proof (metaMatrixInitialisation_fills e0 _ _ e sub_index sub Hshape Hrun Hsub
                stimuli_index meta v Hexp) as Hcell.
  pose proof (metaMatrixInitialisation_preserves e0 standardise_flag average_flag e0
                (conj (conj eq_refl eq_refl) Hshape)) as [[_ Hstim] Hshape'].
  pose proof (metaMatrixInitialisation_only_listed standardise_flag average_flag e0
                Hlisted) as Hlisted'.
  rewrite Hrun in Hstim, Hshape', Hlisted'. simpl in Hstim, Hshape', Hlisted'.
  destruct (matrix_cell_in_range e meta sub_index stimuli_index v Hshape' Hcell)
    as (Hhas & _ & Hj).
  split; [by apply Hlisted' |]. by rewrite <- Hstim.
Qed.


Lemma Np_get_new r c i j v : Np.get (Np.new r c) i j = Ok v -> v = PNone.
Proof.
  without_collaborators.
  unfold Np.get, Np.new, Np.in_range. simpl.
  destruct (i <? r)%nat eqn:Hi; [| done]. destruct (j <? c)%nat eqn:Hj; [| done].
  simpl. apply Nat.ltb_lt in Hi, Hj.
  rewrite lookup_replicate_2 by done. simpl.
  rewrite lookup_replicate_2 by done. by intros [= <-].
Qed.

Lemma allocate_frame e :
  subjects (snd (allocate_matrices e)) = subjects e /\
  stimuli (snd (allocate_matrices e)) = stimuli e /\
  fst (meta_matrix_dict (snd (allocate_matrices e))) = fst (meta_matrix_dict e).
Proof.
  assert (Hpres : preserves
            (fun e' => subjects e' = subjects e /\ stimuli e' = stimuli e /\
                       fst (meta_matrix_dict e') = fst (meta_matrix_dict e))
            allocate_matrices); [| by apply Hpres].
  unfold allocate_matrices. apply preserves_for_each. intros sensor_type.
  apply preserves_bind; [apply preserves_lift |]. intros meta_cols.
  apply preserves_for_each. intros meta_col. by apply preserves_modify.
Qed.

Lemma allocate_fresh e indicator :
  listed_indicator indicator ->
  freshly_allocated indicator (snd (allocate_matrices e)).
Proof.
  revert indicator. unfold allocate_matrices.
  pose (Q := fun (sensor_type : string) (e : Experiment) =>
               forall meta_cols indicator,
                 Py.dict_get Sensor_meta_cols sensor_type = Ok meta_cols ->
                 In indicator meta_cols -> freshly_allocated indicator e).
  assert (Hstable : forall indicator meta_col e,
            freshly_allocated indicator e ->
            freshly_allocated indicator
              (set_meta_matrix_dict e
                 (fst (meta_matrix_dict e),
                  <[meta_col := Np.new (length (subjects e)) (length (stimuli e))]>
                    (snd (meta_matrix_dict e))))).
  { intros indicator meta_col e1 Hfresh. unfold freshly_allocated in *. simpl.
    destruct (decide (meta_col = indicator)) as [-> | Hne].
    - by rewrite lookup_insert_eq.
    - by rewrite lookup_insert_ne. }
  assert (Hinner : forall meta_cols e,
    let body := fun meta_col : string =>
      st_modify (fun e =>
         set_meta_matrix_dict e
           (fst (meta_matrix_dict e),
            <[meta_col := Np.new (length (subjects e)) (length (stimuli e))]>
              (snd (meta_matrix_dict e)))) in
    (forall indicator, In indicator meta_cols ->
       freshly_allocated indicator (snd (for_each meta_cols body e))) /\
    (forall indicator, freshly_allocated indicator e ->
       freshly_allocated indicator (snd (for_each meta_cols body e)))).
  { intros meta_cols e1 body.
    destruct (for_each_establishes freshly_allocated meta_cols body) with (s := e1)
      as [Hok Hall].
    - intros x s _. split; [done |]. unfold freshly_allocated. simpl.
      by rewrite lookup_insert_eq.
    - intros x y s Hx. by apply Hstable.
    - split; [done |]. intros indicator Hi.
      apply (preserves_for_each (freshly_allocated indicator)); [| done].
      intros x s Hs. by apply Hstable. }
  match goal with
  | |- context [for_each ?l ?b] =>
      destruct (for_each_establishes Q l b) with (s := e) as [Hok Hall]
  end.
  - intros sensor_type s Hin. unfold st_bind, st_lift.
    destruct (assoc_key_is_Some sensor_type Sensor_meta_cols Hin) as [cols Hcols].
    unfold Py.dict_get at 1 2. rewrite Hcols. simpl.
    destruct (Hinner cols s) as (Hnew & _).
    split.
    + assert (Htot : forall l s0,
                fst (for_each l (fun meta_col : string =>
                  st_modify (fun e =>
                    set_meta_matrix_dict e
                      (fst (meta_matrix_dict e),
                       <[meta_col := Np.new (length (subjects e))
                                       (length (stimuli e))]>
                         (snd (meta_matrix_dict e))))) s0) = Ok tt).
      { induction l as [| x l IH]; intros s0; [done |]. simpl. apply IH. }
      apply Htot.
    + intros meta_cols indicator Hget Hi. unfold Py.dict_get in Hget.
      rewrite Hcols in Hget. injection Hget as <-. by apply Hnew.
  - intros x y s Hx meta_cols indicator Hget Hi. specialize (Hx _ _ Hget Hi).
    unfold st_bind, st_lift.
    destruct (Py.dict_get Sensor_meta_cols y) as [cols |]; simpl; [| done].
    by apply Hinner.
  - intros indicator (sensor_type & meta_cols & Hget & Hi).
    refine (Hall sensor_type _ meta_cols indicator Hget Hi).
    unfold Py.dict_get in Hget.
    destruct (Py.assoc sensor_type Sensor_meta_cols) as [c |] eqn:Hc; [| done].
    apply assoc_In in Hc. apply in_map_iff. by exists (sensor_type, c).
Qed.

(** After the allocation loop, on an experiment whose matrix has no entry
    outside [Sensor.meta_cols], every cell there is holds [None]. *)
Lemma allocate_recorded e0 :
  matrix_shaped e0 -> only_listed e0 ->
  recorded e0 [] (snd (allocate_matrices e0)).
Proof.
  intros Hshape Hlisted. split; [| split].
  - apply allocate_preserves. by split.
  - by intros i sub [].
  - intros meta i j v. unfold matrix_cell.
    destruct (snd (meta_matrix_dict (snd (allocate_matrices e0))) !! meta)
      as [b |] eqn:Hmeta; [| done].
    pose proof (allocate_only_listed e0 Hlisted meta) as Hl.
    unfold has_indicator in Hl. rewrite Hmeta in Hl. specialize (Hl (mk_is_Some _ _ eq_refl)).
    pose proof (allocate_fresh e0 meta Hl) as Hfresh. unfold freshly_allocated in Hfresh.
    rewrite Hmeta in Hfresh. injection Hfresh as ->.
    intros Hget%Np_get_new. by left.
Qed.


Lemma set_cell_types meta i j v e e' :
  set_cell meta i j v e = (Ok tt, e') ->
  fst (meta_matrix_dict e') = fst (meta_matrix_dict e).
Proof.
  without_collaborators.
  unfold set_cell. destruct (snd (meta_matrix_dict e) !! meta) as [b |]; [| done].
  destruct (Np.set b i j v); [| done]. by intros [= <-].
Qed.

Lemma set_cell_raise meta i j v e x e' :
  set_cell meta i j v e = (Raise x, e') -> e' = e.
Proof.
  without_collaborators.
  unfold set_cell. destruct (snd (meta_matrix_dict e) !! meta) as [b |].
  - destruct (Np.set b i j v); [done |]. by intros [= _ <-].
  - by intros [= _ <-].
Qed.

Lemma on_subject_recorded {A} e0 visited i (m : ST Subject.t A) :
  ~ In i visited ->
  hoare (recorded e0 visited) (on_subject i m) (fun _ => recorded e0 visited).
Proof.
  intros Hi e a e' (Hshaped & Htypes & Honly) Hrun.
  pose proof (on_subject_preserves e0 i m e Hshaped) as Hshaped'.
  rewrite Hrun in Hshaped'. simpl in Hshaped'. split; [done |].
  apply on_subject_ok in Hrun as (sub0 & sub1 & Hsub0 & _ & ->). split.
  - intros i' sub' Hin Hsub'. simpl in *.
    rewrite list_lookup_insert_ne in Hsub' by (intros <-; done).
    by apply Htypes.
  - intros meta i' j v Hcell. rewrite matrix_cell_set_subjects in Hcell.
    destruct (Honly meta i' j v Hcell) as [-> | (Hin & sub' & Hsub' & Hexp)];
      [by left | right].
    split; [done |]. exists sub'. split; [| done]. simpl.
    rewrite list_lookup_insert_ne by (intros <-; done). done.
Qed.

(** One cell write of the filling loop keeps what was recorded. *)
Lemma set_cell_recorded e0 visited i sub j meta v :
  expected_cell sub j meta v ->
  preserves (fun e => recorded e0 (visited ++ [i]) e /\ subjects e !! i = Some sub)
    (set_cell meta i j v).
Proof.
  intros Hexp e [(Hshaped & Htypes & Honly) Hsub].
  destruct (set_cell meta i j v e) as [[[] | x] e'] eqn:Hrun; simpl.
  2:{ apply set_cell_raise in Hrun as ->. done. }
  pose proof (set_cell_preserves e0 meta i j v e Hshaped) as Hshaped'.
  rewrite Hrun in Hshaped'. simpl in Hshaped'.
  assert (Hcell : forall meta' i' j',
            subjects e' = subjects e /\
            matrix_cell e' meta' i' j' =
              if decide (meta = meta' /\ i = i' /\ j = j') then Ok v
              else matrix_cell e meta' i' j').
  { intros. apply set_cell_cell; [apply Hshaped | done]. }
  destruct (Hcell meta i j) as [Hsubs _].
  split; [split; [done | split] |].
  - intros i' sub' Hin Hsub'. rewrite (set_cell_types _ _ _ _ _ _ Hrun).
    rewrite Hsubs in Hsub'. by apply Htypes.
  - intros meta' i' j' v' Hget. destruct (Hcell meta' i' j') as [_ Heq].
    rewrite Heq in Hget. rewrite Hsubs. case_decide as Hsame.
    + destruct Hsame as (<- & <- & <-). injection Hget as <-. right.
      split; [apply in_or_app; right; by left |]. by exists sub.
    + by apply Honly.
  - by rewrite Hsubs.
Qed.

(** The filling of one subject, as to the type vector and to what the cells
    hold. *)
Lemma fill_subject_records e0 s a i visited :
  ~ In i visited ->
  hoare (recorded e0 visited) (fill_subject s a i)
        (fun _ => recorded e0 (visited ++ [i])).
Proof.
  intros Hi. unfold fill_subject.
  eapply hoare_bind; [by apply on_subject_recorded |]. intros u1. cbv beta.
  eapply hoare_bind with
    (Q := fun sub e => recorded e0 visited e /\ subjects e !! i = Some sub).
  { intros e sub e' He Hrun.
    split; [by apply (on_subject_recorded e0 visited i st_get Hi e sub e') |].
    apply on_subject_ok in Hrun as (sub0 & sub1 & Hsub0 & [= <- <-] & ->).
    simpl. apply list_lookup_insert_eq. by apply lookup_lt_Some in Hsub0. }
  intros sub.
  eapply hoare_bind with
    (Q := fun _ e => recorded e0 (visited ++ [i]) e /\ subjects e !! i = Some sub).
  { intros e u e' [(Hshaped & Htypes & Honly) Hsub] Hrun.
    pose proof (set_subject_type_preserves e0 i (Subject.subj_type sub) e Hshaped)
      as Hshaped'.
    rewrite Hrun in Hshaped'. simpl in Hshaped'.
    unfold set_subject_type in Hrun.
    destruct (i <? length (fst (meta_matrix_dict e)))%nat eqn:Hlt; [| done].
    injection Hrun as He'. subst e'. split; [| exact Hsub].
    split; [exact Hshaped' |]. split.
    - intros i' sub' Hin Hsub'. simpl in *.
      apply in_app_or in Hin as [Hin | [<- | []]].
      + rewrite list_lookup_insert_ne by (intros <-; done). by apply Htypes.
      + rewrite Hsub in Hsub'. injection Hsub' as <-.
        apply list_lookup_insert_eq. by apply Nat.ltb_lt.
    - intros meta i' j v Hcell.
      destruct (Honly meta i' j v Hcell) as [-> | (Hin & sub' & Hs & Hexp)];
        [by left | right].
      split; [apply in_or_app; by left | by exists sub']. }
  intros u2.
  apply hoare_consequence with
    (P' := fun e => recorded e0 (visited ++ [i]) e /\ subjects e !! i = Some sub)
    (Q' := fun _ e => recorded e0 (visited ++ [i]) e /\ subjects e !! i = Some sub);
    [| done | by intros _ e [He _]].
  apply preserves_hoare.
  apply preserves_for_each_in. intros [j st] Hin.
  apply preserves_bind_lift. intros metas Hmetas.
  apply preserves_for_each_in. intros meta Hmeta.
  apply preserves_bind_lift. intros v Hv.
  apply set_cell_recorded. by exists st, metas.
Qed.

Lemma metaMatrixInitialisation_records e0 s a e :
  matrix_shaped e0 -> only_listed e0 ->
  metaMatrixInitialisation s a e0 = (Ok tt, e) ->
  recorded e0 (seq 0 (length (subjects e))) e.
Proof.
  intros Hshaped Hlisted. unfold metaMatrixInitialisation, st_bind.
  pose proof (allocate_recorded e0 Hshaped Hlisted) as Halloc.
  destruct (allocate_matrices e0) as [[[] | x] e1]; [| done].
  simpl in Halloc. unfold st_get. intros Hloop.
  assert (Hrows : recorded e0 (seq 0 (length (subjects e1))) e).
  { apply (for_each_prefix (recorded e0) (seq 0 (length (subjects e1)))
             (fill_subject s a)) with (s := e1) (a := tt); [| done | done].
    intros visited i0 rest Hseq. apply fill_subject_records.
    pose proof (NoDup_seq 0 (length (subjects e1))) as Hnd.
    rewrite Hseq in Hnd. apply NoDup_app in Hnd as (_ & Hdisj & _).
    intros Hin%list_elem_of_In. apply (Hdisj _ Hin). by left. }
  destruct Halloc as [[[Hlen1 _] _] _].
  pose proof Hrows as [[[Hlen _] _] _]. by rewrite Hlen, <- Hlen1.
Qed.

Lemma metaMatrixInitialisation_types_length s a n :
  preserves (fun e => length (fst (meta_matrix_dict e)) = n)
    (metaMatrixInitialisation s a).
Proof.
  unfold metaMatrixInitialisation. apply preserves_bind.
  { intros e He. by destruct (allocate_frame e) as (_ & _ & ->). }
  intros _. apply preserves_bind; [apply preserves_get |]. intros e1.
  apply preserves_for_each. intros i. unfold fill_subject.
  assert (Hsub : forall A (m : ST Subject.t A),
            preserves (fun e => length (fst (meta_matrix_dict e)) = n)
              (on_subject i m)).
  { intros A m e He. unfold on_subject.
    destruct (subjects e !! i) as [sub |]; [| done]. by destruct (m sub). }
  apply preserves_bind; [apply Hsub |]. intros _.
  apply preserves_bind; [apply Hsub |]. intros sub.
  apply preserves_bind.
  { intros e He. unfold set_subject_type.
    destruct (i <? length (fst (meta_matrix_dict e)))%nat; [| done].
    simpl. by rewrite length_insert. }
  intros _. apply preserves_for_each. intros [stim_index stimuli_type].
  apply preserves_bind; [apply preserves_lift |]. intros metas.
  apply preserves_for_each. intros meta.
  apply preserves_bind; [apply preserves_lift |]. intros v.
  intros e He. unfold set_cell.
  destruct (snd (meta_matrix_dict e) !! meta) as [b |]; [| done].
  by destruct (Np.set b i stim_index v).
Qed.

(** X5. When a run of [metaMatrixInitialisation] on a constructed
    experiment returns, the first component of [meta_matrix_dict] lists, in
    the order of [subjects], what numpy made of each subject's type. *)
Theorem metaMatrixInitialisation_subject_types json_file json_data
    reading_method sensors aoi e0 standardise_flag average_flag e :
  Experiment_init json_file json_data reading_method sensors aoi = Ok e0 ->
  metaMatrixInitialisation standardise_flag average_flag e0 = (Ok tt, e) ->
  fst (meta_matrix_dict e) =
  map (fun sub => np_str (Subject.subj_type sub)) (subjects e).
Proof.
  intros Hinit Hrun.
  destruct (Experiment_init_matrix _ _ _ _ _ _ Hinit) as [Hshape Hlisted].
  destruct (metaMatrixInitialisation_records e0 _ _ e Hshape Hlisted Hrun)
    as ([[Hlen _] _] & Htypes & _).
  pose proof (metaMatrixInitialisation_types_length standardise_flag average_flag
                _ e0 eq_refl) as Htlen.
  rewrite Hrun in Htlen. simpl in Htlen.
  pose proof (Experiment_init_types_length _ _ _ _ _ _ Hinit) as Hinit_len.
  apply list_eq. intros i. rewrite list_lookup_fmap.
  destruct (subjects e !! i) as [sub |] eqn:Hsub; simpl.
  - apply (Htypes i sub); [| done]. apply in_seq.
    apply lookup_lt_Some in Hsub. lia.
  - apply lookup_ge_None. apply lookup_ge_None in Hsub. lia.
Qed.

(** X6. When a run of [metaMatrixInitialisation] on a constructed
    experiment returns, the matrix holds nothing of its own making: a cell
    is [None], as allocated, or the value the subject of its row has for
    the indicator and the stimulus type of its column. *)
Theorem metaMatrixInitialisation_stores_nothing_else json_file json_data
    reading_method sensors aoi e0 standardise_flag average_flag e meta sub_index
    stimuli_index v :
  Experiment_init json_file json_data reading_method sensors aoi = Ok e0 ->
  metaMatrixInitialisation standardise_flag average_flag e0 = (Ok tt, e) ->
  matrix_cell e meta sub_index stimuli_index = Ok v ->
  v = PNone \/
  exists sub, subjects e !! sub_index = Some sub /\
              expected_cell sub stimuli_index meta v.
Proof.
  intros Hinit Hrun Hcell.
  destruct (Experiment_init_matrix _ _ _ _ _ _ Hinit) as [Hshape Hlisted].
  destruct (metaMatrixInitialisation_records e0 _ _ e Hshape Hlisted Hrun)
    as (_ & _ & Honly).
  destruct (Honly meta sub_index stimuli_index v Hcell) as [-> | [_ Hsub]];
    [by left | by right].
Qed.


(** ** The dataset after [metaMatrixInitialisation] *)

Lemma metaMatrixInitialisation_has_listed s a e indicator :
  listed_indicator indicator ->
  has_indicator indicator (snd (metaMatrixInitialisation s a e)).
Proof.
  intros Hlisted. unfold metaMatrixInitialisation, st_bind.
  destruct (allocate_all_listed e) as [Hok Hall].
  destruct (allocate_matrices e) as [r e1]. simpl in Hok, Hall. subst r.
  unfold st_get.
  apply (preserves_for_each (fun e => has_indicator indicator e)); [| by apply Hall].
  intros i.
  apply (fill_subject_keeps_keys (fun d => is_Some (d !! indicator))).
  intros d meta b _ Hd. rewrite lookup_insert_is_Some'. by right.
Qed.

Lemma Np_get_within a i j :
  Np.well_formed a -> i < Np.shape0 a -> j < Np.shape1 a ->
  exists v, Np.get a i j = Ok v.
Proof.
  without_collaborators.
  intros [Hrows Hcols] Hi Hj. unfold Np.get, Np.in_range.
  apply Nat.ltb_lt in Hi as Hi', Hj as Hj'. rewrite Hi', Hj'. simpl.
  destruct (Np.cells a !! i) as [row |] eqn:Hrow.
  - simpl. apply (Forall_lookup_1 _ _ _ _ Hcols) in Hrow as Hlen. simpl in Hlen.
    destruct (row !! j) as [v |] eqn:Hv; [by exists v |].
    apply lookup_ge_None in Hv. lia.
  - apply lookup_ge_None in Hrow. lia.
Qed.

Lemma visited_cells_spec e i sub j st :
  In (i, sub, j, st) (visited_cells e) <->
  subjects e !! i = Some sub /\ map fst (Subject.aggregate_meta sub) !! j = Some st.
Proof.
  without_collaborators.
  unfold visited_cells. rewrite in_flat_map. split.
  - intros ([i' sub'] & Hsub & Hcell). apply in_map_iff in Hcell as ([j' st'] & Heq & Hst).
    injection Heq as -> -> -> ->.
    apply enumerate_from_lookup in Hsub as [_ Hsub], Hst as [_ Hst].
    by rewrite Nat.sub_0_r in Hsub, Hst.
  - intros [Hsub Hst]. exists (i, sub). split.
    + apply enumerate_from_lookup. split; [lia |]. by rewrite Nat.sub_0_r.
    + apply in_map_iff. exists (j, st). split; [done |].
      apply enumerate_from_lookup. split; [lia |]. by rewrite Nat.sub_0_r.
Qed.

(** X7. Once a run of [metaMatrixInitialisation] on a constructed
    experiment has returned, the assembly of the dataset of an indicator of
    [Sensor.meta_cols] never raises, whatever the factor lists and the
    configuration read by [analyse], as long as no subject has more stimulus
    types than the configuration has stimulus categories. *)
Theorem assemble_after_metaMatrixInitialisation json_file json_data reading_method
    sensors aoi e0 standardise_flag average_flag e json_data' meta
    between_factor_list within_factor_list w :
  Experiment_init json_file json_data reading_method sensors aoi = Ok e0 ->
  metaMatrixInitialisation standardise_flag average_flag e0 = (Ok tt, e) ->
  listed_indicator meta ->
  Forall (fun sub => length (Subject.aggregate_meta sub) <= length (stimuli e))
         (subjects e) ->
  fst (assemble e json_data' meta between_factor_list within_factor_list w) = Ok tt.
Proof.
  intros Hinit Hrun Hlisted Hbound.
  destruct (Experiment_init_matrix _ _ _ _ _ _ Hinit) as [Hshape _].
  pose proof (metaMatrixInitialisation_preserves e0 standardise_flag average_flag e0
                (conj (conj eq_refl eq_refl) Hshape)) as [_ Hshape'].
  pose proof (metaMatrixInitialisation_has_listed standardise_flag average_flag e0
                meta Hlisted) as [b Hb].
  rewrite Hrun in Hshape', Hb. simpl in Hshape', Hb.
  rewrite assemble_spec; [done |].
  intros i sub j st [Hsub Hst]%visited_cells_spec.
  unfold matrix_cell. rewrite Hb.
  destruct (Hshape' meta b Hb) as (H0 & H1 & Hwf).
  apply Np_get_within; [done | |].
  - rewrite H0. by apply lookup_lt_Some in Hsub.
  - rewrite H1. apply lookup_lt_Some in Hst. rewrite length_map in Hst.
    apply (Forall_lookup_1 _ _ _ _ Hbound) in Hsub. simpl in Hsub. lia.
Qed.

Lemma flat_map_enumerate_from {A B} (F : nat * A -> list B) (G : A -> list B)
    (l : list A) (n : nat) :
  (forall i x, In (i, x) (enumerate_from n l) -> F (i, x) = G x) ->
  flat_map F (enumerate_from n l) = flat_map G l.
Proof.
  without_collaborators.
  revert n. induction l as [| x l IH]; intros n HF; simpl; [done |].
  rewrite HF by (by left). f_equal. apply IH. intros i y Hin. apply HF. by right.
Qed.

(** X8. Under the default factor lists, the dataset [analyse] assembles
    after a run of [metaMatrixInitialisation] that returned holds, subject
    after subject and stimulus type after stimulus type, one row per value
    the subject has for the indicator: the value, the subject's type, the
    stimulus type and the subject's name; provided every subject has the
    indicator under each of its stimulus types, with values [np.isnan]
    accepts. *)
Theorem analyse_dataset_of_subjects json_file json_data reading_method sensors aoi
    e0 standardise_flag average_flag e json_data' meta w :
  Experiment_init json_file json_data reading_method sensors aoi = Ok e0 ->
  metaMatrixInitialisation standardise_flag average_flag e0 = (Ok tt, e) ->
  (forall sub stimuli_type,
     In sub (subjects e) ->
     In stimuli_type (map fst (Subject.aggregate_meta sub)) ->
     exists values,
       subject_values sub stimuli_type meta = Ok values /\
       Forall (fun value => is_ok (np_isnan value) = true) values) ->
  fst (assemble e json_data' meta ["Subject_type"] ["Stimuli_type"] w) = Ok tt /\
  df_rows (data (snd (assemble e json_data' meta ["Subject_type"] ["Stimuli_type"] w)))
  = rows_of_subjects e meta.
Proof.
  intros Hinit Hrun Hvalues.
  destruct (Experiment_init_matrix _ _ _ _ _ _ Hinit) as [Hshape _].
  assert (Hcell : forall i sub j st,
            In (i, sub, j, st) (visited_cells e) ->
            exists values,
              subject_values sub st meta = Ok values /\
              Forall (fun value => is_ok (np_isnan value) = true) values /\
              rbind (matrix_cell e meta i j) Py.iter = Ok values).
  { intros i sub j st [Hsub Hst]%visited_cells_spec.
    destruct (Hvalues sub st) as (values & Hv & Hnum).
    { apply list_elem_of_In. by apply list_elem_of_lookup_2 in Hsub. }
    { apply list_elem_of_In. by apply list_elem_of_lookup_2 in Hst. }
    exists values. do 2 (split; [done |]).
    unfold subject_values in Hv. apply rbind_ok in Hv as (metas & Hmetas & Hv).
    apply rbind_ok in Hv as (value_array & Harray & Hiter).
    rewrite (metaMatrixInitialisation_fills e0 _ _ e i sub Hshape Hrun Hsub
               j meta value_array); [done |].
    exists st, metas. split; [| done].
    apply enumerate_from_lookup. split; [lia |]. by rewrite Nat.sub_0_r. }
  rewrite assemble_spec.
  2:{ intros i sub j st Hin. destruct (Hcell i sub j st Hin) as (values & _ & _ & Hiter).
      apply rbind_ok in Hiter as (cell & Hc & _). by exists cell. }
  split; [done |]. simpl. unfold rows_of_subjects, visited_cells.
  rewrite flat_map_flat_map.
  apply flat_map_enumerate_from. intros i sub Hsub. rewrite flat_map_map.
  apply flat_map_enumerate_from. intros j st Hst.
  destruct (Hcell i sub j st) as (values & Hv & Hnum & Hiter).
  { unfold visited_cells. apply in_flat_map. exists (i, sub). split; [done |].
    apply in_map_iff. by exists (j, st). }
  rewrite Hv. unfold rows_of_cell, cell_rows. rewrite Hiter.
  rewrite stored_rows_all.
  - apply map_ext. intros value. reflexivity.
  - apply forallb_forall. intros value Hin. rewrite stored_default.
    apply list_elem_of_In in Hin. apply (proj1 (Forall_forall _ _) Hnum) in Hin.
    by destruct (np_isnan value).
Qed.

Lemma store_cell_no_matrix e json_data meta between_factor_list within_factor_list
    i sub j st w :
  snd (meta_matrix_dict e) !! meta = None ->
  store_cell e json_data meta between_factor_list within_factor_list i sub j st w =
  (Raise KeyError, w).
Proof. intros Hnone. unfold store_cell, st_bind, st_lift, matrix_cell. by rewrite Hnone. Qed.

Lemma subject_loop_no_matrix e json_data meta between_factor_list within_factor_list
    l n w :
  snd (meta_matrix_dict e) !! meta = None ->
  for_each (enumerate_from n l) (fun '(sub_index, sub) =>
    for_each (enumerate (map fst (Subject.aggregate_meta sub)))
      (fun '(stimuli_index, stimuli_type) =>
         store_cell e json_data meta between_factor_list within_factor_list
           sub_index sub stimuli_index stimuli_type)) w =
  (if forallb no_stimulus_type l then Ok tt else Raise KeyError, w).
Proof.
  intros Hnone. revert n. induction l as [| sub l IH]; intros n; [done |].
  simpl. unfold st_bind at 1, no_stimulus_type at 1.
  destruct (Subject.aggregate_meta sub) as [| [st metas] rest]; simpl.
  - apply IH.
  - unfold st_bind at 1. by rewrite store_cell_no_matrix.
Qed.

(** X9. Without the array of an indicator, which only
    [metaMatrixInitialisation] creates, the assembly of the indicator's
    dataset raises [KeyError] as soon as one subject has a stimulus type,
    and returns only when no subject has any; either way the dataset is
    left empty. *)
Theorem assemble_without_matrix e json_data meta between_factor_list
    within_factor_list w :
  snd (meta_matrix_dict e) !! meta = None ->
  fst (assemble e json_data meta between_factor_list within_factor_list w) =
    (if forallb no_stimulus_type (subjects e) then Ok tt else Raise KeyError) /\
  df_rows (data (snd (assemble e json_data meta between_factor_list
                        within_factor_list w))) = [].
Proof.
  intros Hnone. unfold assemble, st_bind, set_data, st_modify.
  cbv beta iota. change (enumerate (subjects e)) with (enumerate_from 0 (subjects e)).
  rewrite subject_loop_no_matrix by done. done.
Qed.


(** ** The indicators [analyse] hands to the statistics library *)

Lemma str_in_In x l : str_in x l = true <-> In x l.
Proof.
  without_collaborators.
  unfold str_in. rewrite existsb_exists. split.
  - intros (y & Hy & Heq). apply String.eqb_eq in Heq. by subst.
  - intros Hin. exists x. split; [done |]. apply String.eqb_refl.
Qed.

Lemma str_in_not_In x l : str_in x l = false <-> ~ In x l.
Proof.
  without_collaborators.
  rewrite <- str_in_In. by destruct (str_in x l).
Qed.

(** The steps of [analyse], one indicator after the other: what every
    print, every assembly and every test of an indicator analysed keeps,
    the whole call keeps. *)
Lemma analyse_preserves (I : world -> Prop) e json_data parameter_list
    between_factor_list within_factor_list statistical_test :
  (forall m, preserves I (print m)) ->
  (forall meta, preserves I (assemble e json_data meta between_factor_list
                               within_factor_list)) ->
  (forall meta, analysed e json_data parameter_list meta ->
                preserves I (run_test meta between_factor_list within_factor_list
                               statistical_test)) ->
  preserves I (analyse e json_data parameter_list between_factor_list
                 within_factor_list statistical_test).
Proof.
  intros Hprint Hassemble Htest. unfold analyse.
  apply preserves_bind_lift. intros eye_columns Heye.
  apply preserves_bind_lift. intros has_aoi Haoi.
  apply preserves_for_each_in. intros sen Hsen.
  apply preserves_bind_lift. intros metas Hmetas.
  apply preserves_for_each_in. intros meta Hmeta.
  destruct (str_in meta _) eqn:Hskip; [apply preserves_ret |].
  destruct (negb (str_in "all" parameter_list) && negb (str_in meta parameter_list))
    eqn:Hasked; [apply Hprint |].
  apply preserves_bind; [apply Hprint |]. intros _.
  apply preserves_bind; [apply Hprint |]. intros _.
  apply preserves_bind; [apply Hassemble |]. intros _.
  apply Htest. apply str_in_not_In in Hskip.
  split; [by exists sen, metas |]. split.
  { apply andb_false_iff in Hasked as [H | H]; apply negb_false_iff, str_in_In in H;
      [by left | by right]. }
  split; [intros ->; apply Hskip; by left |].
  split; [intros ->; apply Hskip; right; by left |].
  rewrite Heye. simpl. rewrite Haoi. intros [= ->].
  repeat split; intros ->; apply Hskip; simpl; tauto.
Qed.

Lemma run_test_calls meta between_factor_list within_factor_list statistical_test w :
  exists calls,
    pg_calls (snd (run_test meta between_factor_list within_factor_list
                     statistical_test w)) = pg_calls w ++ calls /\
    Forall (fun c => pg_dv c = meta) calls.
Proof.
  unfold run_test.
  destruct (String.eqb statistical_test "Mixed_anova").
  { unfold st_bind, print, st_modify, st_lift, call_pg. simpl.
    destruct (first_of within_factor_list) as [w0 |];
      [| exists []; by rewrite app_nil_r].
    destruct (first_of between_factor_list) as [b0 |];
      [| exists []; by rewrite app_nil_r].
    simpl. destruct (pg _) as [[] |]; simpl.
    - eexists [_; _]. rewrite <- app_assoc. split; [done |]. by repeat constructor.
    - eexists [_]. split; [done |]. by repeat constructor. }
  destruct (String.eqb statistical_test "RM_anova").
  { unfold st_bind, print, st_modify, call_pg. simpl.
    eexists [_]. split; [done |]. by repeat constructor. }
  destruct (String.eqb statistical_test "ttest").
  { unfold st_bind, print, st_modify, call_pg. simpl.
    eexists [_]. split; [done |]. by repeat constructor. }
  destruct (String.eqb statistical_test "anova").
  { unfold st_bind, print, st_modify, call_pg. simpl.
    eexists [_]. split; [done |]. by repeat constructor. }
  exists []. by rewrite app_nil_r.
Qed.

(** X10. Every call [analyse] makes into the statistics library is for an
    indicator that [Sensor.meta_cols] lists for one of the experiment's
    sensors and that [parameter_list] asks for, by name or through the entry
    all; never for the pupil size or its downsampled form, and never for the
    revisits or the first and second pass when the configuration has no
    GazeAOI column. The calls made before are kept. *)
Theorem analyse_calls_selected e json_data parameter_list between_factor_list
    within_factor_list statistical_test w :
  exists calls,
    pg_calls (snd (analyse e json_data parameter_list between_factor_list
                     within_factor_list statistical_test w)) = pg_calls w ++ calls /\
    Forall (fun c => analysed e json_data parameter_list (pg_dv c)) calls.
Proof.
  apply (analyse_preserves
           (fun w' => exists calls,
              pg_calls w' = pg_calls w ++ calls /\
              Forall (fun c => analysed e json_data parameter_list (pg_dv c)) calls)).
  - intros m w' Hw'. done.
  - intros meta w' Hw'.
    by rewrite (proj2 (assemble_columns e json_data meta between_factor_list
                         within_factor_list w')).
  - intros meta Hmeta w' (calls & Hcalls & Hall).
    destruct (run_test_calls meta between_factor_list within_factor_list
                statistical_test w') as (calls' & -> & Hall').
    exists (calls ++ calls'). rewrite Hcalls, <- app_assoc. split; [done |].
    apply Forall_app. split; [done |].
    eapply Forall_impl; [exact Hall' |]. by intros c ->.
  - exists []. by rewrite app_nil_r.
Qed.

(** X11. A [statistical_test] that is none of the four names makes
    [analyse] call nothing in the statistics library: the datasets are
    assembled and dropped. *)
Theorem analyse_unknown_test e json_data parameter_list between_factor_list
    within_factor_list statistical_test w :
  statistical_test <> "Mixed_anova" -> statistical_test <> "RM_anova" ->
  statistical_test <> "ttest" -> statistical_test <> "anova" ->
  pg_calls (snd (analyse e json_data parameter_list between_factor_list
                   within_factor_list statistical_test w)) = pg_calls w.
Proof.
  intros H1 H2 H3 H4.
  apply (analyse_preserves (fun w' => pg_calls w' = pg_calls w)); [| | | done].
  - by intros m w' Hw'.
  - intros meta w' Hw'.
    by rewrite (proj2 (assemble_columns e json_data meta between_factor_list
                         within_factor_list w')).
  - intros meta _ w' Hw'. unfold run_test.
    apply String.eqb_neq in H1, H2, H3, H4. by rewrite H1, H2, H3, H4.
Qed.

Lemma for_each_returned {S A} (l : list A) (body : A -> ST S unit) (s : S) (x : A) :
  fst (for_each l body s) = Ok tt -> In x l ->
  exists s', fst (body x s') = Ok tt.
Proof.
  without_collaborators.
  revert s. induction l as [| y l IH]; intros s Hok Hin; [done |].
  simpl in Hok. unfold st_bind in Hok.
  destruct (body y s) as [[[] | ex] s1] eqn:Hbody; [| done].
  destruct Hin as [<- | Hin]; [| by apply (IH s1)].
  exists s. by rewrite Hbody.
Qed.

Lemma st_bind_returned {S A B} (m : ST S A) (k : A -> ST S B) (s : S) (b : B) :
  fst (st_bind m k s) = Ok b ->
  exists a s', m s = (Ok a, s') /\ fst (k a s') = Ok b.
Proof.
  without_collaborators.
  unfold st_bind. destruct (m s) as [[a | ex] s']; [| done]. by exists a, s'.
Qed.

(** X12. [Mixed_anova] reads the first within-group and the first
    between-group factor: with one of the two lists empty, [analyse] makes
    no call into the statistics library, and it does not return if there is
    an indicator to analyse. *)
Theorem analyse_mixed_anova_without_factor e json_data parameter_list
    between_factor_list within_factor_list w :
  between_factor_list = [] \/ within_factor_list = [] ->
  pg_calls (snd (analyse e json_data parameter_list between_factor_list
                   within_factor_list "Mixed_anova" w)) = pg_calls w /\
  (fst (analyse e json_data parameter_list between_factor_list
          within_factor_list "Mixed_anova" w) = Ok tt ->
   forall meta, ~ analysed e json_data parameter_list meta).
Proof.
  intros Hempty.
  assert (Htest : forall meta w',
            run_test meta between_factor_list within_factor_list "Mixed_anova" w' =
            (Raise IndexError,
             {| data := data w'; stdout := stdout w' ++ [TestBanner meta "Mixed anova"];
                pg_calls := pg_calls w' |})).
  { intros meta w'. unfold run_test, st_bind, print, st_modify, st_lift.
    destruct Hempty as [-> | ->]; [| done].
    by destruct within_factor_list. }
  split.
  - apply (analyse_preserves (fun w' => pg_calls w' = pg_calls w)); [| | | done].
    + by intros m w' Hw'.
    + intros meta w' Hw'.
      by rewrite (proj2 (assemble_columns e json_data meta between_factor_list
                           within_factor_list w')).
    + intros meta _ w' Hw'. by rewrite Htest.
  - intros Hok meta ((sen & metas & Hsen & Hmetas & Hmeta) & Hasked & Hp1 & Hp2 & Haoi).
    unfold analyse in Hok.
    apply st_bind_returned in Hok as (eye_columns & w1 & Heye & Hok).
    apply st_bind_returned in Hok as (has_aoi & w2 & Hhas & Hok).
    assert (Heye' : Py.getpath json_data ["Columns_of_interest"; "EyeTracker"]
                    = Ok eye_columns) by (unfold st_lift in Heye; congruence).
    assert (Hhas' : Py.contains_str eye_columns "GazeAOI" = Ok has_aoi)
      by (unfold st_lift in Hhas; congruence).
    clear Heye Hhas.
    destruct (for_each_returned _ _ _ sen Hok Hsen) as [w3 Hsensor].
    apply st_bind_returned in Hsensor as (metas' & w4 & Hget & Hloop).
    unfold st_lift in Hget. rewrite Hmetas in Hget. injection Hget as <- _.
    clear Hok. destruct (for_each_returned _ _ _ meta Hloop Hmeta) as [w5 Hok].
    cbv beta in Hok.
    assert (Hskip : str_in meta
                      (["pupil_size"; "pupil_size_downsample"] ++
                       (if has_aoi then []
                        else ["no_revisits"; "first_pass"; "second_pass"])) = false).
    { apply str_in_not_In. intros Hin.
      apply in_app_or in Hin as [[<- | [<- | []]] | Hin]; [done | done |].
      destruct has_aoi; [done |].
      destruct Haoi as (H1 & H2 & H3); [by rewrite Heye'; simpl; rewrite Hhas' |].
      simpl in Hin. intuition congruence. }
    rewrite Hskip in Hok.
    assert (Hpl : negb (str_in "all" parameter_list)
                  && negb (str_in meta parameter_list) = false).
    { apply andb_false_iff.
      destruct Hasked as [H | H]; apply str_in_In in H; rewrite H; [by left | by right]. }
    rewrite Hpl in Hok.
    apply st_bind_returned in Hok as (u1 & w6 & _ & Hok).
    apply st_bind_returned in Hok as (u2 & w7 & _ & Hok).
    apply st_bind_returned in Hok as (u3 & w8 & _ & Hok).
    by rewrite Htest in Hok.
Qed.


(** ** [getMetaData], continued *)

Lemma subjects_index_absent l sub :
  Forall (fun s => Subject_eqb s sub = false) l ->
  subjects_index l sub = Raise ValueError.
Proof.
  induction 1 as [| s l Hs _ IH]; simpl; [done |]. by rewrite Hs, IH.
Qed.

Lemma subjects_index_first before s after sub :
  Forall (fun s' => Subject_eqb s' sub = false) before ->
  Subject_eqb s sub = true ->
  subjects_index (before ++ s :: after) sub = Ok (length before).
Proof.
  intros Hbefore Hs. induction Hbefore as [| s' l Hs' _ IH]; simpl.
  - by rewrite Hs.
  - by rewrite Hs', IH.
Qed.

Lemma list_index_first stim pre post :
  ~ In (PStr stim) pre ->
  Py.list_index stim (pre ++ PStr stim :: post) = Some (length pre).
Proof.
  without_collaborators.
  induction pre as [| v pre IH]; intros Hpre; simpl.
  - by rewrite String.eqb_refl.
  - rewrite IH by (intros Hin; apply Hpre; by right).
    destruct v as [| | | | s | | |]; try done.
    destruct (String.eqb_spec s stim) as [-> | Hne]; [| done].
    exfalso. apply Hpre. by left.
Qed.

Lemma nth_subject_middle e before s after :
  subjects e = before ++ s :: after -> nth_subject e (length before) = Ok s.
Proof.
  without_collaborators.
  intros Hsubs. unfold nth_subject. rewrite Hsubs.
  by rewrite lookup_app_r, Nat.sub_diag by lia.
Qed.

(** X13. [getMetaData] raises [ValueError] for a subject that equals none
    of the experiment's subjects, whether a stimulus is named or not. *)
Theorem getMetaData_unknown_subject e sub stim sensor :
  Forall (fun s => Subject_eqb s sub = false) (subjects e) ->
  getMetaData e sub stim sensor = Raise ValueError.
Proof.
  intros Hnone. unfold getMetaData.
  rewrite (subjects_index_absent _ _ Hnone). by destruct stim.
Qed.

(** X14. Without a stimulus, [getMetaData] returns the [aggregate_meta] of
    the first of the experiment's subjects that equals [sub]. *)
Theorem getMetaData_aggregate_meta e sub sensor before s after :
  subjects e = before ++ s :: after ->
  Forall (fun s' => Subject_eqb s' sub = false) before ->
  Subject_eqb s sub = true ->
  getMetaData e sub None sensor =
  Ok (aggregate_meta_value (Subject.aggregate_meta s)).
Proof.
  intros Hsubs Hbefore Hs. unfold getMetaData. rewrite Hsubs at 1.
  rewrite (subjects_index_first _ _ _ _ Hbefore Hs). simpl.
  by rewrite (nth_subject_middle e before s after Hsubs).
Qed.

(** X15. For a stimulus listed under the first stimulus category,
    [getMetaData] returns the metadata the first subject that equals [sub]
    holds for that category and the first position of the stimulus in
    it. *)
Theorem getMetaData_first_category e sub stim sensor before s after cat pre post rest :
  subjects e = before ++ s :: after ->
  Forall (fun s' => Subject_eqb s' sub = false) before ->
  Subject_eqb s sub = true ->
  stimuli e = (PStr cat, PList (pre ++ PStr stim :: post)) :: rest ->
  ~ In (PStr stim) pre ->
  getMetaData e sub (Some stim) sensor =
  stimulus_metadata s (PStr cat) (Z.of_nat (length pre)) sensor.
Proof.
  intros Hsubs Hbefore Hs Hstim Hpre. unfold getMetaData. rewrite Hsubs at 1.
  rewrite (subjects_index_first _ _ _ _ Hbefore Hs). simpl.
  rewrite Hstim. cbn [map fst]. rewrite search_category_first.
  unfold Py.kdict_get. simpl. rewrite String.eqb_refl. simpl.
  rewrite (list_index_first stim pre post Hpre). simpl.
  by rewrite (nth_subject_middle e before s after Hsubs).
Qed.

(** ** The callbacks of [Visualize] *)

Lemma selection_loop (subjects : list Subject.t) (vars : list Z) (n : nat)
    (acc : list Subject.t) :
  length vars + n <= length subjects ->
  rfold (fun sub_list '(ind, i) =>
           if (i =? 1)%Z
           then match subjects !! ind with
                | Some s => Ok (sub_list ++ [s])
                | None => Raise IndexError
                end
           else Ok sub_list)
        (enumerate_from n vars) acc
  = Ok (acc ++ checked_subjects vars (drop n subjects)).
Proof.
  without_collaborators.
  revert n acc. induction vars as [| i vars IH]; intros n acc Hlen; simpl in *.
  - unfold checked_subjects. simpl. by rewrite app_nil_r.
  - destruct (subjects !! n) as [s |] eqn:Hs.
    2:{ apply lookup_ge_None in Hs. lia. }
    rewrite (drop_S _ _ _ Hs). unfold checked_subjects. simpl.
    destruct (i =? 1)%Z; simpl.
    + rewrite IH by lia. by rewrite <- app_assoc.
    + by rewrite IH by lia.
Qed.

Lemma checked_subjects_fresh (n k : nat) (subjects : list Subject.t) :
  checked_subjects (map (fun _ => 0%Z) (seq k n)) subjects = [].
Proof.
  without_collaborators.
  revert k subjects. induction n as [| n IH]; intros k subjects; [done |].
  destruct subjects as [| s subjects]; [done |]. apply (IH (S k)).
Qed.

(** X16. The button Visualize, pressed in group mode, runs the group
    visualisation on the first subject whose box is checked, handing it all
    the checked subjects in the order of the list; with no box checked it
    raises [IndexError]. *)
Theorem button_click_group self vars :
  Visualize.chk_bt_var self = Some vars ->
  length vars = length (Visualize.subjects self) ->
  button_click self None =
  match checked_subjects vars (Visualize.subjects self) with
  | first :: rest => Ok (GroupVisualize first (first :: rest))
  | [] => Raise IndexError
  end.
Proof.
  without_collaborators.
  intros Hvars Hlen. unfold button_click. rewrite Hvars.
  unfold enumerate. rewrite selection_loop by lia. rewrite drop_0. simpl.
  by destruct (checked_subjects vars (Visualize.subjects self)).
Qed.

(** X17. Choosing the group mode unchecks every box: the button Visualize
    pressed right after [subFrameSetup] has run in group mode raises
    [IndexError], whatever the subjects. *)
Theorem button_click_after_subFrameSetup self :
  Visualize.v self = 1%Z ->
  button_click (subFrameSetup self) None = Raise IndexError.
Proof.
  without_collaborators.
  intros Hv. unfold subFrameSetup. rewrite Hv. simpl.
  unfold button_click. simpl. unfold enumerate.
  rewrite selection_loop by (rewrite length_map, length_seq; lia).
  rewrite checked_subjects_fresh. done.
Qed.

(** ** The extra factors of [analyse] *)

(** X18. The lookup of an extra within-group factor indexes the stimulus
    category by position and then by what it found there: it raises, and
    the factor is reported as not defined, whenever the category is an
    object keyed by stimulus name or a list of stimulus names. *)
Theorem within_value_never_defined e json_data stimuli_index stimuli_type param names :
  Py.kdict_get (stimuli e) (PStr stimuli_type) = Ok names ->
  Py.getpath json_data ["Stimuli"; stimuli_type] = Ok names ->
  names_of_stimuli names ->
  raises (within_value e json_data stimuli_index stimuli_type param).
Proof.
  without_collaborators.
  intros Hnames Hpath Hshape. unfold within_value. rewrite Hnames. simpl.
  simpl in Hpath. apply rbind_ok in Hpath as (d1 & Hd1 & Hpath).
  apply rbind_ok in Hpath as (d2 & Hd2 & [= ->]).
  destruct (Py.getitem names (PInt (Z.of_nat stimuli_index)))
    as [stimulus_name | x] eqn:Hname; simpl; [| by eexists].
  rewrite Hd1. simpl. rewrite Hd2. simpl.
  assert (Hraise : raises (Py.getitem names stimulus_name)).
  { destruct names as [| | | | s | l | l | d]; simpl in Hname; try done.
    - unfold Py.seq_get in Hname.
      destruct (_ && _)%bool; [| done].
      destruct (Py.chars s !! _) as [c |] eqn:Hc; [| done].
      injection Hname as <-.
      assert (Hchar : exists t, c = PStr t).
      { apply list_elem_of_lookup_2, list_elem_of_In in Hc. revert Hc. clear.
        induction s as [| a s IH]; simpl; [done |].
        intros [<- | Hin]; [by eexists | by apply IH]. }
      destruct Hchar as [t ->]. by eexists.
    - unfold Py.seq_get in Hname.
      destruct (_ && _)%bool; [| done].
      destruct (l !! _) as [c |] eqn:Hc; [| done]. injection Hname as <-.
      apply (Forall_lookup_1 _ _ _ _ Hshape) in Hc as [t ->]. by eexists.
    - unfold Py.seq_get in Hname.
      destruct (_ && _)%bool; [| done].
      destruct (l !! _) as [c |] eqn:Hc; [| done]. injection Hname as <-.
      apply (Forall_lookup_1 _ _ _ _ Hshape) in Hc as [t ->]. by eexists. }
  destruct Hraise as [x ->]. by eexists.
Qed.

(** X19. An extra between-group factor is found for a subject only when
    the configuration gives the subject's group as an object keyed by
    subject name: the value is then what the subject's entry has for the
    factor. With the group given as a list of names the lookup raises. *)
Theorem between_value_defined json_data sub param t n v :
  Subject.subj_type sub = PStr t ->
  Subject.name sub = PStr n ->
  between_value json_data sub param = Ok v ->
  exists group attributes,
    Py.getpath json_data ["Subjects"; t] = Ok (PDict group) /\
    Py.dict_get group n = Ok attributes /\
    Py.getitem attributes (PStr param) = Ok v.
Proof.
  without_collaborators.
  intros Htype Hname. unfold between_value. rewrite Htype, Hname.
  intros Hv. apply rbind_ok in Hv as (d1 & Hd1 & Hv).
  apply rbind_ok in Hv as (d2 & Hd2 & Hv).
  apply rbind_ok in Hv as (d3 & Hd3 & Hv).
  destruct d2 as [| | | | s | l | l | group]; try done.
  exists group, d3. simpl. by rewrite Hd1; simpl; rewrite Hd2.
Qed.

(** X20. A value that is not a number is reported and kept: when its row
    has as many entries as the dataframe has columns, the row is appended
    to the dataset after the message about the null value is printed. *)
Theorem store_value_nan e json_data between_factor_list within_factor_list sub
    stimuli_index stimuli_type value w :
  np_isnan value = Ok true ->
  length (row_of e json_data between_factor_list within_factor_list sub
            stimuli_index stimuli_type value) = length (df_columns (data w)) ->
  store_value e json_data between_factor_list within_factor_list sub
    stimuli_index stimuli_type value w =
  (Ok tt,
   extend w
     [row_of e json_data between_factor_list within_factor_list sub
        stimuli_index stimuli_type value]
     (factor_messages e json_data between_factor_list within_factor_list sub
        stimuli_index stimuli_type
      ++ [NullValue (row_of e json_data between_factor_list within_factor_list sub
                       stimuli_index stimuli_type value)])).
Proof.
  intros Hnan Hlen. rewrite store_value_spec.
  unfold stored, value_messages. rewrite Hnan, Hlen, Nat.eqb_refl. done.
Qed.


(** ** The area of interest, continued *)

(** X21. Whenever [aoi] is a string, asking to draw included, the
    constructor reads the display size from the configuration first: it
    raises when the width or the height is missing there. *)
Theorem Experiment_init_needs_display json_file json_data reading_method sensors s :
  raises (Py.getpath json_data ["Analysis_Params"; "EyeTracker"; "Display_width"]) \/
  raises (Py.getpath json_data ["Analysis_Params"; "EyeTracker"; "Display_height"]) ->
  raises (Experiment_init json_file json_data reading_method sensors (PStr s)).
Proof.
  intros Hmissing. unfold Experiment_init.
  destruct (Py.getitem json_data (PStr "Path")) as [path |]; cbn [rbind];
    [| by eexists].
  destruct (Py.getitem json_data (PStr "Experiment_name")) as [name |]; cbn [rbind];
    [| by eexists].
  apply rbind_raises. unfold aoi_initialisation, drawAOI.
  destruct (String.eqb s "draw").
  - destruct Hmissing as [[x Hw] | [x Hh]].
    + rewrite Hw. by eexists.
    + rewrite Hh.
      destruct (Py.getpath json_data
                  ["Analysis_Params"; "EyeTracker"; "Display_width"]); by eexists.
  - destruct Hmissing as [[x Hw] | [x Hh]].
    + rewrite Hw. by eexists.
    + rewrite Hh.
      destruct (Py.getpath json_data
                  ["Analysis_Params"; "EyeTracker"; "Display_width"]); by eexists.
Qed.

(** ** The subjects after [metaMatrixInitialisation] *)

Lemma seq_prefix (n : nat) (visited : list nat) (i : nat) (rest : list nat) :
  seq 0 n = visited ++ i :: rest -> i = length visited.
Proof.
  without_collaborators.
  intros Hseq.
  assert (Hi : seq 0 n !! length visited = Some i).
  { rewrite Hseq. by apply list_lookup_middle. }
  apply lookup_seq in Hi. lia.
Qed.

Lemma rest_of_fill_keeps_subjects i (k : Subject.t -> ST Experiment unit)
    (L : list Subject.t) :
  (forall sub, preserves (fun e => subjects e = L) (k sub)) ->
  preserves (fun e => subjects e = L) (st_bind (on_subject i st_get) k).
Proof.
  without_collaborators.
  intros Hk e He. unfold st_bind, on_subject at 1.
  destruct (subjects e !! i) as [sub |] eqn:Hsub; [| done]. simpl.
  apply Hk. simpl. rewrite <- He. by apply list_insert_id.
Qed.

Lemma fill_cells_keep_subjects i sub (L : list Subject.t) :
  preserves (fun e => subjects e = L)
    (st_bind (set_subject_type i (Subject.subj_type sub)) (fun _ =>
       for_each (enumerate (map fst (Subject.aggregate_meta sub)))
         (fun '(stim_index, stimuli_type) =>
            st_bind (st_lift (Py.dict_get (Subject.aggregate_meta sub) stimuli_type))
              (fun metas =>
                 for_each (map fst metas) (fun meta =>
                   st_bind (st_lift (Py.dict_get metas meta))
                     (fun v => set_cell meta i stim_index v)))))).
Proof.
  apply preserves_bind.
  { intros e He. unfold set_subject_type.
    by destruct (i <? length (fst (meta_matrix_dict e)))%nat. }
  intros _. apply preserves_for_each. intros [stim_index stimuli_type].
  apply preserves_bind; [apply preserves_lift |]. intros metas.
  apply preserves_for_each. intros meta.
  apply preserves_bind; [apply preserves_lift |]. intros v.
  intros e He. unfold set_cell.
  destruct (snd (meta_matrix_dict e) !! meta) as [b |]; [| done].
  by destruct (Np.set b i stim_index v).
Qed.

(** X22. A run of [metaMatrixInitialisation] that returns has called
    [subjectAnalysis] on every subject, with the averaging flag first and
    the standardising flag second, and every call returned; the subjects
    the experiment holds afterwards are what these calls left, in the same
    order. *)
Theorem metaMatrixInitialisation_analyses_each e0 standardise_flag average_flag e :
  metaMatrixInitialisation standardise_flag average_flag e0 = (Ok tt, e) ->
  Forall (fun sub => fst (subjectAnalysis average_flag standardise_flag sub) = Ok tt)
         (subjects e0) /\
  subjects e =
  map (fun sub => snd (subjectAnalysis average_flag standardise_flag sub))
      (subjects e0).
Proof.
  set (f := fun sub => snd (subjectAnalysis average_flag standardise_flag sub)).
  set (ok := fun sub => fst (subjectAnalysis average_flag standardise_flag sub) = Ok tt).
  unfold metaMatrixInitialisation, st_bind.
  destruct (allocate_frame e0) as (Hsubs1 & _ & _).
  destruct (allocate_matrices e0) as [[[] | x] e1]; [| done].
  simpl in Hsubs1. unfold st_get. rewrite Hsubs1. intros Hloop.
  set (l0 := subjects e0) in *.
  pose (Inv := fun (visited : list nat) (e' : Experiment) =>
                 Forall ok (take (length visited) l0) /\
                 subjects e' = map f (take (length visited) l0)
                               ++ drop (length visited) l0).
  assert (Hall : Inv (seq 0 (length l0)) e).
  { apply (for_each_prefix Inv (seq 0 (length l0))
             (fill_subject standardise_flag average_flag))
      with (s := e1) (a := tt); [| | done].
    2:{ split; [by constructor |]. simpl. by rewrite drop_0. }
    intros visited i rest Hseq. apply seq_prefix in Hseq as ->.
    unfold fill_subject.
    eapply hoare_bind with (Q := fun _ => Inv (visited ++ [length visited])).
    - intros e2 u e3 [Hok Hsubs] Hrun.
      apply on_subject_ok in Hrun as (sub & sub' & Hsub & Hm & ->).
      assert (Hk : length visited < length l0).
      { apply lookup_lt_Some in Hsub. rewrite Hsubs in Hsub.
        rewrite length_app, length_map, length_take, length_drop in Hsub. lia. }
      assert (Hsub0 : l0 !! length visited = Some sub).
      { rewrite Hsubs in Hsub. rewrite lookup_app_r in Hsub
          by (rewrite length_map, length_take; lia).
        rewrite length_map, length_take in Hsub.
        rewrite lookup_drop in Hsub.
        replace (length visited + (length visited - length visited `min` length l0))
          with (length visited) in Hsub by lia.
        done. }
      unfold Inv. rewrite length_app. simpl. rewrite Nat.add_1_r.
      rewrite (take_S_r _ _ _ Hsub0). split.
      + apply Forall_app. split; [done |]. constructor; [| done].
        unfold ok. rewrite Hm. by destruct u.
      + simpl. rewrite Hsubs. rewrite (drop_S _ _ _ Hsub0).
        rewrite map_app. simpl. rewrite <- app_assoc. simpl.
        replace (length visited) with (length (map f (take (length visited) l0)) + 0)
          at 1 by (rewrite length_map, length_take; lia).
        rewrite insert_app_r. simpl. unfold f at 3. by rewrite Hm.
    - intros u.
      apply hoare_consequence with
        (P' := fun e' => subjects e' =
                 map f (take (length (visited ++ [length visited])) l0)
                 ++ drop (length (visited ++ [length visited])) l0
                 /\ Forall ok (take (length (visited ++ [length visited])) l0))
        (Q' := fun _ e' => subjects e' =
                 map f (take (length (visited ++ [length visited])) l0)
                 ++ drop (length (visited ++ [length visited])) l0
                 /\ Forall ok (take (length (visited ++ [length visited])) l0)).
      + intros e2 u2 e3 [Hsubs Hok] Hrun. split; [| done].
        pose proof (rest_of_fill_keeps_subjects (length visited) _ _
                      (fun sub => fill_cells_keep_subjects (length visited) sub _)
                      e2 Hsubs) as Hkeep.
        by rewrite Hrun in Hkeep.
      + by intros e2 [Hok Hsubs].
      + by intros u2 e2 [Hsubs Hok]. }
  destruct Hall as [Hok Hsubs]. rewrite length_seq in Hok, Hsubs.
  rewrite take_ge in Hok, Hsubs by lia. rewrite drop_ge in Hsubs by lia.
  rewrite app_nil_r in Hsubs. done.
Qed.


(** ** What [analyse] and [getMetaData] need *)

(** X23. [analyse] returns only if the configuration lists the columns of
    the eye tracker in a container that can be searched for GazeAOI, also
    when the eye tracker is not among the experiment's sensors, and every
    sensor of the experiment is a key of [Sensor.meta_cols]. *)
Theorem analyse_returns_only_if e json_data parameter_list between_factor_list
    within_factor_list statistical_test w :
  fst (analyse e json_data parameter_list between_factor_list within_factor_list
         statistical_test w) = Ok tt ->
  (exists eye_columns has_aoi,
     Py.getpath json_data ["Columns_of_interest"; "EyeTracker"] = Ok eye_columns /\
     Py.contains_str eye_columns "GazeAOI" = Ok has_aoi) /\
  Forall (fun sen => exists metas, Py.dict_get Sensor_meta_cols sen = Ok metas)
         (sensors e).
Proof.
  intros Hok. unfold analyse in Hok.
  apply st_bind_returned in Hok as (eye_columns & w1 & Heye & Hok).
  apply st_bind_returned in Hok as (has_aoi & w2 & Hhas & Hok).
  split.
  - exists eye_columns, has_aoi. unfold st_lift in Heye, Hhas.
    split; congruence.
  - apply Forall_forall. intros sen Hsen%list_elem_of_In.
    destruct (for_each_returned _ _ _ sen Hok Hsen) as [w3 Hsensor].
    apply st_bind_returned in Hsensor as (metas & w4 & Hget & _).
    exists metas. unfold st_lift in Hget. congruence.
Qed.

(** X24. On an experiment without any stimulus category, [getMetaData]
    with a stimulus searches nothing: it asks the first subject that equals
    [sub] for the metadata under the empty category name at position -1. *)
Theorem getMetaData_no_category e sub stim sensor before s after :
  subjects e = before ++ s :: after ->
  Forall (fun s' => Subject_eqb s' sub = false) before ->
  Subject_eqb s sub = true ->
  stimuli e = [] ->
  getMetaData e sub (Some stim) sensor =
  stimulus_metadata s (PStr "") (-1) sensor.
Proof.
  intros Hsubs Hbefore Hs Hstim. unfold getMetaData. rewrite Hsubs at 1.
  rewrite (subjects_index_first _ _ _ _ Hbefore Hs). simpl.
  rewrite Hstim. simpl.
  by rewrite (nth_subject_middle e before s after Hsubs).
Qed.

End Properties.

Example demo_init_ok : demo_init "SQL" (PStr "NA") = Ok demo_experiment.
Proof. reflexivity. Qed.

Example demo_rows :
  df_rows (data (snd (demo_assemble demo_run ["Subject_type"]))) =
  [[one; PStr "T"; PStr "A"; PStr "s1"]; [two; PStr "T"; PStr "A"; PStr "s1"];
   [three; PStr "T"; PStr "B"; PStr "s1"];
   [one; PStr "T"; PStr "A"; PStr "s2"]; [two; PStr "T"; PStr "A"; PStr "s2"];
   [three; PStr "T"; PStr "B"; PStr "s2"]].
Proof. vm_compute. reflexivity. Qed.

(** ** Instances of the theorems on the worked experiment *)

Lemma indicator_matrix_shape_witness :
  demo_init "SQL" (PStr "NA") = Ok demo_experiment /\
  snd (meta_matrix_dict demo_run) !! "blink_rate" =
    Some (Np.mk_ndarray 2 2
            [[PList [one; two]; PList [three]]; [PList [one; two]; PList [three]]]) /\
  2%nat = length (subjects demo_run) /\
  2%nat = size (list_to_set ["A"; "B"] : gset string).
Proof.
  split; [reflexivity |]. split; [vm_compute; reflexivity |].
  destruct (indicator_matrix_shape (Ext := demo) "exp.json" demo_config
              "SQL" ["EyeTracker"] (PStr "NA")
              [("A", PList [PStr "img1"]); ("B", PList [PStr "img2"])]
              demo_experiment demo_run "blink_rate"
              (Np.mk_ndarray 2 2
                 [[PList [one; two]; PList [three]];
                  [PList [one; two]; PList [three]]]))
    as (H0 & H1 & _).
  - reflexivity.
  - reflexivity.
  - apply run_first.
  - vm_compute. reflexivity.
  - split; [exact H0 | exact H1].
Defined.



Lemma analyse_dataframe_columns_witness :
  exists c,
    In c (pg_calls (snd (analyse (Ext := demo) demo_run
                           demo_config ["all"] ["Subject_type"] ["Stimuli_type"]
                           "Mixed_anova" initial_world))) /\
    pg_dv c = "blink_rate" /\
    df_columns (pg_data c) = ["blink_rate"; "Subject_type"; "Stimuli_type"; "subject"].
Proof.
  assert (Hin : exists c,
    In c (pg_calls (snd (analyse (Ext := demo) demo_run
                           demo_config ["all"] ["Subject_type"] ["Stimuli_type"]
                           "Mixed_anova" initial_world))) /\
    pg_dv c = "blink_rate").
  { eexists. split; [vm_compute; left; reflexivity | reflexivity]. }
  destruct Hin as (c & Hin & Hdv). exists c. split; [exact Hin |].
  split; [exact Hdv |].
  rewrite <- Hdv.
  exact (proj2 (analyse_dataframe_columns (Ext := demo)
                  demo_run demo_config ["Subject_type"] ["Stimuli_type"])
               ["all"] "Mixed_anova" initial_world c eq_refl Hin).
Defined.



Lemma subjectArrayInitialisation_sources_witness :
  subjectArrayInitialisation (Ext := demo) (PStr "/exp") demo_stimuli demo_columns
    "exp.json"
    ["EyeTracker"] demo_display demo_config "SQL"
  = Ok [demo_subject "s1"; demo_subject "s2"] /\
  exists p n,
    PStr "/exp" = PStr p /\
    Py.getitem demo_config (PStr "Experiment_name") = Ok (PStr n) /\
    Forall (fun s => Subject.database s =
              SqlEngine (((("sqlite:///" +:+ p) +:+ "/Data/") +:+ n) +:+ ".db"))
           [demo_subject "s1"; demo_subject "s2"].
Proof.
  split; [reflexivity |].
  exact (proj1 (subjectArrayInitialisation_sources (Ext := demo) (PStr "/exp")
                  demo_stimuli
                  demo_columns "exp.json" ["EyeTracker"] demo_display demo_config
                  "SQL" [demo_subject "s1"; demo_subject "s2"] eq_refl) eq_refl).
Defined.

Lemma indicator_matrix_lazily_built_witness :
  demo_init "SQL" (PStr "NA") = Ok demo_experiment /\
  snd (meta_matrix_dict demo_experiment) = ∅ /\
  (is_Some (snd (meta_matrix_dict demo_run) !! "blink_rate") <->
   listed_indicator (Ext := demo) "blink_rate") /\
  matrix_cell demo_run "blink_rate" 1 1 = Ok (PList [three]).
Proof.
  split; [reflexivity |].
  destruct (indicator_matrix_lazily_built (Ext := demo) "exp.json" demo_config
              "SQL" ["EyeTracker"] (PStr "NA") demo_experiment eq_refl)
    as (Hempty & Hkeys & Hfill).
  split; [exact Hempty |]. split; [exact (Hkeys false false "blink_rate") |].
  apply (Hfill false false demo_run 1%nat
           (with_aggregate_meta (demo_subject "s2")
              [("A", [("blink_rate", PList [one; two])]);
               ("B", [("blink_rate", PList [three])])])).
  - vm_compute. reflexivity.
  - vm_compute. reflexivity.
  - exists "B", [("blink_rate", PList [three])].
    split; [right; left; reflexivity | split; reflexivity].
Defined.

Lemma columnsArrayInitialisation_concat_witness :
  columnsArrayInitialisation ["EyeTracker"] demo_config = Ok demo_columns /\
  exists groups,
    Forall2 (fun col_class names =>
               rbind (Py.getpath demo_config ["Columns_of_interest"; col_class])
                 Py.iter = Ok names)
            ["EyeTracker"; "Extra"] groups /\
    demo_columns = concat groups.
Proof.
  split; [reflexivity |].
  exact (proj1 (columnsArrayInitialisation_concat ["EyeTracker"] demo_config
                  demo_columns) eq_refl).
Defined.

Lemma subjectArrayInitialisation_unknown_method_witness :
  "XML" <> "SQL" /\ "XML" <> "CSV" /\
  Py.getitem demo_config (PStr "Subjects")
    = Ok (PDict [("T", PList [PStr "s1"; PStr "s2"])]) /\
  exists x,
    subjectArrayInitialisation (Ext := demo) (PStr "/exp") demo_stimuli demo_columns
      "exp.json"
      ["EyeTracker"] demo_display demo_config "XML" = Raise x /\
    (x = UnboundLocalError \/
     exists k', In k' [PStr "T"] /\
       rbind (Py.getitem (PDict [("T", PList [PStr "s1"; PStr "s2"])]) k') Py.iter
       = Raise x).
Proof.
  assert (Hsql : "XML" <> "SQL") by discriminate.
  assert (Hcsv : "XML" <> "CSV") by discriminate.
  split; [exact Hsql |]. split; [exact Hcsv |]. split; [reflexivity |].
  exact (subjectArrayInitialisation_unknown_method (Ext := demo) (PStr "/exp")
           demo_stimuli
           demo_columns "exp.json" ["EyeTracker"] demo_display demo_config "XML"
           (PDict [("T", PList [PStr "s1"; PStr "s2"])]) [PStr "T"] (PStr "T")
           (PStr "s1") [PStr "s2"] Hsql Hcsv eq_refl eq_refl
           (or_introl eq_refl) eq_refl).
Defined.

Lemma getMetaData_first_category_only_witness :
  stimuli demo_experiment =
    (PStr "A", PList [PStr "img1"]) :: [(PStr "B", PList [PStr "img2"])] /\
  In (PStr "img2") [PStr "img2"] /\
  raises (Py.index_of (PList [PStr "img1"]) "img2") /\
  raises (getMetaData (Ext := demo) demo_experiment (PStr "s1") (Some "img2")
            "EyeTracker").
Proof.
  assert (Habsent : raises (Py.index_of (PList [PStr "img1"]) "img2")).
  { exists ValueError. reflexivity. }
  split; [reflexivity |]. split; [left; reflexivity |]. split; [exact Habsent |].
  exact (proj2 (proj2 (getMetaData_first_category_only (Ext := demo) demo_experiment
                         (PStr "s1") "img2" "EyeTracker"))
               (PStr "A") (PList [PStr "img1"]) [(PStr "B", PList [PStr "img2"])]
               eq_refl Habsent).
Defined.

Lemma aoi_coords_from_argument_witness :
  demo_init "SQL" (PStr "whole screen") = Ok demo_experiment /\
  "whole screen" <> "draw" /\
  exists w h,
    Py.getpath demo_config ["Analysis_Params"; "EyeTracker"; "Display_width"] = Ok w /\
    Py.getpath demo_config ["Analysis_Params"; "EyeTracker"; "Display_height"] = Ok h /\
    aoi_coords demo_experiment = PTuple [PInt 0; PInt 0; w; h].
Proof.
  assert (Hne : "whole screen" <> "draw") by discriminate.
  split; [reflexivity |]. split; [exact Hne |].
  exact (proj1 (aoi_coords_from_argument (Ext := demo)
                  "exp.json" demo_config "SQL" ["EyeTracker"] (PStr "whole screen")
                  demo_experiment eq_refl)
               "whole screen" eq_refl Hne).
Defined.


(** ** Instances of the further properties *)

Lemma stimuliArrayInitialisation_copy_witness :
  Py.getitem demo_config (PStr "Stimuli") =
    Ok (PDict [("A", PList [PStr "img1"]); ("B", PList [PStr "img2"])]) /\
  NoDup (map fst [("A", PList [PStr "img1"]); ("B", PList [PStr "img2"])]) /\
  stimuliArrayInitialisation demo_config = Ok demo_stimuli.
Proof.
  assert (Hnd : NoDup (map fst [("A", PList [PStr "img1"]);
                                ("B", PList [PStr "img2"])])).
  { apply (bool_decide_unpack _). vm_compute. exact I. }
  split; [reflexivity |]. split; [exact Hnd |].
  exact (stimuliArrayInitialisation_copy demo_config
           [("A", PList [PStr "img1"]); ("B", PList [PStr "img2"])] eq_refl Hnd).
Defined.

Lemma Experiment_init_subjects_witness :
  demo_init "SQL" (PStr "NA") = Ok demo_experiment /\
  length (fst (meta_matrix_dict demo_experiment)) = length (subjects demo_experiment) /\
  Forall (fun s =>
            Subject.path s = path demo_experiment /\
            Subject.stimuli s = stimuli demo_experiment /\
            Subject.columns s = columns demo_experiment /\
            Subject.json_file s = "exp.json" /\
            Subject.sensors s = ["EyeTracker"] /\
            Subject.reading_method s = "SQL" /\
            Subject.aoi_coords s = aoi_coords demo_experiment /\
            Subject.aggregate_meta s = [])
         (subjects demo_experiment).
Proof.
  split; [reflexivity |].
  exact (Experiment_init_subjects (Ext := demo) "exp.json" demo_config "SQL"
           ["EyeTracker"] (PStr "NA") demo_experiment eq_refl).
Defined.

Lemma subjectArrayInitialisation_no_subject_witness :
  "XML" <> "SQL" /\ "XML" <> "CSV" /\
  subjectArrayInitialisation (Ext := demo) (PStr "/exp") demo_stimuli demo_columns
    "exp.json" ["EyeTracker"] demo_display no_subject_config "XML" = Ok [].
Proof.
  assert (H1 : "XML" <> "SQL") by discriminate.
  assert (H2 : "XML" <> "CSV") by discriminate.
  split; [exact H1 |]. split; [exact H2 |].
  apply (proj2 (subjectArrayInitialisation_no_subject (Ext := demo) (PStr "/exp")
                  demo_stimuli demo_columns "exp.json" ["EyeTracker"] demo_display
                  no_subject_config "XML" [] H1 H2)).
  split; [reflexivity |].
  exists (PDict [("T", PList [])]), [PStr "T"].
  split; [reflexivity |]. split; [reflexivity |].
  constructor; [reflexivity | constructor].
Defined.

Lemma metaMatrixInitialisation_returns_only_within_witness :
  demo_init "SQL" (PStr "NA") = Ok demo_experiment /\
  metaMatrixInitialisation (Ext := demo) false false demo_experiment = (Ok tt, demo_run) /\
  subjects demo_run !! 1%nat = Some (analysed_subject "s2") /\
  expected_cell (analysed_subject "s2") 1 "blink_rate" (PList [three]) /\
  listed_indicator (Ext := demo) "blink_rate" /\
  1 < length (stimuli demo_experiment).
Proof.
  assert (Hrun : metaMatrixInitialisation (Ext := demo) false false demo_experiment
                 = (Ok tt, demo_run)) by (vm_compute; reflexivity).
  assert (Hsub : subjects demo_run !! 1%nat = Some (analysed_subject "s2"))
    by (vm_compute; reflexivity).
  assert (Hexp : expected_cell (analysed_subject "s2") 1 "blink_rate" (PList [three])).
  { exists "B", [("blink_rate", PList [three])].
    split; [right; left; reflexivity | split; reflexivity]. }
  split; [reflexivity |]. split; [exact Hrun |]. split; [exact Hsub |].
  split; [exact Hexp |].
  exact (metaMatrixInitialisation_returns_only_within (Ext := demo) "exp.json"
           demo_config "SQL" ["EyeTracker"] (PStr "NA") demo_experiment false false
           demo_run 1%nat (analysed_subject "s2") 1%nat "blink_rate" (PList [three])
           eq_refl Hrun Hsub Hexp).
Defined.

Lemma metaMatrixInitialisation_subject_types_witness :
  demo_init "SQL" (PStr "NA") = Ok demo_experiment /\
  metaMatrixInitialisation (Ext := demo) false false demo_experiment = (Ok tt, demo_run) /\
  fst (meta_matrix_dict demo_run) =
  map (fun sub => np_str (Collaborators := demo) (Subject.subj_type sub))
      (subjects demo_run).
Proof.
  assert (Hrun : metaMatrixInitialisation (Ext := demo) false false demo_experiment
                 = (Ok tt, demo_run)) by (vm_compute; reflexivity).
  split; [reflexivity |]. split; [exact Hrun |].
  exact (metaMatrixInitialisation_subject_types (Ext := demo) "exp.json"
           demo_config "SQL" ["EyeTracker"] (PStr "NA") demo_experiment false false
           demo_run eq_refl Hrun).
Defined.

Lemma metaMatrixInitialisation_stores_nothing_else_witness :
  demo_init "SQL" (PStr "NA") = Ok demo_experiment /\
  metaMatrixInitialisation (Ext := demo) false false demo_experiment = (Ok tt, demo_run) /\
  matrix_cell demo_run "blink_rate" 0 1 = Ok (PList [three]) /\
  (PList [three] = PNone \/
   exists sub, subjects demo_run !! 0%nat = Some sub /\
               expected_cell sub 1 "blink_rate" (PList [three])).
Proof.
  assert (Hrun : metaMatrixInitialisation (Ext := demo) false false demo_experiment
                 = (Ok tt, demo_run)) by (vm_compute; reflexivity).
  assert (Hcell : matrix_cell demo_run "blink_rate" 0 1 = Ok (PList [three]))
    by (vm_compute; reflexivity).
  split; [reflexivity |]. split; [exact Hrun |]. split; [exact Hcell |].
  exact (metaMatrixInitialisation_stores_nothing_else (Ext := demo) "exp.json"
           demo_config "SQL" ["EyeTracker"] (PStr "NA") demo_experiment false false
           demo_run "blink_rate" 0%nat 1%nat (PList [three]) eq_refl Hrun Hcell).
Defined.

Lemma assemble_after_metaMatrixInitialisation_witness :
  demo_init "SQL" (PStr "NA") = Ok demo_experiment /\
  metaMatrixInitialisation (Ext := demo) false false demo_experiment = (Ok tt, demo_run) /\
  listed_indicator (Ext := demo) "blink_rate" /\
  Forall (fun sub => length (Subject.aggregate_meta sub) <= length (stimuli demo_run))
         (subjects demo_run) /\
  fst (demo_assemble demo_run ["Subject_type"; "Gender"]) = Ok tt.
Proof.
  assert (Hrun : metaMatrixInitialisation (Ext := demo) false false demo_experiment
                 = (Ok tt, demo_run)) by (vm_compute; reflexivity).
  assert (Hlisted : listed_indicator (Ext := demo) "blink_rate").
  { exists "EyeTracker", ["blink_rate"; "pupil_size"].
    split; [reflexivity | left; reflexivity]. }
  assert (Hbound : Forall (fun sub => length (Subject.aggregate_meta sub)
                                      <= length (stimuli demo_run))
                          (subjects demo_run)).
  { vm_compute. repeat constructor. }
  split; [reflexivity |]. split; [exact Hrun |]. split; [exact Hlisted |].
  split; [exact Hbound |].
  exact (assemble_after_metaMatrixInitialisation (Ext := demo) "exp.json"
           demo_config "SQL" ["EyeTracker"] (PStr "NA") demo_experiment false false
           demo_run demo_config "blink_rate" ["Subject_type"; "Gender"]
           ["Stimuli_type"] initial_world eq_refl Hrun Hlisted Hbound).
Defined.

Lemma analyse_dataset_of_subjects_witness :
  demo_init "SQL" (PStr "NA") = Ok demo_experiment /\
  metaMatrixInitialisation (Ext := demo) false false demo_experiment = (Ok tt, demo_run) /\
  subject_values (analysed_subject "s1") "A" "blink_rate" = Ok [one; two] /\
  fst (demo_assemble demo_run ["Subject_type"]) = Ok tt /\
  df_rows (data (snd (demo_assemble demo_run ["Subject_type"]))) =
  rows_of_subjects demo_run "blink_rate".
Proof.
  assert (Hrun : metaMatrixInitialisation (Ext := demo) false false demo_experiment
                 = (Ok tt, demo_run)) by (vm_compute; reflexivity).
  split; [reflexivity |]. split; [exact Hrun |]. split; [reflexivity |].
  apply (analyse_dataset_of_subjects (Ext := demo) "exp.json"
           demo_config "SQL" ["EyeTracker"] (PStr "NA") demo_experiment false false
           demo_run demo_config "blink_rate" initial_world eq_refl Hrun).
  intros sub stimuli_type Hsub Hst. vm_compute in Hsub.
  destruct Hsub as [<- | [<- | []]]; vm_compute in Hst;
    destruct Hst as [<- | [<- | []]];
    eexists; (split; [vm_compute; reflexivity | repeat constructor]).
Defined.

Lemma assemble_without_matrix_witness :
  snd (meta_matrix_dict analysed_only) !! "blink_rate" = None /\
  fst (demo_assemble analysed_only ["Subject_type"]) = Raise KeyError /\
  df_rows (data (snd (demo_assemble analysed_only ["Subject_type"]))) = [].
Proof.
  assert (Hnone : snd (meta_matrix_dict analysed_only) !! "blink_rate" = None)
    by (vm_compute; reflexivity).
  split; [exact Hnone |].
  exact (assemble_without_matrix (Ext := demo) analysed_only demo_config
           "blink_rate" ["Subject_type"] ["Stimuli_type"] initial_world Hnone).
Defined.

Lemma analyse_unknown_test_witness :
  "Friedman" <> "Mixed_anova" /\ "Friedman" <> "RM_anova" /\
  "Friedman" <> "ttest" /\ "Friedman" <> "anova" /\
  pg_calls (snd (analyse (Ext := demo) demo_run demo_config ["all"]
                   ["Subject_type"] ["Stimuli_type"] "Friedman" initial_world))
  = pg_calls initial_world.
Proof.
  assert (H1 : "Friedman" <> "Mixed_anova") by discriminate.
  assert (H2 : "Friedman" <> "RM_anova") by discriminate.
  assert (H3 : "Friedman" <> "ttest") by discriminate.
  assert (H4 : "Friedman" <> "anova") by discriminate.
  do 4 (split; [assumption |]).
  exact (analyse_unknown_test (Ext := demo) demo_run demo_config ["all"]
           ["Subject_type"] ["Stimuli_type"] "Friedman" initial_world H1 H2 H3 H4).
Defined.

Lemma analyse_mixed_anova_without_factor_witness :
  ([] = @nil string \/ ["Stimuli_type"] = []) /\
  pg_calls (snd (analyse (Ext := demo) demo_run demo_config ["all"] []
                   ["Stimuli_type"] "Mixed_anova" initial_world))
  = pg_calls initial_world /\
  fst (analyse (Ext := demo) demo_run demo_config ["all"] []
         ["Stimuli_type"] "Mixed_anova" initial_world) = Raise IndexError.
Proof.
  assert (Hempty : [] = @nil string \/ ["Stimuli_type"] = []) by (left; reflexivity).
  split; [exact Hempty |].
  split; [| vm_compute; reflexivity].
  exact (proj1 (analyse_mixed_anova_without_factor (Ext := demo) demo_run demo_config
                  ["all"] [] ["Stimuli_type"] initial_world Hempty)).
Defined.

Lemma getMetaData_unknown_subject_witness :
  Forall (fun s => Subject_eqb (Collaborators := demo) s (PStr "s3") = false)
         (subjects demo_experiment) /\
  getMetaData (Ext := demo) demo_experiment (PStr "s3") (Some "img1") "EyeTracker"
  = Raise ValueError.
Proof.
  assert (Hnone : Forall (fun s => Subject_eqb (Collaborators := demo) s (PStr "s3")
                                   = false)
                         (subjects demo_experiment)).
  { repeat constructor. }
  split; [exact Hnone |].
  exact (getMetaData_unknown_subject (Ext := demo) demo_experiment (PStr "s3")
           (Some "img1") "EyeTracker" Hnone).
Defined.

Lemma getMetaData_aggregate_meta_witness :
  subjects demo_run = [analysed_subject "s1"] ++ analysed_subject "s2" :: [] /\
  Forall (fun s' => Subject_eqb (Collaborators := demo) s' (PStr "s2") = false)
         [analysed_subject "s1"] /\
  Subject_eqb (Collaborators := demo) (analysed_subject "s2") (PStr "s2") = true /\
  getMetaData (Ext := demo) demo_run (PStr "s2") None "EyeTracker" =
  Ok (PDict [("A", PDict [("blink_rate", PList [one; two])]);
             ("B", PDict [("blink_rate", PList [three])])]).
Proof.
  assert (Hsubs : subjects demo_run =
                  [analysed_subject "s1"] ++ analysed_subject "s2" :: [])
    by (vm_compute; reflexivity).
  assert (Hbefore : Forall (fun s' => Subject_eqb (Collaborators := demo) s' (PStr "s2")
                                      = false)
                           [analysed_subject "s1"]).
  { repeat constructor. }
  split; [exact Hsubs |]. split; [exact Hbefore |]. split; [reflexivity |].
  exact (getMetaData_aggregate_meta (Ext := demo) demo_run (PStr "s2") "EyeTracker"
           [analysed_subject "s1"] (analysed_subject "s2") [] Hsubs Hbefore eq_refl).
Defined.

Lemma getMetaData_first_category_witness :
  subjects demo_experiment = [demo_subject "s1"] ++ demo_subject "s2" :: [] /\
  Forall (fun s' => Subject_eqb (Collaborators := demo) s' (PStr "s2") = false)
         [demo_subject "s1"] /\
  Subject_eqb (Collaborators := demo) (demo_subject "s2") (PStr "s2") = true /\
  stimuli demo_experiment =
    (PStr "A", PList ([] ++ PStr "img1" :: [])) :: [(PStr "B", PList [PStr "img2"])] /\
  ~ In (PStr "img1") [] /\
  getMetaData (Ext := demo) demo_experiment (PStr "s2") (Some "img1") "EyeTracker" =
  stimulus_metadata (Collaborators := demo) (demo_subject "s2") (PStr "A") 0 "EyeTracker".
Proof.
  assert (Hbefore : Forall (fun s' => Subject_eqb (Collaborators := demo) s' (PStr "s2")
                                      = false)
                           [demo_subject "s1"]).
  { repeat constructor. }
  assert (Hpre : ~ In (PStr "img1") []) by (intros []).
  split; [reflexivity |]. split; [exact Hbefore |]. split; [reflexivity |].
  split; [reflexivity |]. split; [exact Hpre |].
  exact (getMetaData_first_category (Ext := demo) demo_experiment (PStr "s2") "img1"
           "EyeTracker" [demo_subject "s1"] (demo_subject "s2") [] "A" [] []
           [(PStr "B", PList [PStr "img2"])] eq_refl Hbefore eq_refl eq_refl Hpre).
Defined.

Lemma button_click_group_witness :
  Visualize.chk_bt_var demo_window = Some [0; 1]%Z /\
  length [0; 1]%Z = length (Visualize.subjects demo_window) /\
  button_click demo_window None =
  Ok (GroupVisualize (demo_subject "s2") [demo_subject "s2"]).
Proof.
  split; [reflexivity |]. split; [reflexivity |].
  exact (button_click_group demo_window [0; 1]%Z eq_refl eq_refl).
Defined.

Lemma button_click_after_subFrameSetup_witness :
  Visualize.v demo_window = 1%Z /\
  button_click (subFrameSetup demo_window) None = Raise IndexError.
Proof.
  split; [reflexivity |].
  exact (button_click_after_subFrameSetup demo_window eq_refl).
Defined.

Lemma within_value_never_defined_witness :
  Py.kdict_get (stimuli demo_experiment) (PStr "A") = Ok (PList [PStr "img1"]) /\
  Py.getpath demo_config ["Stimuli"; "A"] = Ok (PList [PStr "img1"]) /\
  names_of_stimuli (PList [PStr "img1"]) /\
  raises (within_value demo_experiment demo_config 0 "A" "Difficulty").
Proof.
  assert (Hshape : names_of_stimuli (PList [PStr "img1"])).
  { constructor; [by exists "img1" | constructor]. }
  split; [reflexivity |]. split; [reflexivity |]. split; [exact Hshape |].
  exact (within_value_never_defined demo_experiment demo_config 0 "A" "Difficulty"
           (PList [PStr "img1"]) eq_refl eq_refl Hshape).
Defined.

Lemma between_value_defined_witness :
  Subject.subj_type (demo_subject "s1") = PStr "T" /\
  Subject.name (demo_subject "s1") = PStr "s1" /\
  between_value keyed_config (demo_subject "s1") "Gender" = Ok (PStr "F") /\
  exists group attributes,
    Py.getpath keyed_config ["Subjects"; "T"] = Ok (PDict group) /\
    Py.dict_get group "s1" = Ok attributes /\
    Py.getitem attributes (PStr "Gender") = Ok (PStr "F").
Proof.
  split; [reflexivity |]. split; [reflexivity |]. split; [reflexivity |].
  exact (between_value_defined keyed_config (demo_subject "s1") "Gender" "T" "s1"
           (PStr "F") eq_refl eq_refl eq_refl).
Defined.

Lemma store_value_nan_witness :
  np_isnan (Ext := demo) nan = Ok true /\
  fst (store_value (Ext := demo) demo_run demo_config ["Subject_type"] ["Stimuli_type"]
         (demo_subject "s1") 0 "A" nan
         (fresh_data "blink_rate" ["Subject_type"] ["Stimuli_type"] initial_world))
  = Ok tt /\
  df_rows (data (snd (store_value (Ext := demo) demo_run demo_config ["Subject_type"]
                        ["Stimuli_type"] (demo_subject "s1") 0 "A" nan
                        (fresh_data "blink_rate" ["Subject_type"] ["Stimuli_type"]
                           initial_world))))
  = [[nan; PStr "T"; PStr "A"; PStr "s1"]] /\
  stdout (snd (store_value (Ext := demo) demo_run demo_config ["Subject_type"]
                 ["Stimuli_type"] (demo_subject "s1") 0 "A" nan
                 (fresh_data "blink_rate" ["Subject_type"] ["Stimuli_type"]
                    initial_world)))
  = [NullValue [nan; PStr "T"; PStr "A"; PStr "s1"]].
Proof.
  split; [reflexivity |].
  rewrite (store_value_nan (Ext := demo) demo_run demo_config ["Subject_type"]
             ["Stimuli_type"] (demo_subject "s1") 0 "A" nan
             (fresh_data "blink_rate" ["Subject_type"] ["Stimuli_type"] initial_world)
             eq_refl eq_refl).
  split; [reflexivity |]. split; reflexivity.
Defined.

Lemma Experiment_init_needs_display_witness :
  (raises (Py.getpath no_display_config
             ["Analysis_Params"; "EyeTracker"; "Display_width"]) \/
   raises (Py.getpath no_display_config
             ["Analysis_Params"; "EyeTracker"; "Display_height"])) /\
  raises (Experiment_init (Ext := demo) "exp.json" no_display_config "SQL"
            ["EyeTracker"] (PStr "draw")).
Proof.
  assert (Hmissing :
            raises (Py.getpath no_display_config
                      ["Analysis_Params"; "EyeTracker"; "Display_width"]) \/
            raises (Py.getpath no_display_config
                      ["Analysis_Params"; "EyeTracker"; "Display_height"])).
  { left. exists KeyError. reflexivity. }
  split; [exact Hmissing |].
  exact (Experiment_init_needs_display (Ext := demo) "exp.json" no_display_config
           "SQL" ["EyeTracker"] "draw" Hmissing).
Defined.

Lemma metaMatrixInitialisation_analyses_each_witness :
  metaMatrixInitialisation (Ext := demo) false false demo_experiment = (Ok tt, demo_run) /\
  Forall (fun sub => fst (subjectAnalysis (Collaborators := demo) false false sub) = Ok tt)
         (subjects demo_experiment) /\
  subjects demo_run =
  map (fun sub => snd (subjectAnalysis (Collaborators := demo) false false sub))
      (subjects demo_experiment).
Proof.
  assert (Hrun : metaMatrixInitialisation (Ext := demo) false false demo_experiment
                 = (Ok tt, demo_run)) by (vm_compute; reflexivity).
  split; [exact Hrun |].
  exact (metaMatrixInitialisation_analyses_each (Ext := demo) demo_experiment
           false false demo_run Hrun).
Defined.

Lemma analyse_returns_only_if_witness :
  fst (analyse (Ext := demo) demo_run demo_config ["all"] ["Subject_type"]
         ["Stimuli_type"] "Mixed_anova" initial_world) = Ok tt /\
  (exists eye_columns has_aoi,
     Py.getpath demo_config ["Columns_of_interest"; "EyeTracker"] = Ok eye_columns /\
     Py.contains_str eye_columns "GazeAOI" = Ok has_aoi) /\
  Forall (fun sen => exists metas,
            Py.dict_get (Sensor_meta_cols (Collaborators := demo)) sen = Ok metas)
         (sensors demo_run).
Proof.
  assert (Hok : fst (analyse (Ext := demo) demo_run demo_config ["all"]
                       ["Subject_type"] ["Stimuli_type"] "Mixed_anova" initial_world)
                = Ok tt) by (vm_compute; reflexivity).
  split; [exact Hok |].
  exact (analyse_returns_only_if (Ext := demo) demo_run demo_config ["all"]
           ["Subject_type"] ["Stimuli_type"] "Mixed_anova" initial_world Hok).
Defined.

Lemma getMetaData_no_category_witness :
  subjects no_stimuli_experiment = [] ++ demo_subject "s1" :: [demo_subject "s2"] /\
  Forall (fun s' => Subject_eqb (Collaborators := demo) s' (PStr "s1") = false) [] /\
  Subject_eqb (Collaborators := demo) (demo_subject "s1") (PStr "s1") = true /\
  stimuli no_stimuli_experiment = [] /\
  getMetaData (Ext := demo) no_stimuli_experiment (PStr "s1") (Some "img1") "EyeTracker" =
  stimulus_metadata (Collaborators := demo) (demo_subject "s1") (PStr "") (-1)
    "EyeTracker".
Proof.
  assert (Hbefore : Forall (fun s' => Subject_eqb (Collaborators := demo) s' (PStr "s1")
                                      = false) []) by constructor.
  split; [reflexivity |]. split; [exact Hbefore |]. split; [reflexivity |].
  split; [reflexivity |].
  exact (getMetaData_no_category (Ext := demo) no_stimuli_experiment (PStr "s1")
           "img1" "EyeTracker" [] (demo_subject "s1") [demo_subject "s2"]
           eq_refl Hbefore eq_refl eq_refl).
Defined.
